(** * Gemini relay: credential rotation, response classification, presentation

    A shallow embedding of the model layer ([models/geminiModel.js]), the
    controller ([controllers/generationController.js]) and the error
    middleware ([utils/errorHandler.js]) of the relay, together with the
    properties its specification states about them.

    JavaScript values are modelled by the JSON-like fragment the upstream
    payload lives in (plus [undefined]); exceptions by an error monad;
    the module-level rotation cursor by explicit state passing. *)

From Stdlib Require Import String Ascii List ZArith Arith Bool Lia DecimalString DecimalNat.
Import ListNotations.
Local Open Scope string_scope.

(** ** JavaScript values *)

Module Js.

(** The values a payload can hold.  A Number is denoted by its canonical
    [ToString] text (["0"], ["12"], ["1.5"], ["NaN"], ...): the code only
    tests numbers for truthiness, compares them with [0] and prints them.
    A string is a sequence of characters with code below 256, the Latin-1
    range of the code units of a JavaScript string. *)
#[warnings="-register-all"]
Inductive JsVal : Type :=
| JUndefined
| JNull
| JBool (b : bool)
| JNum (repr : string)
| JStr (s : string)
| JArr (elems : list JsVal)
| JObj (fields : list (string * JsVal)).

(** Thrown values.  [ApiError] is the class of utils/errorHandler.js; every
    other error object (a [TypeError] of the engine, an error of the SDK)
    is an [OtherError] with the properties the code reads from it. *)
Inductive JsError : Type :=
| ApiError (statusCode : Z) (message : string) (details : JsVal)
| OtherError (name message : string) (status response etype : JsVal).

Definition TypeError (msg : string) : JsError :=
  OtherError "TypeError" msg JUndefined JUndefined JUndefined.

Definition message (e : JsError) : string :=
  match e with
  | ApiError _ m _ => m
  | OtherError _ m _ _ _ => m
  end.

(** Completion of an expression or statement: a value, or a throw. *)
Inductive Completion (A : Type) : Type :=
| Normal (a : A)
| Throw (e : JsError).
Arguments Normal {A} a.
Arguments Throw {A} e.

Definition bind {A B} (c : Completion A) (k : A -> Completion B) : Completion B :=
  match c with
  | Normal a => k a
  | Throw e => Throw e
  end.

(** [try { c } catch (error) { h error }] *)
Definition try_catch {A} (c : Completion A) (h : JsError -> Completion A) : Completion A :=
  match c with
  | Normal a => Normal a
  | Throw e => h e
  end.

Notation "'let!' x ':=' c 'in' k" := (bind c (fun x => k))
  (at level 10, x name, c at level 100, k at level 200).

(** ToBoolean *)
Definition truthy (v : JsVal) : bool :=
  match v with
  | JUndefined | JNull => false
  | JBool b => b
  | JNum r => negb (r =? "0") && negb (r =? "NaN")
  | JStr s => negb (s =? "")
  | JArr _ | JObj _ => true
  end.

Definition nullish (v : JsVal) : bool :=
  match v with
  | JUndefined | JNull => true
  | _ => false
  end.

(** [a || b] *)
Definition or_else (a b : JsVal) : JsVal := if truthy a then a else b.

(** The Number [n], for a length. *)
Definition num_of_nat (n : nat) : JsVal :=
  JNum (NilZero.string_of_uint (Nat.to_uint n)).

Definition lookup (k : string) (fs : list (string * JsVal)) : JsVal :=
  match find (fun p => fst p =? k) fs with
  | Some p => snd p
  | None => JUndefined
  end.

(** [v.k] on a value that is neither [undefined] nor [null], for a property
    name [k] that is not an index.  Strings and arrays own [length];
    booleans and numbers own nothing the code asks for. *)
Definition prop (v : JsVal) (k : string) : JsVal :=
  match v with
  | JObj fs => lookup k fs
  | JArr l => if k =? "length" then num_of_nat (List.length l) else JUndefined
  | JStr s => if k =? "length" then num_of_nat (String.length s) else JUndefined
  | _ => JUndefined
  end.

(** [v[0]] on a value that is neither [undefined] nor [null]. *)
Definition item0 (v : JsVal) : JsVal :=
  match v with
  | JObj fs => lookup "0" fs
  | JArr l => hd JUndefined l
  | JStr (String c _) => JStr (String c "")
  | _ => JUndefined
  end.

Definition show_nullish (v : JsVal) : string :=
  match v with JNull => "null" | _ => "undefined" end.

(** The engine's message for a property read on [undefined] or [null].  The
    wording is the engine's own; no property below depends on it. *)
Definition cannot_read (v : JsVal) (k : string) : JsError :=
  TypeError ("Cannot read properties of " ++ show_nullish v ++ " (reading '" ++ k ++ "')").

(** [v.k] *)
Definition get (v : JsVal) (k : string) : Completion JsVal :=
  if nullish v then Throw (cannot_read v k) else Normal (prop v k).

(** [v[0]] *)
Definition get0 (v : JsVal) : Completion JsVal :=
  if nullish v then Throw (cannot_read v "0") else Normal (item0 v).

(** [v?.k] and [v?.[0]] *)
Definition opt_get (v : JsVal) (k : string) : JsVal :=
  if nullish v then JUndefined else prop v k.

Definition opt_get0 (v : JsVal) : JsVal :=
  if nullish v then JUndefined else item0 v.

(** [v === 's'] and [v === 0] *)
Definition is_str (v : JsVal) (s : string) : bool :=
  match v with JStr t => t =? s | _ => false end.

Definition is_zero (v : JsVal) : bool :=
  match v with JNum r => r =? "0" | _ => false end.

(** [typeof v === 'string'] *)
Definition is_string (v : JsVal) : bool :=
  match v with JStr _ => true | _ => false end.

(** ToString where it cannot fail: on strings, numbers, booleans, [null]
    and [undefined], and the text of every value whose conversion succeeds
    (see [to_text] below). *)
Fixpoint to_string (v : JsVal) : string :=
  match v with
  | JUndefined => "undefined"
  | JNull => "null"
  | JBool true => "true"
  | JBool false => "false"
  | JNum r => r
  | JStr s => s
  | JArr l =>
      (fix join (l : list JsVal) : string :=
         match l with
         | [] => ""
         | x :: rest =>
             (if nullish x then "" else to_string x) ++
             match rest with [] => "" | _ => "," ++ join rest end
         end) l
  | JObj _ => "[object Object]"
  end.

(** The object has a key [k] of its own. *)
Definition has_key (k : string) (fs : list (string * JsVal)) : bool :=
  existsb (fun p => fst p =? k) fs.

(** ToString with its failure, as a template literal applies it: an object
    that has a key [toString] of its own (never a function in a payload)
    cannot be converted. *)
Fixpoint to_text (v : JsVal) : Completion string :=
  match v with
  | JArr l =>
      (fix join (l : list JsVal) : Completion string :=
         match l with
         | [] => Normal ""
         | x :: rest =>
             let! h := (if nullish x then Normal "" else to_text x) in
             match rest with
             | [] => Normal h
             | _ => let! t := join rest in Normal (h ++ "," ++ t)
             end
         end) l
  | JObj fs =>
      if has_key "toString" fs
      then Throw (TypeError "Cannot convert object to primitive value")
      else Normal "[object Object]"
  | _ => Normal (to_string v)
  end.

(** A value a template literal can print: its conversion does not fail.
    (Strings, numbers, booleans, [null], [undefined], objects without a
    key [toString] of their own, and arrays of such.) *)
Definition printable (v : JsVal) : Prop := to_text v = Normal (to_string v).

(** [s.startsWith(p)] is [String.prefix p s]; [s.includes(p)]: *)
Fixpoint includes (p s : string) : bool :=
  if prefix p s then true
  else match s with
       | EmptyString => false
       | String _ t => includes p t
       end.

(** [v.startsWith(p)] on an arbitrary value: only a string has the method. *)
Definition call_startsWith (v : JsVal) (p : string) : Completion bool :=
  match v with
  | JStr s => Normal (prefix p s)
  | JUndefined | JNull => Throw (cannot_read v "startsWith")
  | _ => Throw (TypeError "startsWith is not a function")
  end.

(** The elements [for (const x of v)] visits. *)
Definition chars (s : string) : list JsVal :=
  map (fun c => JStr (String c "")) (list_ascii_of_string s).

Definition iterate (v : JsVal) : Completion (list JsVal) :=
  match v with
  | JArr l => Normal l
  | JStr s => Normal (chars s)
  | _ => Throw (TypeError "parts is not iterable")
  end.

(** [o.k = v] on an object: an own key keeps its place, a new one goes last. *)
Fixpoint set_field (k : string) (v : JsVal) (fs : list (string * JsVal))
  : list (string * JsVal) :=
  match fs with
  | [] => [(k, v)]
  | (k', v') :: rest =>
      if k' =? k then (k, v) :: rest else (k', v') :: set_field k v rest
  end.

(** [delete o.k] *)
Definition delete_field (k : string) (fs : list (string * JsVal))
  : list (string * JsVal) :=
  filter (fun p => negb (fst p =? k)) fs.

(** [toLowerCase] on the characters below 256: A-Z, and the accented
    capitals U+00C0..U+00DE without the multiplication sign U+00D7. *)
Definition lower_char (c : ascii) : ascii :=
  let n := nat_of_ascii c in
  if ((65 <=? n)%nat && (n <=? 90)%nat) ||
     ((192 <=? n)%nat && (n <=? 222)%nat && negb (n =? 215)%nat)
  then ascii_of_nat (n + 32) else c.

Fixpoint toLowerCase (s : string) : string :=
  match s with
  | EmptyString => EmptyString
  | String c t => String (lower_char c) (toLowerCase t)
  end.

(** The white space [trim] removes, below 256: tab, line feed, vertical tab,
    form feed, carriage return, space, no-break space. *)
Definition is_space (c : ascii) : bool :=
  let n := nat_of_ascii c in
  ((9 <=? n)%nat && (n <=? 13)%nat) || (n =? 32)%nat || (n =? 160)%nat.

Fixpoint trimStart (s : string) : string :=
  match s with
  | String c t => if is_space c then trimStart t else s
  | EmptyString => EmptyString
  end.

Fixpoint trimEnd (s : string) : string :=
  match s with
  | EmptyString => EmptyString
  | String c t =>
      match trimEnd t with
      | EmptyString => if is_space c then EmptyString else String c EmptyString
      | t' => String c t'
      end
  end.

Definition trim (s : string) : string := trimEnd (trimStart s).

End Js.

(** ** Credential rotator (models/geminiModel.js, [getNextGenAI]) *)

Module Rotator.

Local Open Scope nat_scope.

Section Pool.

(** An opaque credential, and the pool [apiKeys]. *)
Variable Key : Type.
Variable apiKeys : list Key.

(** [getNextGenAI()]: the module-level cursor [nextKeyIndex] is passed in
    and out.  The client is modelled by the key it is built from
    ([None] for [undefined], the value of an out-of-range read). *)
Definition getNextGenAI (nextKeyIndex : nat) : option Key * nat :=
  let selectedKey := nth_error apiKeys nextKeyIndex in
  (selectedKey, (nextKeyIndex + 1) mod (length apiKeys)).

(** [M] sequential calls from cursor [c]: for each call the cursor value
    it read and the client it returned, and the final cursor. *)
Fixpoint dispatch (M : nat) (c : nat) : list (nat * option Key) * nat :=
  match M with
  | 0 => ([], c)
  | S m =>
      let (client, c') := getNextGenAI c in
      let (rest, c'') := dispatch m c' in
      ((c, client) :: rest, c'')
  end.

Definition indices (M c : nat) : list nat := map fst (fst (dispatch M c)).
Definition clients (M c : nat) : list (option Key) := map snd (fst (dispatch M c)).

(** How often index [i] was used. *)
Definition uses (i M c : nat) : nat := count_occ Nat.eq_dec (indices M c) i.

(** Forward distance from cursor [c] to index [i] around the pool. *)
Definition dist (c i : nat) : nat :=
  if c <=? i then i - c else length apiKeys + i - c.

End Pool.

Arguments getNextGenAI {Key} apiKeys nextKeyIndex.
Arguments dispatch {Key} apiKeys M c.
Arguments indices {Key} apiKeys M c.
Arguments clients {Key} apiKeys M c.
Arguments uses {Key} apiKeys i M c.
Arguments dist {Key} apiKeys c i.

(** [let nextKeyIndex = 0] *)
Definition initial_nextKeyIndex : nat := 0.

Definition ceil_div (m n : nat) : nat := (m + n - 1) / n.

End Rotator.

(** ** Response classifier (models/geminiModel.js, [GeminiModel.processResponse]) *)

Module Classifier.
Import Js.

(** The normalized outcome [{type, data}]; [data] is an object literal at
    every [return], kept as its fields in order. *)
Record Outcome : Type := mkOutcome { type : string; data : list (string * JsVal) }.

(** [process.env.NODE_ENV], absent or a string. *)
Definition Env : Type := option string.

Definition env_is (env : Env) (s : string) : bool :=
  match env with Some e => e =? s | None => false end.

(** The variables of the part scan: [textContent], [imageData],
    [imageMimeType], all [null] at first. *)
Record Scan : Type := mkScan
  { textContent : JsVal; imageData : JsVal; imageMimeType : JsVal }.

Definition scan0 : Scan := mkScan JNull JNull JNull.

(** [part.inlineData && part.inlineData.mimeType.startsWith('image/')] *)
Definition is_image_part (part : JsVal) : Completion bool :=
  let! inlineData := get part "inlineData" in
  if truthy inlineData then
    let! mimeType := get inlineData "mimeType" in
    call_startsWith mimeType "image/"
  else Normal false.

(** One turn of the loop body. *)
Definition scan_part (acc : Scan) (part : JsVal) : Completion Scan :=
  let! image := is_image_part part in
  if image then
    let! inlineData := get part "inlineData" in
    let! d := get inlineData "data" in
    let! m := get inlineData "mimeType" in
    Normal (mkScan (textContent acc) d m)
  else
    let! t := get part "text" in
    if is_string t then
      Normal (mkScan (JStr (to_string (or_else (textContent acc) (JStr "")) ++ to_string t))
                     (imageData acc) (imageMimeType acc))
    else Normal acc.

Fixpoint scan_parts (acc : Scan) (parts : list JsVal) : Completion Scan :=
  match parts with
  | [] => Normal acc
  | part :: rest =>
      let! acc' := scan_part acc part in
      scan_parts acc' rest
  end.

(** The outcome when no text and no image was found. *)
Definition unusable (parts : JsVal) : Outcome :=
  mkOutcome "empty"
    [("text", JStr "Model response did not contain usable text or image data.");
     ("rawParts", parts)].

(** The loop-based scan and the three returns after it. *)
Definition scan_loop (parts : JsVal) : Completion Outcome :=
  let! elems := iterate parts in
  let! s := scan_parts scan0 elems in
  if truthy (imageData s) then
    let! mimeType := to_text (imageMimeType s) in
    let! base64 := to_text (imageData s) in
    Normal (mkOutcome "image"
      [("imageUrl", JStr ("data:" ++ mimeType ++ ";base64," ++ base64));
       ("text", textContent s)])
  else if truthy (textContent s) then
    Normal (mkOutcome "text" [("text", textContent s)])
  else
    Normal (unusable parts).

(** [parts.find(pred)] on an array; [undefined] when nothing matches. *)
Fixpoint find_part (pred : JsVal -> Completion bool) (l : list JsVal) : Completion JsVal :=
  match l with
  | [] => Normal JUndefined
  | x :: rest =>
      let! hit := pred x in
      if hit then Normal x else find_part pred rest
  end.

(** [parts.filter(part => typeof part.text === 'string').map(part => part.text)] *)
Fixpoint text_parts (l : list JsVal) : Completion (list string) :=
  match l with
  | [] => Normal []
  | x :: rest =>
      let! t := get x "text" in
      let! ts := text_parts rest in
      Normal (match t with JStr s => s :: ts | _ => ts end)
  end.

(** [arr.join('\n')] on strings. *)
Definition newline : string := String (ascii_of_nat 10) "".

Fixpoint join_lines (l : list string) : string :=
  match l with
  | [] => ""
  | [s] => s
  | s :: rest => s ++ newline ++ join_lines rest
  end.

(** Only an array has [find] and [filter]. *)
Definition as_array (parts : JsVal) (method : string) : Completion (list JsVal) :=
  match parts with
  | JArr l => Normal l
  | JUndefined | JNull => Throw (cannot_read parts method)
  | _ => Throw (TypeError ("parts." ++ method ++ " is not a function"))
  end.

(** The find-based scan of the earlier revision of the file. *)
Definition scan_find (parts : JsVal) : Completion Outcome :=
  let! l := as_array parts "find" in
  let! imagePart := find_part is_image_part l in
  if truthy imagePart then
    let! inlineData := get imagePart "inlineData" in
    let! m := get inlineData "mimeType" in
    let! mimeType := to_text m in
    let! d := get inlineData "data" in
    let! base64 := to_text d in
    Normal (mkOutcome "image"
      [("imageUrl", JStr ("data:" ++ mimeType ++ ";base64," ++ base64))])
  else
    let! ts := text_parts l in
    let textContent := join_lines ts in
    if truthy (JStr textContent) then
      Normal (mkOutcome "text" [("text", JStr textContent)])
    else
      Normal (unusable parts).

(** The [try] block up to [const parts = candidate.content.parts], which both
    revisions share word for word: it either returns an outcome or goes on
    to scan [parts].  A reason is printed ([to_text]) where the source puts
    it in a template literal: in the warning that comes before the returns,
    or in the message itself. *)
Inductive Decision : Type :=
| Return (o : Outcome)
| ScanParts (parts : JsVal).

Definition prelude (apiResponse : JsVal) : Completion Decision :=
  if negb (truthy apiResponse) then
    Normal (Return (mkOutcome "error"
      [("error", JStr "Received no response object from API.")]))
  else
  let! promptFeedback := get apiResponse "promptFeedback" in
  if truthy (opt_get promptFeedback "blockReason") then
    let! promptFeedback := get apiResponse "promptFeedback" in
    let! blockReason := get promptFeedback "blockReason" in
    let! reason := to_text blockReason in
    let! candidates := get apiResponse "candidates" in
    Normal (Return (mkOutcome "error"
      [("error", JStr ("Content generation blocked due to: " ++ reason));
       ("details",
        JObj [("safetyRatings", opt_get (opt_get0 candidates) "safetyRatings")])]))
  else
  let! candidates := get apiResponse "candidates" in
  let! none :=
    (if negb (truthy candidates) then Normal true
     else let! len := get candidates "length" in Normal (is_zero len)) in
  if (none : bool) then
    let finishReason := opt_get (opt_get0 candidates) "finishReason" in
    if truthy finishReason && negb (is_str finishReason "STOP") then
      let! reason := to_text finishReason in
      Normal (Return (mkOutcome "text"
        [("text", JStr ("Generation stopped due to: " ++ reason
                         ++ ". No content available."))]))
    else
      Normal (Return (mkOutcome "empty"
        [("text", JStr "The model did not return any content.")]))
  else
  let! candidate := get0 candidates in
  let! finishReason := get candidate "finishReason" in
  if truthy finishReason && negb (is_str finishReason "STOP") then
    let! reason := to_text finishReason in
    if is_str finishReason "SAFETY" then
      let! safetyRatings := get candidate "safetyRatings" in
      Normal (Return (mkOutcome "error"
        [("error", JStr "Content generation stopped due to safety concerns.");
         ("details", JObj [("safetyRatings", safetyRatings)])]))
    else if is_str finishReason "RECITATION" then
      Normal (Return (mkOutcome "error"
        [("error", JStr "Content generation stopped due to potential recitation.")]))
    else
      Normal (Return (mkOutcome "text"
        [("text", JStr ("Generation stopped unexpectedly (" ++ reason
                         ++ "). Partial content might be missing."))]))
  else
  let! content := get candidate "content" in
  let! noparts :=
    (if negb (truthy content) then Normal true
     else let! parts := get content "parts" in
          if negb (truthy parts) then Normal true
          else let! len := get parts "length" in Normal (is_zero len)) in
  if (noparts : bool) then
    Normal (Return (mkOutcome "empty"
      [("text", JStr "The model returned a candidate but no content parts.")]))
  else
  let! parts := get content "parts" in
  Normal (ScanParts parts).

(** The whole [try] block, with [scan] for what follows the shared part. *)
Definition classify (scan : JsVal -> Completion Outcome) (apiResponse : JsVal)
  : Completion Outcome :=
  let! d := prelude apiResponse in
  match d with
  | Return o => Normal o
  | ScanParts parts => scan parts
  end.


(** The [catch] block. *)
Definition on_failure (env : Env) (apiResponse : JsVal) (error : JsError)
  : Completion Outcome :=
  Normal (mkOutcome "error"
    [("error", JStr ("Failed to process the API response: " ++ message error));
     ("rawResponse", if env_is env "development" then apiResponse else JUndefined)]).

(** [GeminiModel.processResponse] of the current file (loop-based). *)
Definition processResponse (env : Env) (apiResponse : JsVal) : Completion Outcome :=
  try_catch (classify scan_loop apiResponse) (on_failure env apiResponse).

(** [GeminiModel.processResponse] of the earlier revision (find-based). *)
Definition processResponse_find (env : Env) (apiResponse : JsVal) : Completion Outcome :=
  try_catch (classify scan_find apiResponse) (on_failure env apiResponse).

End Classifier.

(** ** Model layer (models/geminiModel.js, [GeminiModel.generateContent]) *)

Module Model.
Import Js Classifier.

(** A [Buffer], known by the text [toString('base64')] gives. *)
Record Buffer : Type := mkBuffer { toString_base64 : string }.

(** The parts of the upstream request. *)
Inductive MessagePart : Type :=
| TextPart (text : string)
| InlineData (data mimeType : string).

Section Upstream.

Variable Key : Type.
(** [config.googleAiApiKey1], [config.googleAiApiKey2] *)
Variables googleAiApiKey1 googleAiApiKey2 : Key.

Definition apiKeys : list Key := [googleAiApiKey1; googleAiApiKey2].

(** The backend, as the SDK shows it: [model.generateContent(messageParts)]
    on the client built from a key resolves to a result or rejects. *)
Variable sdk : option Key -> list MessagePart -> Completion JsVal.

(** Process state: the cursor, and (for the statements only) the log of
    upstream calls made so far, latest first. *)
Record World : Type := mkWorld
  { nextKeyIndex : nat;
    upstreamCalls : list (option Key * list MessagePart) }.

Definition response_of (error : JsError) : JsVal :=
  match error with OtherError _ _ _ r _ => r | ApiError _ _ _ => JUndefined end.
Definition status_of (error : JsError) : JsVal :=
  match error with OtherError _ _ s _ _ => s | ApiError _ _ _ => JUndefined end.

(** The [catch] block: every error is thrown again as an [ApiError], unless
    printing the block reason fails first. *)
Definition rethrow (error : JsError) : Completion Outcome :=
  let m := message error in
  if truthy (JStr m) && includes "response was blocked" m then
    let blockReason :=
      or_else (opt_get (opt_get (response_of error) "promptFeedback") "blockReason")
              (JStr "Safety settings") in
    let safetyRatings :=
      or_else (opt_get (opt_get0 (opt_get (response_of error) "candidates")) "safetyRatings")
              (JStr "N/A") in
    let! reason := to_text blockReason in
    Throw (ApiError 400 ("Request blocked due to safety settings: " ++ reason)
                    (JObj [("safetyRatings", safetyRatings)]))
  else if truthy (JStr m) &&
          (includes "API key not valid" m || is_str (status_of error) "PERMISSION_DENIED") then
    Throw (ApiError 401 "Authentication failed. Check your GOOGLE_AI_API_KEY."
                    (JObj [("sdkError", JStr m)]))
  else if truthy (JStr m) && includes "Quota exceeded" m then
    Throw (ApiError 429 "API quota exceeded. Please check your usage limits."
                    (JObj [("sdkError", JStr m)]))
  else
    Throw (ApiError 502 "Error communicating with the Google AI service."
                    (JObj [("sdkError", JStr m)])).

(** [messageParts]: the prompt, then the image when both the buffer and a
    non-empty MIME type are given. *)
Definition build_parts (prompt : string) (imageBuffer : option Buffer)
           (imageMimeType : option string) : Completion (list MessagePart) :=
  match imageBuffer, imageMimeType with
  | Some buf, Some mime =>
      if truthy (JStr mime) then
        if negb (prefix "image/" mime) then
          Throw (ApiError 400 "Invalid image MIME type provided." JNull)
        else Normal [TextPart prompt; InlineData (toString_base64 buf) mime]
      else Normal [TextPart prompt]
  | _, _ => Normal [TextPart prompt]
  end.

(** [GeminiModel.generateContent(prompt, imageBuffer, imageMimeType)] *)
Definition generateContent (env : Env) (prompt : string) (imageBuffer : option Buffer)
           (imageMimeType : option string) (w : World) : Completion Outcome * World :=
  let (genAI, next) := Rotator.getNextGenAI apiKeys (nextKeyIndex w) in
  let w1 := mkWorld next (upstreamCalls w) in
  match build_parts prompt imageBuffer imageMimeType with
  | Throw error => (rethrow error, w1)
  | Normal messageParts =>
      let w2 := mkWorld next ((genAI, messageParts) :: upstreamCalls w) in
      (try_catch
         (let! result := sdk genAI messageParts in
          let! response := get result "response" in
          processResponse env response)
         rethrow,
       w2)
  end.

End Upstream.

Arguments mkWorld {Key} nextKeyIndex upstreamCalls.
Arguments nextKeyIndex {Key} w.
Arguments upstreamCalls {Key} w.
Arguments apiKeys {Key} googleAiApiKey1 googleAiApiKey2.
Arguments generateContent {Key} googleAiApiKey1 googleAiApiKey2 sdk env prompt
  imageBuffer imageMimeType w.

End Model.

(** ** Error middleware (utils/errorHandler.js) and controller
       (controllers/generationController.js) *)

Module Controller.
Import Js Classifier Model.

(** What [res.status(s).json(b)] sends. *)
Record HttpResponse : Type := mkResponse { status : Z; json : JsVal }.

(** [errorMiddleware(err, req, res, next)] *)
Definition errorMiddleware (env : Env) (err : JsError) : HttpResponse :=
  let production := env_is env "production" in
  let responseBody :=
    [("error", JStr "Internal Server Error");
     ("message", JStr (if production then "An unexpected error occurred." else message err))] in
  match err with
  | ApiError statusCode msg details =>
      let responseBody := set_field "error" (JStr msg) responseBody in
      let responseBody :=
        set_field "message"
          (or_else details
             (JStr (if production then "See error field for details." else msg)))
          responseBody in
      let responseBody :=
        if truthy details then
          delete_field "message" (set_field "details" details responseBody)
        else responseBody in
      mkResponse statusCode (JObj responseBody)
  | OtherError name _ _ _ etype =>
      if (name =? "SyntaxError") && is_str etype "entity.parse.failed" then
        mkResponse 400
          (JObj (set_field "message" (JStr "The request body could not be parsed as valid JSON.")
                   (set_field "error" (JStr "Bad Request: Malformed JSON") responseBody)))
      else mkResponse 500 (JObj responseBody)
  end.

(** The uploaded file multer leaves in [req.file]. *)
Record File : Type := mkFile { mimetype : string; buffer : Buffer }.

(** The request: [req.body] is an object, [req.file] may be absent. *)
Record Request : Type := mkRequest { body : list (string * JsVal); file : option File }.

(** [modelResponse.data._raw_model_response_type = modelResponse.type] unless
    in production. *)
Definition annotate (env : Env) (modelResponse : Outcome) : Outcome :=
  if negb (env_is env "production") then
    mkOutcome (type modelResponse)
              (set_field "_raw_model_response_type" (JStr (type modelResponse))
                         (data modelResponse))
  else modelResponse.

(** [modelResponse.data.error?.toLowerCase().includes('blocked')] *)
Definition mentions_blocked (error : JsVal) : Completion bool :=
  match error with
  | JUndefined | JNull => Normal false
  | JStr s => Normal (includes "blocked" (toLowerCase s))
  | _ => Throw (TypeError "modelResponse.data.error?.toLowerCase is not a function")
  end.

(** The [switch (modelResponse.type)] of controllers/generationController.js. *)
Definition present (modelResponse : Outcome) : Completion HttpResponse :=
  let d := data modelResponse in
  if (type modelResponse =? "image") || (type modelResponse =? "text") then
    Normal (mkResponse 200 (JObj d))
  else if type modelResponse =? "empty" then
    Normal (mkResponse 200
      (JObj [("message", or_else (lookup "text" d) (JStr "No content generated."))]))
  else if type modelResponse =? "error" then
    let! blocked := mentions_blocked (lookup "error" d) in
    let statusCode := if (blocked : bool) then 400%Z else 500%Z in
    Normal (mkResponse statusCode
      (JObj [("error", or_else (lookup "error" d)
                         (JStr "An error occurred while processing the model response."));
             ("details", lookup "details" d)]))
  else
    Throw (ApiError 500 "Received an unexpected response format from the AI model." JNull).

(** [!prompt || typeof prompt !== 'string' || prompt.trim() === ''] *)
Definition invalid_prompt (prompt : JsVal) : bool :=
  negb (truthy prompt) ||
  match prompt with
  | JStr p => trim p =? ""
  | _ => true
  end.

Definition prompt_text (prompt : JsVal) : string :=
  match prompt with JStr p => p | _ => "" end.

Section Upstream.

Variable Key : Type.
Variables googleAiApiKey1 googleAiApiKey2 : Key.
Variable sdk : option Key -> list MessagePart -> Completion JsVal.

Local Abbreviation World := (World Key).
Local Abbreviation model := (Model.generateContent googleAiApiKey1 googleAiApiKey2 sdk).

(** The [try] block of [GenerationController.generateContent]. *)
Definition handle (env : Env) (req : Request) (w : World)
  : Completion HttpResponse * World :=
  let prompt := lookup "prompt" (body req) in
  let imageFile := file req in
  if invalid_prompt prompt then
    (Throw (ApiError 400 "Text prompt (prompt) is required and cannot be empty." JNull), w)
  else
    let (r, w') :=
      model env (trim (prompt_text prompt))
            (option_map buffer imageFile) (option_map mimetype imageFile) w in
    (let! modelResponse := r in present (annotate env modelResponse), w').

(** [GenerationController.generateContent(req, res, next)], with [next(error)]
    reaching [errorMiddleware]. *)
Definition generateContent (env : Env) (req : Request) (w : World)
  : HttpResponse * World :=
  let (r, w') := handle env req w in
  match r with
  | Normal res => (res, w')
  | Throw error => (errorMiddleware env error, w')
  end.

End Upstream.

Arguments handle {Key} googleAiApiKey1 googleAiApiKey2 sdk env req w.
Arguments generateContent {Key} googleAiApiKey1 googleAiApiKey2 sdk env req w.

End Controller.

(** ** Controller with preset prompts (the revision of
       controllers/generationController.js that maps a preset number to a
       prompt) *)

Module PresetController.
Import Js Classifier Model Controller.

(** [let final_prompt; switch (prompt) { case "1": ... }]: the prompt of a
    known preset, [undefined] for any other text. *)
Definition final_prompt (prompt : string) : JsVal :=
  if prompt =? "1" then
    JStr ("Add photorealistic, high-quality sunglasses to the person's face. "
          ++ "The sunglasses should look natural and fit perfectly on their face "
          ++ "structure. CRITICAL: Maintain 100% of the subject's original facial "
          ++ "identity, features, skin texture, and distinctive characteristics. "
          ++ "The sunglasses should complement their appearance without altering "
          ++ "any underlying facial structure or details.")
  else
  if prompt =? "20" then
    JStr ("Add elegant, photorealistic prescription glasses that perfectly "
          ++ "match the person's face shape and style. The glasses should have "
          ++ "clear lenses allowing full visibility of the eyes. CRITICAL: "
          ++ "Preserve 100% of the subject's original facial identity, features, "
          ++ "skin texture, and distinctive characteristics. Maintain all facial "
          ++ "details visible through and around the glasses with perfect clarity.")
  else
  if prompt =? "30" then
    JStr ("Add a stylish, realistic beanie hat to the person's head that fits "
          ++ "naturally on their hair and head shape. CRITICAL: Ensure the "
          ++ "original facial identity, expression, skin texture, and all facial "
          ++ "features remain 100% unchanged and highly detailed. The hat should "
          ++ "complement their appearance without altering any aspect of their "
          ++ "face or identity.")
  else
  if prompt =? "40" then
    JStr ("Modify ONLY the person's expression to show an angry frown, with "
          ++ "furrowed brows and slightly downturned mouth. CRITICAL: Preserve "
          ++ "with absolute precision their complete facial identity, structure, "
          ++ "unique features, skin texture, eye color, and all other distinctive "
          ++ "characteristics. Change nothing but the minimal features needed for "
          ++ "the expression change.")
  else
  if prompt =? "2" then
    JStr ("Generate a photorealistic image reorienting the person's face to a "
          ++ "perfect left three-quarter view (approximately 45 degrees toward "
          ++ "their left shoulder). The head rotation must be distinctive and "
          ++ "unmistakable. CRITICAL REQUIREMENT: Maintain 100% accuracy in "
          ++ "reconstructing their original facial identity, unique proportions, "
          ++ "features, skin texture, and all defining characteristics from this "
          ++ "new angle. Create a natural perspective shift that appears as if the "
          ++ "original photograph was actually captured from this angle, with all "
          ++ "facial features coherently repositioned while preserving their exact "
          ++ "appearance.")
  else
  if prompt =? "3" then
    JStr ("Generate a photorealistic image reorienting the person's face to a "
          ++ "perfect right three-quarter view (approximately 45 degrees toward "
          ++ "their right shoulder). The head rotation must be distinctive and "
          ++ "unmistakable. CRITICAL REQUIREMENT: Maintain 100% accuracy in "
          ++ "reconstructing their original facial identity, unique proportions, "
          ++ "features, skin texture, and all defining characteristics from this "
          ++ "new angle. Create a natural perspective shift that appears as if the "
          ++ "original photograph was actually captured from this angle, with all "
          ++ "facial features coherently repositioned while preserving their exact "
          ++ "appearance.")
  else
  if prompt =? "4" then
    JStr ("Generate a photorealistic image reorienting the person to a complete "
          ++ "left profile view (90 degrees, with their left side facing the "
          ++ "camera). The profile must be precise and definitive. CRITICAL "
          ++ "REQUIREMENT: Maintain 100% accuracy in reconstructing their original "
          ++ "facial identity, unique proportions, and all defining "
          ++ "characteristics from this side perspective. Ensure realistic "
          ++ "rendering of typically profile-visible features like the nose "
          ++ "bridge, jawline, and ear, while preserving their exact facial "
          ++ "structure. The result must appear as if the photograph was actually "
          ++ "taken directly from their left side, with perfect lighting "
          ++ "consistency and detail preservation.")
  else
  if prompt =? "5" then
    JStr ("Generate a photorealistic image reorienting the person to a complete "
          ++ "right profile view (90 degrees, with their right side facing the "
          ++ "camera). The profile must be precise and definitive. CRITICAL "
          ++ "REQUIREMENT: Maintain 100% accuracy in reconstructing their original "
          ++ "facial identity, unique proportions, and all defining "
          ++ "characteristics from this side perspective. Ensure realistic "
          ++ "rendering of typically profile-visible features like the nose "
          ++ "bridge, jawline, and ear, while preserving their exact facial "
          ++ "structure. The result must appear as if the photograph was actually "
          ++ "taken directly from their right side, with perfect lighting "
          ++ "consistency and detail preservation.")
  else
  JUndefined.

(** [final_prompt.trim()] *)
Definition call_trim (v : JsVal) : Completion string :=
  match v with
  | JStr s => Normal (trim s)
  | JUndefined | JNull => Throw (cannot_read v "trim")
  | _ => Throw (TypeError "final_prompt.trim is not a function")
  end.

(** The [switch (modelResponse.type)] of this revision: image and text
    bodies are built afresh. *)
Definition present (modelResponse : Outcome) : Completion HttpResponse :=
  let d := data modelResponse in
  if type modelResponse =? "image" then
    Normal (mkResponse 200
      (JObj [("imageUrl", lookup "imageUrl" d);
             ("text", or_else (lookup "text" d) JNull)]))
  else if type modelResponse =? "text" then
    Normal (mkResponse 200 (JObj [("text", lookup "text" d)]))
  else Controller.present modelResponse.

Section Upstream.

Variable Key : Type.
Variables googleAiApiKey1 googleAiApiKey2 : Key.
Variable sdk : option Key -> list MessagePart -> Completion JsVal.

Local Abbreviation World := (World Key).
Local Abbreviation model := (Model.generateContent googleAiApiKey1 googleAiApiKey2 sdk).

Definition handle (env : Env) (req : Request) (w : World)
  : Completion HttpResponse * World :=
  let prompt := lookup "prompt" (body req) in
  let imageFile := file req in
  if invalid_prompt prompt then
    (Throw (ApiError 400 "Text prompt (prompt) is required and cannot be empty." JNull), w)
  else
    match call_trim (final_prompt (prompt_text prompt)) with
    | Throw error => (Throw error, w)
    | Normal trimmed =>
        let (r, w') :=
          model env trimmed (option_map buffer imageFile) (option_map mimetype imageFile) w in
        (let! modelResponse := r in present (annotate env modelResponse), w')
    end.

Definition generateContent (env : Env) (req : Request) (w : World)
  : HttpResponse * World :=
  let (r, w') := handle env req w in
  match r with
  | Normal res => (res, w')
  | Throw error => (errorMiddleware env error, w')
  end.

End Upstream.

Arguments handle {Key} googleAiApiKey1 googleAiApiKey2 sdk env req w.
Arguments generateContent {Key} googleAiApiKey1 googleAiApiKey2 sdk env req w.

End PresetController.

(** ** Vocabulary of the statements *)

Module Shapes.
Import Js Classifier Model Controller.

(** The four outcome kinds. *)
Definition kinds : list string := ["image"; "text"; "empty"; "error"].

(** The object literals of three [return]s of the classifier. *)
Definition safety_error (safetyRatings : JsVal) : Outcome :=
  mkOutcome "error"
    [("error", JStr "Content generation stopped due to safety concerns.");
     ("details", JObj [("safetyRatings", safetyRatings)])].

Definition stopped_text (finishReason : JsVal) : Outcome :=
  mkOutcome "text"
    [("text", JStr ("Generation stopped due to: " ++ to_string finishReason
                     ++ ". No content available."))].

Definition no_content : Outcome :=
  mkOutcome "empty" [("text", JStr "The model did not return any content.")].

(** A well-formed part of a candidate: text, or inline binary data with its
    MIME type, and the object the SDK shows for it. *)
Inductive Part : Type :=
| PText (text : string)
| PInline (mimeType data : string).

Definition encode (p : Part) : JsVal :=
  match p with
  | PText t => JObj [("text", JStr t)]
  | PInline m d => JObj [("inlineData", JObj [("mimeType", JStr m); ("data", JStr d)])]
  end.

(** An image part: inline data whose MIME type starts with [image/]. *)
Definition is_image (p : Part) : bool :=
  match p with
  | PInline m _ => prefix "image/" m
  | PText _ => false
  end.

Fixpoint texts (ps : list Part) : list string :=
  match ps with
  | [] => []
  | PText t :: rest => t :: texts rest
  | PInline _ _ :: rest => texts rest
  end.

(** MIME type and data of the first and of the last image part. *)
Fixpoint first_image (ps : list Part) : option (string * string) :=
  match ps with
  | [] => None
  | p :: rest =>
      match p with
      | PInline m d => if prefix "image/" m then Some (m, d) else first_image rest
      | PText _ => first_image rest
      end
  end.

Fixpoint last_image (ps : list Part) : option (string * string) :=
  match ps with
  | [] => None
  | p :: rest =>
      match last_image rest with
      | Some x => Some x
      | None =>
          match p with
          | PInline m d => if prefix "image/" m then Some (m, d) else None
          | PText _ => None
          end
      end
  end.

(** All texts in order, nothing between them. *)
Definition concat_all (ts : list string) : string := fold_right append "" ts.

(** The caption: [null] without a text part, else the texts concatenated. *)
Definition caption (ps : list Part) : JsVal :=
  match texts ps with
  | [] => JNull
  | ts => JStr (concat_all ts)
  end.

Definition data_uri (mimeType data : string) : string :=
  "data:" ++ mimeType ++ ";base64," ++ data.

(** A component of the chosen image, or what the variable held before. *)
Definition image_or (dflt : JsVal) (pick : string * string -> string)
           (img : option (string * string)) : JsVal :=
  match img with Some x => JStr (pick x) | None => dflt end.

(** What the two revisions return on well-formed parts [ps] (both are
    proved below to be what the code computes). *)
Definition text_or_unusable (c : JsVal) (parts : JsVal) : Outcome :=
  if truthy c then mkOutcome "text" [("text", c)] else unusable parts.

Definition loop_outcome (ps : list Part) : Outcome :=
  match last_image ps with
  | Some (m, d) =>
      if truthy (JStr d) then
        mkOutcome "image" [("imageUrl", JStr (data_uri m d)); ("text", caption ps)]
      else text_or_unusable (caption ps) (JArr (map encode ps))
  | None => text_or_unusable (caption ps) (JArr (map encode ps))
  end.

Definition find_outcome (ps : list Part) : Outcome :=
  match first_image ps with
  | Some (m, d) => mkOutcome "image" [("imageUrl", JStr (data_uri m d))]
  | None => text_or_unusable (JStr (join_lines (texts ps))) (JArr (map encode ps))
  end.

(** [hay] contains [needle] up to letter case: some stretch of [hay]
    lower-cases to the lower-cased [needle]. *)
Definition contains_ci (needle hay : string) : Prop :=
  exists pre mid post,
    hay = pre ++ mid ++ post /\ toLowerCase mid = toLowerCase needle.

(** The response to a request without a usable prompt. *)
Definition prompt_required : string :=
  "Text prompt (prompt) is required and cannot be empty.".

Definition rejected (env : Env) : HttpResponse :=
  mkResponse 400
    (JObj [("error", JStr prompt_required);
           ("message",
            JStr (if env_is env "production" then "See error field for details."
                  else prompt_required))]).

(** What the model layer throws for an image of a MIME type that is not an
    image type. *)
Definition invalid_mime_rethrown : JsError :=
  ApiError 502 "Error communicating with the Google AI service."
    (JObj [("sdkError", JStr "Invalid image MIME type provided.")]).

(** A candidate's finish reason is normal: absent (falsy) or ["STOP"]. *)
Definition normal_finish (finishReason : JsVal) : bool :=
  negb (truthy finishReason && negb (is_str finishReason "STOP")).

End Shapes.

(** ** Sample payloads *)

Module Samples.
Import Js Shapes.

(** A response with one candidate. *)
Definition response_of (candidate : JsVal) : JsVal :=
  JObj [("candidates", JArr [candidate])].

(** A candidate that completed normally with the given parts. *)
Definition candidate_of (ps : list Part) : JsVal :=
  JObj [("content", JObj [("parts", JArr (map encode ps)); ("role", JStr "model")]);
        ("finishReason", JStr "STOP")].

(** A candidate stopped for safety that still carries a text part. *)
Definition safety_candidate : JsVal :=
  JObj [("finishReason", JStr "SAFETY");
        ("safetyRatings", JArr [JStr "HARM_CATEGORY_HARASSMENT"]);
        ("content", JObj [("parts", JArr [encode (PText "partial")])])].

(** An array-like [candidates] object of length 0 that has an entry 0. *)
Definition array_like_candidates : JsVal :=
  JObj [("length", JNum "0");
        ("0", JObj [("finishReason", JStr "MAX_TOKENS")])].

(** An array-like [candidates] object of length 0 whose entry 0 has a
    finish reason that cannot be printed. *)
Definition unprintable_candidates : JsVal :=
  JObj [("length", JNum "0");
        ("0", JObj [("finishReason", JObj [("toString", JNum "1")])])].

(** The parts of the image-precedence scenario, with an image part of
    empty data. *)
Definition empty_image_parts : list Part :=
  [PText "A"; PInline "image/png" ""; PText "B"].

(** Two text parts. *)
Definition two_texts : list Part := [PText "A"; PText "B"].

(** A backend that answers every call with one text part. *)
Definition hello_sdk (key : option string) (parts : list Model.MessagePart)
  : Completion JsVal :=
  Normal (JObj [("response", response_of (candidate_of [PText "Hello"]))]).

(** A backend that is down. *)
Definition down_sdk (key : option string) (parts : list Model.MessagePart)
  : Completion JsVal :=
  Throw (OtherError "Error" "fetch failed" JUndefined JUndefined JUndefined).

(** The process right after start: cursor 0, no upstream call yet. *)
Definition fresh : Model.World string := Model.mkWorld 0 [].

Definition request_of (prompt : JsVal) : Controller.Request :=
  Controller.mkRequest [("prompt", prompt)] None.

End Samples.

(** ** Upload middleware (middleware/uploadMiddleware.js) *)

Module Upload.
Import Js.

(** What multer tells the filter about an incoming file. *)
Record FileInfo : Type := mkFileInfo { fieldname : string; mimetype : string }.

(** [fileFilter(req, file, cb)]: the two arguments it gives to [cb]. *)
Definition fileFilter (file : FileInfo) : option JsError * bool :=
  if prefix "image/" (mimetype file) then (None, true)
  else
    (Some (ApiError 400 "Invalid file type. Only image files are allowed."
                    (JObj [("receivedType", JStr (mimetype file))])),
     false).

(** The error multer may give to the callback of [upload.single('image')]:
    one of its own ([MulterError], with [code], [field] and [message]), or
    whatever else was raised on the way, the filter's [ApiError] included. *)
Inductive UploadError : Type :=
| MulterError (code : string) (field : JsVal) (message : string)
| Raised (e : JsError).

(** [handleImageUpload(req, res, next)], given what multer reports: the
    argument of [next], [None] for a plain [next()]. *)
Definition handleImageUpload (err : option UploadError) : option JsError :=
  match err with
  | None => None
  | Some (MulterError code field message) =>
      if code =? "LIMIT_FILE_SIZE" then
        Some (ApiError 400 "File size limit exceeded (max 10MB)." JNull)
      else if code =? "LIMIT_UNEXPECTED_FILE" then
        Some (ApiError 400 ("Unexpected file field: '" ++ to_string field
                              ++ "'. Please use the 'image' field.") JNull)
      else
        Some (ApiError 400 ("File upload error: " ++ message) JNull)
  | Some (Raised (ApiError statusCode message details)) =>
      Some (ApiError statusCode message details)
  | Some (Raised (OtherError name message status response etype)) =>
      Some (ApiError 500 "An unexpected error occurred during file upload."
                     (JObj [("uploadError", JStr message)]))
  end.

End Upload.

(** ** Route (routes/generationRoutes.js) *)

Module Routes.
Import Js Classifier Model Controller Upload.

Section Upstream.

Variable Key : Type.
Variables googleAiApiKey1 googleAiApiKey2 : Key.
Variable sdk : option Key -> list MessagePart -> Completion JsVal.

(** [router.post('/generate', handleImageUpload, GenerationController.generateContent)]
    under the application's error handler: an error given to [next] goes
    past the controller to [errorMiddleware]. *)
Definition post_generate (env : Env) (upload : option UploadError) (req : Request)
           (w : World Key) : HttpResponse * World Key :=
  match handleImageUpload upload with
  | Some error => (errorMiddleware env error, w)
  | None => Controller.generateContent googleAiApiKey1 googleAiApiKey2 sdk env req w
  end.

(** Requests handled one after the other by the same process. *)
Fixpoint serve (env : Env) (reqs : list (option UploadError * Request)) (w : World Key)
  : list HttpResponse * World Key :=
  match reqs with
  | [] => ([], w)
  | (upload, req) :: rest =>
      let (res, w') := post_generate env upload req w in
      let (more, w'') := serve env rest w' in
      (res :: more, w'')
  end.

End Upstream.

Arguments post_generate {Key} googleAiApiKey1 googleAiApiKey2 sdk env upload req w.
Arguments serve {Key} googleAiApiKey1 googleAiApiKey2 sdk env reqs w.

End Routes.

(** ** Test page script (app.js, [escapeHtml]) *)

Module TestForm.
Import Js.

(** [s.replace(/c/g, by)] for a one-character pattern. *)
Fixpoint replace_all (c : ascii) (by_ : string) (s : string) : string :=
  match s with
  | EmptyString => EmptyString
  | String x t =>
      (if Ascii.eqb x c then by_ else String x EmptyString) ++ replace_all c by_ t
  end.

(** The double quote. *)
Definition dquote : ascii := "034"%char.

(** [escapeHtml(unsafe)] *)
Definition escapeHtml (unsafe : JsVal) : Completion string :=
  if negb (truthy unsafe) then Normal ""
  else
    match unsafe with
    | JStr s =>
        Normal (replace_all "'" "&#039;"
                 (replace_all dquote "&quot;"
                   (replace_all ">" "&gt;"
                     (replace_all "<" "&lt;"
                       (replace_all "&" "&amp;" s)))))
    | _ => Throw (TypeError "unsafe.replace is not a function")
    end.

(** One character escaped on its own. *)
Definition escape_char (x : ascii) : string :=
  if Ascii.eqb x "&" then "&amp;"
  else if Ascii.eqb x "<" then "&lt;"
  else if Ascii.eqb x ">" then "&gt;"
  else if Ascii.eqb x dquote then "&quot;"
  else if Ascii.eqb x "'" then "&#039;"
  else String x EmptyString.

Fixpoint escape_each (s : string) : string :=
  match s with
  | EmptyString => EmptyString
  | String x t => escape_char x ++ escape_each t
  end.

(** The characters with a meaning in HTML text and attribute values. *)
Definition special (x : ascii) : bool :=
  Ascii.eqb x "&" || Ascii.eqb x "<" || Ascii.eqb x ">"
  || Ascii.eqb x dquote || Ascii.eqb x "'".

Fixpoint occurs (x : ascii) (s : string) : bool :=
  match s with
  | EmptyString => false
  | String y t => Ascii.eqb y x || occurs x t
  end.

Fixpoint has_special (s : string) : bool :=
  match s with
  | EmptyString => false
  | String y t => special y || has_special t
  end.

End TestForm.

(** ** More vocabulary *)

Module MoreShapes.
Import Js Classifier Model Controller.

(** The object literals of the other [return]s of the shared part. *)
Definition blocked_error (blockReason safetyRatings : JsVal) : Outcome :=
  mkOutcome "error"
    [("error", JStr ("Content generation blocked due to: " ++ to_string blockReason));
     ("details", JObj [("safetyRatings", safetyRatings)])].

Definition recitation_error : Outcome :=
  mkOutcome "error"
    [("error", JStr "Content generation stopped due to potential recitation.")].

Definition unexpected_text (finishReason : JsVal) : Outcome :=
  mkOutcome "text"
    [("text", JStr ("Generation stopped unexpectedly (" ++ to_string finishReason
                     ++ "). Partial content might be missing."))].

Definition no_parts : Outcome :=
  mkOutcome "empty"
    [("text", JStr "The model returned a candidate but no content parts.")].

(** The status codes the relay answers with. *)
Definition status_codes : list Z := [200; 400; 401; 429; 500; 502]%Z.

(** The preset numbers the preset revision of the controller knows. *)
Definition presets : list string := ["1"; "20"; "30"; "40"; "2"; "3"; "4"; "5"].

(** The status codes of the errors the model layer throws. *)
Definition upstream_codes : list Z := [400; 401; 429; 502]%Z.

End MoreShapes.

(** ** More sample payloads *)

Module MoreSamples.
Import Js Classifier Model Controller Shapes Samples.

(** A backend that rejects with the SDK's blocked-response error. *)
Definition blocked_sdk (key : option string) (parts : list MessagePart)
  : Completion JsVal :=
  Throw (OtherError "GoogleGenerativeAIResponseError"
           "[GoogleGenerativeAI Error]: Candidate was blocked; response was blocked"
           JUndefined JUndefined JUndefined).

(** A backend that answers every call with [result]. *)
Definition answering (result : JsVal) (key : option string) (parts : list MessagePart)
  : Completion JsVal :=
  Normal result.

(** A result without [response]; one whose response is prompt-blocked; one
    whose first candidate stopped for safety; one whose candidate has no
    parts. *)
Definition no_response_result : JsVal := JObj [].

Definition prompt_blocked_result : JsVal :=
  JObj [("response", JObj [("promptFeedback", JObj [("blockReason", JStr "SAFETY")])])].

Definition safety_result : JsVal := JObj [("response", response_of safety_candidate)].

Definition no_parts_result : JsVal :=
  JObj [("response", response_of (JObj [("content", JObj [("parts", JArr [])])]))].

(** A result with an empty candidate list; one whose first candidate is
    [null]; one whose candidate has an empty text part before its image. *)
Definition no_candidates_result : JsVal :=
  JObj [("response", JObj [("candidates", JArr [])])].

Definition null_candidate_result : JsVal :=
  JObj [("response", JObj [("candidates", JArr [JNull])])].

Definition empty_caption_result : JsVal :=
  JObj [("response",
         response_of (candidate_of [PText ""; PInline "image/png" "iVBORw0KGgo="]))].

(** A PNG upload. *)
Definition png_info : Upload.FileInfo := Upload.mkFileInfo "image" "image/png".

Definition png_file : File := mkFile "image/png" (mkBuffer "iVBORw0KGgo=").

(** Three text-only requests. *)
Definition three_requests : list (option Upload.UploadError * Request) :=
  [(None, request_of (JStr "one")); (None, request_of (JStr " two "));
   (None, request_of (JStr "three"))].

End MoreSamples.

(** ** Conversation history (the revision of models/geminiModel.js that
       takes a history, [GeminiModel.formatHistory]) *)

Module History.
Import Js.

(** [Array.isArray(v)] *)
Definition is_array (v : JsVal) : bool :=
  match v with JArr _ => true | _ => false end.

(** [l.map(f)] with a callback that may throw: the first throw ends it. *)
Fixpoint map_m {A B : Type} (f : A -> Completion B) (l : list A)
  : Completion (list B) :=
  match l with
  | [] => Normal []
  | x :: rest =>
      let! y := f x in
      let! ys := map_m f rest in
      Normal (y :: ys)
  end.

(** [s.split(c)] for a one-character separator. *)
Fixpoint split_on (c : ascii) (s : string) : list string :=
  match s with
  | EmptyString => [EmptyString]
  | String x t =>
      if Ascii.eqb x c then EmptyString :: split_on c t
      else match split_on c t with
           | h :: r => String x h :: r
           | [] => [String x EmptyString]
           end
  end.

(** [buffer.toString('base64')] on a payload value: a string ignores the
    argument, a number takes it for a radix and refuses it, an object with
    a key [toString] of its own has no such method. *)
Definition call_toString_base64 (buffer : JsVal) : Completion string :=
  match buffer with
  | JUndefined | JNull => Throw (cannot_read buffer "toString")
  | JNum _ =>
      Throw (OtherError "RangeError" "toString() radix must be between 2 and 36"
                        JUndefined JUndefined JUndefined)
  | JObj fs =>
      if has_key "toString" fs
      then Throw (TypeError "part.image.buffer.toString is not a function")
      else Normal "[object Object]"
  | _ => to_text buffer
  end.

(** The callback of the inner [map]: one part of an item of role [role]. *)
Definition formatPart (role : JsVal) (part : JsVal) : Completion JsVal :=
  let! text := get part "text" in
  if truthy text then Normal (JObj [("text", text)])
  else
    let! image := get part "image" in
    if truthy image && is_str role "user" then
      if match image with JStr s => includes "base64" s | _ => false end then
        let imgParts := split_on "," (to_string image) in
        if (1 <? List.length imgParts)%nat then
          Normal (JObj [("inlineData",
                         JObj [("data", JStr (nth 1 imgParts ""));
                               ("mimeType",
                                JStr (if includes "image/png" (to_string image)
                                      then "image/png" else "image/jpeg"))])])
        else Normal JNull
      else
        let! buffer := get image "buffer" in
        let! mimeType := get image "mimeType" in
        if truthy buffer && truthy mimeType then
          let! data := call_toString_base64 buffer in
          Normal (JObj [("inlineData",
                         JObj [("data", JStr data); ("mimeType", mimeType)])])
        else Normal JNull
    else Normal JNull.

(** The callback of the outer [map]. *)
Definition formatItem (item : JsVal) : Completion JsVal :=
  let! role := get item "role" in
  if negb (truthy role) then Normal JNull
  else
    let! parts := get item "parts" in
    match parts with
    | JArr l =>
        let! mapped := map_m (formatPart role) l in
        Normal (JObj [("role", role); ("parts", JArr (filter truthy mapped))])
    | _ => Normal JNull
    end.

(** [GeminiModel.formatHistory(history)] *)
Definition formatHistory (history : JsVal) : Completion (list JsVal) :=
  match history with
  | JArr (item :: items) =>
      let! mapped := map_m formatItem (item :: items) in
      Normal (filter truthy mapped)
  | _ => Normal []
  end.

(** Two items of a history: a user turn with a text part, and a user turn
    whose image has a number for a buffer. *)
Definition user_says_hi : JsVal :=
  JObj [("role", JStr "user"); ("parts", JArr [JObj [("text", JStr "hi")]])].

Definition number_buffer_item : JsVal :=
  JObj [("role", JStr "user");
        ("parts",
         JArr [JObj [("image", JObj [("buffer", JNum "7");
                                     ("mimeType", JStr "image/png")])]])].

(** What a formatted part and a formatted item look like. *)
Definition formatted_part (allow_image : bool) (p : JsVal) : Prop :=
  (exists t, p = JObj [("text", t)] /\ truthy t = true) \/
  (allow_image = true /\
   exists d m,
     p = JObj [("inlineData", JObj [("data", JStr d); ("mimeType", m)])] /\
     truthy m = true).

Definition formatted_item (i : JsVal) : Prop :=
  exists role ps,
    i = JObj [("role", role); ("parts", JArr ps)] /\
    truthy role = true /\
    Forall (formatted_part (is_str role "user")) ps.

End History.

(** * Properties *)

(** ** Rotation *)

Module RotatorSpec.
Import Rotator.
Local Open Scope nat_scope.

Section Pool.

Variable Key : Type.
Variable apiKeys : list Key.
Local Abbreviation N := (length apiKeys).
Hypothesis pool_nonempty : 0 < N.

Lemma advance_lt (c : nat) : (c + 1) mod N < N.
Proof. apply Nat.mod_upper_bound. lia. Qed.

Lemma advance_cases (c : nat) :
  c < N -> (c + 1) mod N = if c + 1 <? N then c + 1 else 0.
Proof.
  intros Hc. destruct (c + 1 <? N) eqn:E.
  - apply Nat.ltb_lt in E. now apply Nat.mod_small.
  - apply Nat.ltb_ge in E. replace (c + 1) with N by lia. apply Nat.Div0.mod_same.
Qed.

Lemma dispatch_step (m c : nat) :
  dispatch apiKeys (S m) c =
  ((c, nth_error apiKeys c) :: fst (dispatch apiKeys m ((c + 1) mod N)),
   snd (dispatch apiKeys m ((c + 1) mod N))).
Proof.
  simpl. unfold getNextGenAI.
  now destruct (dispatch apiKeys m ((c + 1) mod N)).
Qed.

Lemma dispatch_cursor (M : nat) : forall c, c < N -> snd (dispatch apiKeys M c) < N.
Proof.
  induction M as [|m IH]; intros c Hc.
  - exact Hc.
  - rewrite dispatch_step. simpl. apply IH, advance_lt.
Qed.

Lemma dispatch_nth (M : nat) : forall c k, c < N -> k < M ->
  nth_error (fst (dispatch apiKeys M c)) k =
  Some ((c + k) mod N, nth_error apiKeys ((c + k) mod N)).
Proof.
  induction M as [|m IH]; intros c k Hc Hk; [lia|].
  rewrite dispatch_step. simpl. destruct k as [|k].
  - simpl. rewrite Nat.add_0_r, Nat.mod_small by exact Hc. reflexivity.
  - simpl. rewrite IH by (try apply advance_lt; lia).
    rewrite Nat.Div0.add_mod_idemp_l.
    now replace (c + 1 + k) with (c + S k) by lia.
Qed.

Lemma uses_step (i m c : nat) :
  uses apiKeys i (S m) c =
  (if Nat.eq_dec c i then 1 else 0) + uses apiKeys i m ((c + 1) mod N).
Proof.
  unfold uses, indices. rewrite dispatch_step. simpl.
  now destruct (Nat.eq_dec c i).
Qed.

Lemma uses_closed (i M : nat) : forall c, c < N -> i < N ->
  uses apiKeys i M c = (M + N - 1 - dist apiKeys c i) / N.
Proof.
  induction M as [|m IH]; intros c Hc Hi.
  - unfold dist. symmetry. apply Nat.div_small. destruct (c <=? i) eqn:E; lia.
  - rewrite uses_step, IH by (try apply advance_lt; assumption).
    rewrite advance_cases by exact Hc. unfold dist.
    destruct (Nat.eq_dec c i) as [->|Hne].
    + rewrite Nat.leb_refl.
      replace (S m + N - 1 - (i - i)) with (m + 1 * N) by lia.
      rewrite Nat.div_add by lia.
      destruct (i + 1 <? N) eqn:E.
      * apply Nat.ltb_lt in E.
        destruct (i + 1 <=? i) eqn:E'; [apply Nat.leb_le in E'; lia|].
        replace (m + N - 1 - (N + i - (i + 1))) with m by lia. apply Nat.add_comm.
      * apply Nat.ltb_ge in E. change (0 <=? i) with true. cbv iota.
        replace (m + N - 1 - (i - 0)) with m by lia. apply Nat.add_comm.
    + destruct (c + 1 <? N) eqn:E.
      * apply Nat.ltb_lt in E.
        destruct (c <=? i) eqn:E1; destruct (c + 1 <=? i) eqn:E2;
          try apply Nat.leb_le in E1; try apply Nat.leb_le in E2;
          try apply Nat.leb_gt in E1; try apply Nat.leb_gt in E2;
          try lia; simpl; f_equal; lia.
      * apply Nat.ltb_ge in E. change (0 <=? i) with true. cbv iota.
        destruct (c <=? i) eqn:E1;
          [apply Nat.leb_le in E1; lia | apply Nat.leb_gt in E1].
        simpl. f_equal. lia.
Qed.

Lemma dist_lt (c i : nat) : c < N -> i < N -> dist apiKeys c i < N.
Proof.
  intros Hc Hi. unfold dist. destruct (c <=? i) eqn:E; [lia|].
  apply Nat.leb_gt in E. lia.
Qed.

Lemma uses_bounds (i M c : nat) : c < N -> i < N ->
  M / N <= uses apiKeys i M c <= ceil_div M N.
Proof.
  intros Hc Hi. rewrite uses_closed by assumption.
  pose proof (dist_lt c i Hc Hi) as Hd. unfold ceil_div.
  split; apply Nat.Div0.div_le_mono; lia.
Qed.

End Pool.

Lemma mod2_even (k : nat) : k mod 2 = if Nat.even k then 0 else 1.
Proof.
  rewrite (Nat.div_mod_eq k 2) at 2.
  rewrite Nat.add_comm, Nat.even_add_mul_2.
  pose proof (Nat.mod_upper_bound k 2 ltac:(lia)) as H.
  destruct (k mod 2) as [|[|n]]; [reflexivity | reflexivity | lia].
Qed.

Lemma ceil_div_le (M n : nat) : 0 < n -> ceil_div M n <= M / n + 1.
Proof.
  intros Hn. unfold ceil_div. rewrite <- (Nat.div_add M 1 n) by lia.
  apply Nat.Div0.div_le_mono. lia.
Qed.

(** C2. With a pool of [N >= 1] credentials and the cursor starting at [0]
    as the module sets it: the [k]-th sequential call (from 0) reads cursor
    [k mod N] and returns the client of the credential at that index; the
    cursor stays in [0..N-1] after any number of calls; over any [M]
    sequential calls, from any cursor in range, each index is used
    [floor(M/N)] or [ceil(M/N)] times; and with the two keys of the code
    the calls alternate key 1, key 2, key 1, key 2, ... *)
Theorem round_robin_rotation (Key : Type) (apiKeys : list Key) :
  0 < length apiKeys ->
  (forall M k, k < M ->
     exists key,
       nth_error apiKeys (k mod length apiKeys) = Some key /\
       nth_error (fst (dispatch apiKeys M initial_nextKeyIndex)) k
       = Some (k mod length apiKeys, Some key)) /\
  (initial_nextKeyIndex < length apiKeys /\
   forall M c, c < length apiKeys -> snd (dispatch apiKeys M c) < length apiKeys) /\
  (forall M c i, c < length apiKeys -> i < length apiKeys ->
     uses apiKeys i M c = M / length apiKeys \/
     uses apiKeys i M c = ceil_div M (length apiKeys)) /\
  (forall key1 key2, apiKeys = [key1; key2] ->
     forall M k, k < M ->
       nth_error (clients apiKeys M initial_nextKeyIndex) k
       = Some (Some (if Nat.even k then key1 else key2))).
Proof.
  intros HN. unfold initial_nextKeyIndex. split; [|split; [|split]].
  - intros M k Hk.
    assert (Hr : k mod length apiKeys < length apiKeys)
      by (apply Nat.mod_upper_bound; lia).
    destruct (nth_error apiKeys (k mod length apiKeys)) as [key|] eqn:E.
    + exists key. split; [reflexivity|].
      now rewrite (dispatch_nth Key apiKeys HN M 0 k HN Hk), Nat.add_0_l, E.
    + apply nth_error_None in E. lia.
  - split; [exact HN|]. intros M c Hc. now apply dispatch_cursor.
  - intros M c i Hc Hi.
    pose proof (uses_bounds Key apiKeys HN i M c Hc Hi) as Hb.
    pose proof (ceil_div_le M (length apiKeys) HN) as Hceil.
    revert Hb Hceil.
    generalize (uses apiKeys i M c) (M / length apiKeys) (ceil_div M (length apiKeys)).
    intros u f c' Hb Hceil. lia.
  - intros key1 key2 -> M k Hk. unfold clients.
    rewrite nth_error_map, (dispatch_nth Key [key1; key2] HN M 0 k HN Hk).
    simpl length. rewrite Nat.add_0_l, mod2_even.
    now destruct (Nat.even k).
Qed.

Lemma round_robin_rotation_witness :
  0 < length ["key one"; "key two"]%string /\
  forall M k, k < M ->
    nth_error (clients ["key one"; "key two"]%string M initial_nextKeyIndex) k
    = Some (Some (if Nat.even k then "key one" else "key two")%string).
Proof.
  split; [simpl; lia|].
  exact (proj2 (proj2 (proj2
    (round_robin_rotation string ["key one"; "key two"]%string ltac:(simpl; lia))))
    _ _ eq_refl).
Defined.

End RotatorSpec.

(** ** Facts on values *)

Module JsFacts.
Import Js.

Lemma truthy_not_nullish (v : JsVal) : truthy v = true -> nullish v = false.
Proof. now destruct v. Qed.

Lemma get_truthy (v : JsVal) (k : string) : truthy v = true -> get v k = Normal (prop v k).
Proof. intros H. unfold get. now rewrite truthy_not_nullish. Qed.

Lemma get0_truthy (v : JsVal) : truthy v = true -> get0 v = Normal (item0 v).
Proof. intros H. unfold get0. now rewrite truthy_not_nullish. Qed.

Lemma prop_nullish (v : JsVal) (k : string) : nullish v = true -> prop v k = JUndefined.
Proof. now destruct v. Qed.

Lemma to_uint_nonnil (n : nat) : Nat.to_uint n <> Decimal.Nil.
Proof.
  rewrite <- (Unsigned.of_to n), Unsigned.to_of. unfold Decimal.unorm.
  now destruct (Decimal.nzhead _).
Qed.

Lemma decimal_zero (n : nat) :
  NilZero.string_of_uint (Nat.to_uint n) = "0" -> n = 0%nat.
Proof.
  intros H. apply Unsigned.to_uint_inj.
  pose proof (NilZero.usu _ (to_uint_nonnil n)) as Hn.
  rewrite H in Hn. simpl in Hn. now injection Hn as <-.
Qed.

(** [length === 0] holds of the empty array or string only. *)
Lemma is_zero_num_of_nat (n : nat) : is_zero (num_of_nat n) = (n =? 0)%nat.
Proof.
  destruct n as [|n]; [reflexivity|]. unfold is_zero, num_of_nat.
  destruct (_ =? "0") eqn:E; [|reflexivity].
  apply String.eqb_eq, decimal_zero in E. discriminate E.
Qed.

Lemma append_assoc (a b c : string) : (a ++ b) ++ c = a ++ (b ++ c).
Proof. induction a as [|x a IH]; simpl; [reflexivity | now rewrite IH]. Qed.

Lemma append_nil_r (a : string) : a ++ "" = a.
Proof. induction a as [|x a IH]; simpl; [reflexivity | now rewrite IH]. Qed.

Lemma length_append (a b : string) :
  String.length (a ++ b) = (String.length a + String.length b)%nat.
Proof. induction a as [|x a IH]; simpl; [reflexivity | now rewrite IH]. Qed.

Lemma truthy_str (s : string) : truthy (JStr s) = true <-> s <> "".
Proof.
  simpl. destruct (String.eqb_spec s ""); simpl; split; intros; congruence.
Qed.

(** [(textContent || '')] is the text collected so far. *)
Lemma or_else_text (s : string) : to_string (or_else (JStr s) (JStr "")) = s.
Proof.
  unfold or_else. simpl. destruct (String.eqb_spec s ""); simpl; congruence.
Qed.

Lemma prop_array_inv (v : JsVal) (k : string) (l : list JsVal) :
  prop v k = JArr l -> exists fs, v = JObj fs.
Proof.
  destruct v; simpl; try discriminate; try (destruct (k =? "length"); discriminate).
  intros _. now eexists.
Qed.

Lemma lookup_set_field_other (k k' : string) (v : JsVal) (fs : list (string * JsVal)) :
  k <> k' -> lookup k (set_field k' v fs) = lookup k fs.
Proof.
  intros Hk. unfold lookup. induction fs as [|[k0 v0] fs IH]; cbn [set_field find fst snd].
  - apply String.eqb_neq in Hk. rewrite String.eqb_sym. now rewrite Hk.
  - destruct (String.eqb_spec k0 k') as [->|Hk0]; cbn [find fst snd].
    + apply String.eqb_neq in Hk. rewrite (String.eqb_sym k' k). now rewrite Hk.
    + destruct (k0 =? k); [reflexivity | exact IH].
Qed.

Lemma lookup_set_field_same (k : string) (v : JsVal) (fs : list (string * JsVal)) :
  lookup k (set_field k v fs) = v.
Proof.
  unfold lookup. induction fs as [|[k0 v0] fs IH]; cbn [set_field find fst snd].
  - now rewrite String.eqb_refl.
  - destruct (String.eqb_spec k0 k) as [->|Hk0]; cbn [find fst snd].
    + now rewrite String.eqb_refl.
    + apply String.eqb_neq in Hk0. now rewrite Hk0.
Qed.

Lemma prefix_app (p s : string) : prefix p (p ++ s) = true.
Proof.
  induction p as [|c p IH]; simpl; [now destruct s|].
  destruct (ascii_dec c c) as [_|Hc]; [exact IH | now elim Hc].
Qed.

Lemma prefix_split (p s : string) : prefix p s = true -> exists post, s = p ++ post.
Proof.
  revert s. induction p as [|c p IH]; intros s H.
  - now exists s.
  - destruct s as [|c' s]; simpl in H; [discriminate H|].
    destruct (ascii_dec c c') as [<-|]; [|discriminate H].
    destruct (IH s H) as [post ->]. now exists post.
Qed.

(** [includes] finds exactly the substrings. *)
Lemma includes_iff (p s : string) :
  includes p s = true <-> exists pre post, s = pre ++ p ++ post.
Proof.
  split.
  - induction s as [|c s IH]; cbn [includes]; intros H.
    + destruct (prefix p "") eqn:E; [|discriminate H].
      destruct (prefix_split _ _ E) as [post Hpost]. now exists "", post.
    + destruct (prefix p (String c s)) eqn:E.
      * destruct (prefix_split _ _ E) as [post Hpost]. now exists "", post.
      * destruct (IH H) as [pre [post ->]]. now exists (String c pre), post.
  - intros [pre [post ->]]. induction pre as [|c pre IH].
    + cbn [append]. destruct (p ++ post) eqn:E; cbn [includes];
        rewrite <- E, prefix_app; reflexivity.
    + change (String c pre ++ p ++ post) with (String c (pre ++ p ++ post)).
      cbn [includes]. rewrite IH. now destruct (prefix p _).
Qed.

Lemma toLowerCase_app (a b : string) :
  toLowerCase (a ++ b) = toLowerCase a ++ toLowerCase b.
Proof. induction a as [|c a IH]; simpl; [reflexivity | now rewrite IH]. Qed.

Lemma toLowerCase_split (s a b : string) :
  toLowerCase s = a ++ b ->
  exists a' b', s = a' ++ b' /\ toLowerCase a' = a /\ toLowerCase b' = b.
Proof.
  revert s. induction a as [|c a IH]; intros s H.
  - now exists "", s.
  - destruct s as [|c' s]; [discriminate H|]. cbn [toLowerCase append] in H.
    injection H as Hc Hs. destruct (IH s Hs) as [a' [b' [-> [Ha Hb]]]].
    exists (String c' a'), b'. cbn [toLowerCase append]. now rewrite Hc, Ha.
Qed.

(** Lower-casing and then searching for a lower-case word is searching up
    to case. *)
Lemma includes_toLowerCase (p s : string) :
  includes (toLowerCase p) (toLowerCase s) = true <->
  exists pre mid post, s = pre ++ mid ++ post /\ toLowerCase mid = toLowerCase p.
Proof.
  rewrite includes_iff. split.
  - intros [pre [post H]].
    destruct (toLowerCase_split _ _ _ H) as [pre' [rest [-> [_ Hrest]]]].
    destruct (toLowerCase_split _ _ _ Hrest) as [mid [post' [-> [Hmid _]]]].
    now exists pre', mid, post'.
  - intros [pre [mid [post [-> Hmid]]]].
    exists (toLowerCase pre), (toLowerCase post).
    now rewrite !toLowerCase_app, Hmid.
Qed.

(** Printing fails in one way only. *)
Lemma to_text_error : forall (v : JsVal) (e : JsError),
  to_text v = Throw e -> e = TypeError "Cannot convert object to primitive value".
Proof.
  fix IH 1. intros v e. destruct v as [| |b|r|s|l|fs]; cbn [to_text]; try discriminate.
  - induction l as [|x rest IHl]; [discriminate|].
    intros H.
    assert (Hx : forall e', (if nullish x then Normal "" else to_text x) = Throw e' ->
                 e' = TypeError "Cannot convert object to primitive value").
    { intros e'. destruct (nullish x); [discriminate | apply IH]. }
    destruct (if nullish x then Normal "" else to_text x) as [h|e'] eqn:E; cbn [bind] in H.
    + destruct rest as [|y rest']; [discriminate H|].
      apply IHl. 
      match type of H with
      | bind ?c _ = _ => destruct c as [t|e''] eqn:E'; cbn [bind] in H
      end; [discriminate H | exact H].
    + injection H as <-. now apply Hx.
  - destruct (has_key "toString" fs); [|discriminate]. now intros [= <-].
Qed.

Lemma printable_or_else (a : JsVal) (s : string) :
  printable a -> printable (or_else a (JStr s)).
Proof. unfold or_else. now destruct (truthy a). Qed.

End JsFacts.

(** ** Classification *)

Module ClassifierSpec.
Import Js Classifier Shapes Samples JsFacts.

(** Case analysis along the control flow of a monadic definition. *)
Ltac flow H :=
  repeat match type of H with
  | Normal _ = Normal _ => injection H as H; try subst
  | Throw _ = Normal _ => discriminate H
  | Normal _ = Throw _ => discriminate H
  | Return _ = Return _ => injection H as H; try subst
  | ScanParts _ = ScanParts _ => injection H as H; try subst
  | ScanParts _ = Return _ => discriminate H
  | Return _ = ScanParts _ => discriminate H
  | context [bind ?c _] => destruct c eqn:?; cbn [bind] in H
  | context [if ?b then _ else _] => destruct b eqn:?
  | context [match ?d with Return _ => _ | ScanParts _ => _ end] => destruct d eqn:?
  end.

Lemma prelude_kinds (v : JsVal) (o : Outcome) :
  prelude v = Normal (Return o) -> In (type o) kinds.
Proof.
  unfold prelude, kinds. intros H. flow H; simpl; tauto.
Qed.

Lemma scan_loop_kinds (parts : JsVal) (o : Outcome) :
  scan_loop parts = Normal o -> In (type o) kinds.
Proof.
  unfold scan_loop, kinds. intros H. flow H; simpl; tauto.
Qed.

Lemma classify_kinds (scan : JsVal -> Completion Outcome) (v : JsVal) (o : Outcome) :
  (forall parts o', scan parts = Normal o' -> In (type o') kinds) ->
  classify scan v = Normal o -> In (type o) kinds.
Proof.
  intros Hscan H. unfold classify in H.
  destruct (prelude v) as [[o'|parts]|e] eqn:E; cbn [bind] in H.
  - injection H as <-. now apply prelude_kinds with v.
  - now apply Hscan with parts.
  - discriminate H.
Qed.

(** C1. For every payload value and environment, [processResponse] completes
    normally with an outcome whose type is one of the four kinds; and when
    the [try] block throws, the outcome is an error whose message is the
    failed-to-process text followed by the message of what was thrown. *)
Theorem classifier_total (env : Env) (apiResponse : JsVal) :
  exists o,
    processResponse env apiResponse = Normal o /\
    In (type o) kinds /\
    forall error, classify scan_loop apiResponse = Throw error ->
      type o = "error" /\
      lookup "error" (data o)
        = JStr ("Failed to process the API response: " ++ message error) /\
      prefix "Failed to process the API response: "
             (to_string (lookup "error" (data o))) = true.
Proof.
  unfold processResponse.
  destruct (classify scan_loop apiResponse) as [o|e] eqn:E; cbn [try_catch].
  - exists o. split; [reflexivity|]. split.
    + apply classify_kinds with scan_loop apiResponse; [apply scan_loop_kinds | exact E].
    + intros error H. discriminate H.
  - unfold on_failure. eexists. split; [reflexivity|]. split.
    + simpl. unfold kinds. simpl. tauto.
    + intros error H. injection H as <-. split; [reflexivity|]. split; [reflexivity|].
      cbn [data lookup find fst snd String.eqb Ascii.eqb Bool.eqb to_string].
      apply prefix_app.
Qed.

(** An error outcome of the classifier carries a non-empty message. *)
Lemma error_outcome_message (env : Env) (v : JsVal) (o : Outcome) :
  processResponse env v = Normal o -> type o = "error" ->
  exists msg, lookup "error" (data o) = JStr msg /\ truthy (JStr msg) = true.
Proof.
  unfold processResponse, classify. intros H Htype.
  destruct (prelude v) as [[o'|parts]|e] eqn:E; cbn [bind try_catch] in H.
  - injection H as ->. unfold prelude in E.
    flow E; try discriminate Htype; eexists; split; reflexivity.
  - destruct (scan_loop parts) as [o'|e] eqn:E'; cbn [try_catch] in H.
    + injection H as ->. unfold scan_loop in E'.
      flow E'; try discriminate Htype.
    + injection H as <-. eexists; split; reflexivity.
  - injection H as <-. eexists; split; reflexivity.
Qed.

(** The text the scan gathers is [null] or a string. *)
Lemma scan_parts_text (parts : list JsVal) : forall acc s,
  scan_parts acc parts = Normal s ->
  textContent acc = JNull \/ (exists t, textContent acc = JStr t) ->
  textContent s = JNull \/ (exists t, textContent s = JStr t).
Proof.
  induction parts as [|part rest IH]; intros acc s H Hacc.
  - cbn [scan_parts] in H. now injection H as <-.
  - cbn [scan_parts] in H.
    destruct (scan_part acc part) as [acc'|e] eqn:E; cbn [bind] in H; [|discriminate H].
    apply (IH acc' s H). unfold scan_part in E.
    flow E; cbn [textContent]; eauto.
Qed.

(** The data objects the classifier builds, by kind of outcome. *)
Lemma outcome_data (env : Env) (v : JsVal) (o : Outcome) :
  processResponse env v = Normal o ->
  (type o = "image" /\
   exists u c, data o = [("imageUrl", JStr u); ("text", c)] /\
               (c = JNull \/ exists t, c = JStr t)) \/
  (type o = "text" /\ exists t, data o = [("text", JStr t)]) \/
  (type o = "empty" /\
   exists t, truthy (JStr t) = true /\
             (data o = [("text", JStr t)] \/
              exists parts, data o = [("text", JStr t); ("rawParts", parts)])) \/
  (type o = "error" /\
   exists msg, truthy (JStr msg) = true /\
               (data o = [("error", JStr msg)] \/
                (exists d, data o = [("error", JStr msg); ("details", d)]) \/
                data o = [("error", JStr msg);
                          ("rawResponse",
                           if env_is env "development" then v else JUndefined)])).
Proof.
  unfold processResponse, classify. intros H.
  destruct (prelude v) as [[o'|parts]|e] eqn:E; cbn [bind try_catch] in H.
  - injection H as ->. unfold prelude in E.
    flow E; cbn [type data];
      first [ right; left; split; [reflexivity|]; eexists; reflexivity
            | right; right; left; split; [reflexivity|]; eexists;
              refine (conj _ (or_introl eq_refl)); reflexivity
            | right; right; right; split; [reflexivity|]; eexists;
              refine (conj _ (or_introl eq_refl)); reflexivity
            | right; right; right; split; [reflexivity|]; eexists;
              refine (conj _ (or_intror (or_introl (ex_intro _ _ eq_refl))));
              reflexivity ].
  - destruct (scan_loop parts) as [o'|e] eqn:E'; cbn [try_catch] in H.
    + injection H as ->. unfold scan_loop in E'.
      destruct (iterate parts) as [elems|e]; cbn [bind] in E'; [|discriminate E'].
      destruct (scan_parts scan0 elems) as [s|e] eqn:Es; cbn [bind] in E';
        [|discriminate E'].
      pose proof (scan_parts_text _ _ _ Es (or_introl eq_refl)) as Ht.
      destruct (truthy (imageData s)).
      * flow E'. left. split; [reflexivity|]. eexists _, _. split; [reflexivity | exact Ht].
      * destruct (truthy (textContent s)) eqn:Htruthy; injection E' as <-.
        -- right. left. split; [reflexivity|].
           destruct Ht as [Ht|[t Ht]]; rewrite Ht in Htruthy |- *;
             [discriminate Htruthy | now eexists].
        -- right. right. left. split; [reflexivity|]. eexists.
           refine (conj _ (or_intror (ex_intro _ _ eq_refl))). reflexivity.
    + injection H as <-. right. right. right. split; [reflexivity|]. eexists.
      refine (conj _ (or_intror (or_intror eq_refl))). reflexivity.
  - injection H as <-. right. right. right. split; [reflexivity|]. eexists.
    refine (conj _ (or_intror (or_intror eq_refl))). reflexivity.
Qed.

(** C4. For a response that is present, not prompt-blocked, and whose
    candidate list starts with a candidate of finish reason "SAFETY", the
    shared part of the classifier already returns the safety error with the
    candidate's safety ratings as details; so does [processResponse], and so
    does the classifier with any scan whatsoever in place of the loop: the
    parts are not looked at. *)
Theorem safety_stop (env : Env) (apiResponse candidate : JsVal) (more : list JsVal) :
  truthy apiResponse = true ->
  truthy (opt_get (prop apiResponse "promptFeedback") "blockReason") = false ->
  prop apiResponse "candidates" = JArr (candidate :: more) ->
  prop candidate "finishReason" = JStr "SAFETY" ->
  prelude apiResponse = Normal (Return (safety_error (prop candidate "safetyRatings"))) /\
  processResponse env apiResponse = Normal (safety_error (prop candidate "safetyRatings")) /\
  forall scan,
    classify scan apiResponse = Normal (safety_error (prop candidate "safetyRatings")).
Proof.
  intros Hresp Hblock Hcands Hfinish.
  assert (Hc : nullish candidate = false).
  { destruct (nullish candidate) eqn:E; [|reflexivity].
    rewrite prop_nullish in Hfinish by exact E. discriminate Hfinish. }
  assert (Hp : prelude apiResponse
               = Normal (Return (safety_error (prop candidate "safetyRatings")))).
  { unfold prelude. rewrite Hresp. cbn [negb].
    rewrite !get_truthy by exact Hresp. cbn [bind].
    rewrite Hblock, Hcands. cbn [truthy negb].
    rewrite get_truthy by reflexivity. cbn [bind prop].
    change ("length" =? "length") with true. cbv iota.
    rewrite is_zero_num_of_nat. cbn [length Nat.eqb].
    rewrite get0_truthy by reflexivity. cbn [bind item0 hd].
    unfold get. rewrite Hc. cbn [bind]. rewrite Hfinish. reflexivity. }
  split; [exact Hp|]. split.
  - unfold processResponse, classify. now rewrite Hp.
  - intros scan. unfold classify. now rewrite Hp.
Qed.

Lemma safety_stop_witness :
  processResponse None (response_of safety_candidate)
  = Normal (safety_error (JArr [JStr "HARM_CATEGORY_HARASSMENT"])).
Proof.
  refine (proj1 (proj2 (safety_stop None _ safety_candidate [] _ _ _ _))); reflexivity.
Defined.

(** C8. For a response that is present and not prompt-blocked, when
    [candidates] is absent ([undefined] or [null]) or the empty list, the
    finish reason the code looks up ([candidates?.[0]?.finishReason]) is
    [undefined] and the outcome is the no-content one.  More generally,
    whenever the no-candidates test of the code holds ([candidates] falsy,
    or of length 0): if that finish reason is absent or ["STOP"] the
    outcome is the no-content one; if it is present, not ["STOP"], and can
    be printed, the outcome is the generation-stopped text with the reason
    in it; if it cannot be printed, the outcome is the failed-to-process
    error of the [catch] block. *)
Theorem no_candidates_rule (env : Env) (apiResponse : JsVal) :
  truthy apiResponse = true ->
  truthy (opt_get (prop apiResponse "promptFeedback") "blockReason") = false ->
  (truthy (prop apiResponse "candidates") = false \/
   is_zero (prop (prop apiResponse "candidates") "length") = true) ->
  (nullish (prop apiResponse "candidates") = true \/
   prop apiResponse "candidates" = JArr [] ->
   opt_get (opt_get0 (prop apiResponse "candidates")) "finishReason" = JUndefined /\
   processResponse env apiResponse = Normal no_content) /\
  (normal_finish (opt_get (opt_get0 (prop apiResponse "candidates")) "finishReason") = true ->
   processResponse env apiResponse = Normal no_content) /\
  (normal_finish (opt_get (opt_get0 (prop apiResponse "candidates")) "finishReason") = false ->
   printable (opt_get (opt_get0 (prop apiResponse "candidates")) "finishReason") ->
   processResponse env apiResponse
   = Normal (stopped_text (opt_get (opt_get0 (prop apiResponse "candidates")) "finishReason"))) /\
  (normal_finish (opt_get (opt_get0 (prop apiResponse "candidates")) "finishReason") = false ->
   forall error,
     to_text (opt_get (opt_get0 (prop apiResponse "candidates")) "finishReason") = Throw error ->
     processResponse env apiResponse = on_failure env apiResponse error).
Proof.
  intros Hresp Hblock Hnone.
  assert (Hp : prelude apiResponse
    = if normal_finish (opt_get (opt_get0 (prop apiResponse "candidates")) "finishReason")
      then Normal (Return no_content)
      else let! reason :=
             to_text (opt_get (opt_get0 (prop apiResponse "candidates")) "finishReason") in
           Normal (Return (mkOutcome "text"
             [("text", JStr ("Generation stopped due to: " ++ reason
                              ++ ". No content available."))]))).
  { unfold prelude. rewrite Hresp. cbn [negb].
    rewrite !get_truthy by exact Hresp. cbn [bind]. rewrite Hblock.
    unfold normal_finish.
    destruct (truthy (prop apiResponse "candidates")) eqn:Hc; cbn [negb bind].
    - destruct Hnone as [Hn|Hn]; [discriminate Hn|].
      rewrite get_truthy by exact Hc. cbn [bind]. rewrite Hn.
      now destruct (truthy _ && negb _).
    - now destruct (truthy _ && negb _). }
  assert (Hnormal :
    normal_finish (opt_get (opt_get0 (prop apiResponse "candidates")) "finishReason") = true ->
    processResponse env apiResponse = Normal no_content).
  { intros Hfin. unfold processResponse, classify. now rewrite Hp, Hfin. }
  split; [|split; [exact Hnormal|split]].
  - intros Habsent.
    assert (Hfr : opt_get (opt_get0 (prop apiResponse "candidates")) "finishReason"
                  = JUndefined).
    { destruct Habsent as [Hn|Hn].
      - unfold opt_get0. now rewrite Hn.
      - now rewrite Hn. }
    split; [exact Hfr|]. apply Hnormal. now rewrite Hfr.
  - intros Hfin Hprint. unfold processResponse, classify.
    rewrite Hp, Hfin, Hprint. reflexivity.
  - intros Hfin error Hthrow. unfold processResponse, classify.
    rewrite Hp, Hfin, Hthrow. reflexivity.
Qed.

Lemma no_candidates_rule_witness :
  processResponse None (JObj [("candidates", JArr [])]) = Normal no_content /\
  processResponse None (JObj [("candidates", array_like_candidates)])
  = Normal (stopped_text (JStr "MAX_TOKENS")) /\
  processResponse None (JObj [("candidates", unprintable_candidates)])
  = Normal (mkOutcome "error"
      [("error", JStr "Failed to process the API response: Cannot convert object to primitive value");
       ("rawResponse", JUndefined)]).
Proof.
  split; [|split].
  - refine (proj2 (proj1 (no_candidates_rule None _ _ _ _) _));
      try reflexivity; right; reflexivity.
  - refine (proj1 (proj2 (proj2 (no_candidates_rule None _ _ _ _))) _ _);
      try reflexivity; right; reflexivity.
  - refine (proj2 (proj2 (proj2 (no_candidates_rule None
                                   (JObj [("candidates", unprintable_candidates)]) _ _ _)))
              _ (TypeError "Cannot convert object to primitive value") _);
      try reflexivity; right; reflexivity.
Defined.

(** *** The scans on well-formed parts *)

Lemma is_image_encode (p : Part) : is_image_part (encode p) = Normal (is_image p).
Proof. now destruct p. Qed.

Lemma scan_part_text (acc : Scan) (t : string) :
  scan_part acc (encode (PText t))
  = Normal (mkScan (JStr (to_string (or_else (textContent acc) (JStr "")) ++ t))
                   (imageData acc) (imageMimeType acc)).
Proof. reflexivity. Qed.

Lemma scan_part_inline (acc : Scan) (m d : string) :
  scan_part acc (encode (PInline m d))
  = Normal (if prefix "image/" m then mkScan (textContent acc) (JStr d) (JStr m) else acc).
Proof.
  unfold scan_part. rewrite is_image_encode. cbn [bind is_image].
  now destruct (prefix "image/" m).
Qed.

Lemma scan_parts_from_text (ps : list Part) : forall s d m,
  scan_parts (mkScan (JStr s) d m) (map encode ps)
  = Normal (mkScan (JStr (s ++ concat_all (texts ps)))
                   (image_or d snd (last_image ps)) (image_or m fst (last_image ps))).
Proof.
  induction ps as [|[t|m' d'] ps IH]; intros s d m.
  - simpl. now rewrite append_nil_r.
  - cbn [map scan_parts]. rewrite scan_part_text. cbn [bind textContent imageData imageMimeType].
    rewrite or_else_text, IH. cbn [texts concat_all fold_right last_image].
    rewrite append_assoc. now destruct (last_image ps).
  - cbn [map scan_parts]. rewrite scan_part_inline. cbn [texts last_image].
    destruct (prefix "image/" m'); cbn [bind textContent]; rewrite IH;
      now destruct (last_image ps).
Qed.

Lemma scan_parts_from_null (ps : list Part) : forall d m,
  scan_parts (mkScan JNull d m) (map encode ps)
  = Normal (mkScan (caption ps)
                   (image_or d snd (last_image ps)) (image_or m fst (last_image ps))).
Proof.
  induction ps as [|[t|m' d'] ps IH]; intros d m.
  - reflexivity.
  - cbn [map scan_parts]. rewrite scan_part_text.
    cbn [bind textContent imageData imageMimeType or_else truthy to_string append].
    rewrite scan_parts_from_text. unfold caption. cbn [texts last_image].
    now destruct (last_image ps).
  - cbn [map scan_parts]. rewrite scan_part_inline. unfold caption in *. cbn [texts last_image].
    destruct (prefix "image/" m'); cbn [bind textContent]; rewrite IH;
      now destruct (last_image ps).
Qed.

Lemma scan_loop_encode (ps : list Part) :
  scan_loop (JArr (map encode ps)) = Normal (loop_outcome ps).
Proof.
  unfold scan_loop, scan0, loop_outcome. cbn [iterate bind].
  rewrite scan_parts_from_null. cbn [bind imageData imageMimeType textContent].
  destruct (last_image ps) as [[m d]|]; cbn [image_or snd fst].
  - destruct (truthy (JStr d)); [reflexivity|].
    unfold text_or_unusable. now destruct (truthy (caption ps)).
  - cbn [truthy]. unfold text_or_unusable. now destruct (truthy (caption ps)).
Qed.

(** The shared part reaches the scan on a candidate that finished normally
    and has a non-empty list of parts. *)
Lemma prelude_scans (apiResponse candidate : JsVal) (more : list JsVal) (ps : list Part) :
  truthy apiResponse = true ->
  truthy (opt_get (prop apiResponse "promptFeedback") "blockReason") = false ->
  prop apiResponse "candidates" = JArr (candidate :: more) ->
  normal_finish (prop candidate "finishReason") = true ->
  prop (prop candidate "content") "parts" = JArr (map encode ps) ->
  ps <> [] ->
  prelude apiResponse = Normal (ScanParts (JArr (map encode ps))).
Proof.
  intros Hresp Hblock Hcands Hfinish Hparts Hne.
  destruct (prop_array_inv _ _ _ Hparts) as [cfs Hcontent].
  assert (Hcand : exists fs, candidate = JObj fs).
  { destruct candidate; simpl in Hcontent; try discriminate Hcontent;
      try (destruct ("content" =? "length"); discriminate Hcontent).
    now eexists. }
  destruct Hcand as [fs ->].
  unfold prelude. rewrite Hresp. cbn [negb].
  rewrite !get_truthy by exact Hresp. cbn [bind].
  rewrite Hblock, Hcands. cbn [truthy negb].
  rewrite get_truthy by reflexivity. cbn [bind prop].
  change ("length" =? "length") with true. cbv iota.
  rewrite is_zero_num_of_nat. cbn [length Nat.eqb].
  rewrite get0_truthy by reflexivity. cbn [bind item0 hd].
  rewrite get_truthy by reflexivity. cbn [bind].
  unfold normal_finish in Hfinish. apply negb_true_iff in Hfinish. rewrite Hfinish.
  rewrite get_truthy by reflexivity. cbn [bind].
  rewrite Hcontent in *. cbn [truthy negb].
  rewrite !get_truthy by reflexivity. cbn [bind].
  rewrite Hparts. cbn [truthy negb].
  rewrite get_truthy by reflexivity. cbn [bind prop].
  change ("length" =? "length") with true. cbv iota.
  rewrite is_zero_num_of_nat, length_map.
  destruct ps; [now elim Hne | reflexivity].
Qed.

Lemma last_image_nonempty (ps : list Part) (x : string * string) :
  last_image ps = Some x -> ps <> [].
Proof. now destruct ps. Qed.

(** C3, as the code has it.  For a response that is present, not
    prompt-blocked, whose first candidate finished normally with well-formed
    parts: when the last image part has non-empty data, the outcome is an
    image whose [imageUrl] is ["data:<mime>;base64,<data>"] of that last
    image part and whose text is the caption, all text parts concatenated in
    order with nothing between them; in particular parts
    [text A, image X, text B] with non-empty data of X give image X with
    caption [A ++ B]. *)
Theorem image_precedence (env : Env) (apiResponse candidate : JsVal) (more : list JsVal) :
  truthy apiResponse = true ->
  truthy (opt_get (prop apiResponse "promptFeedback") "blockReason") = false ->
  prop apiResponse "candidates" = JArr (candidate :: more) ->
  normal_finish (prop candidate "finishReason") = true ->
  (forall ps mime dat,
     prop (prop candidate "content") "parts" = JArr (map encode ps) ->
     last_image ps = Some (mime, dat) ->
     dat <> "" ->
     processResponse env apiResponse
     = Normal (mkOutcome "image"
                 [("imageUrl", JStr (data_uri mime dat)); ("text", caption ps)])) /\
  (forall A B mime dat,
     prop (prop candidate "content") "parts"
       = JArr (map encode [PText A; PInline mime dat; PText B]) ->
     prefix "image/" mime = true ->
     dat <> "" ->
     processResponse env apiResponse
     = Normal (mkOutcome "image"
                 [("imageUrl", JStr ("data:" ++ mime ++ ";base64," ++ dat));
                  ("text", JStr (A ++ B))])).
Proof.
  intros Hresp Hblock Hcands Hfinish.
  assert (General : forall ps mime dat,
     prop (prop candidate "content") "parts" = JArr (map encode ps) ->
     last_image ps = Some (mime, dat) ->
     dat <> "" ->
     processResponse env apiResponse
     = Normal (mkOutcome "image"
                 [("imageUrl", JStr (data_uri mime dat)); ("text", caption ps)])).
  { intros ps mime dat Hparts Hlast Hdat.
    unfold processResponse, classify.
    rewrite (prelude_scans _ _ _ ps Hresp Hblock Hcands Hfinish Hparts
               (last_image_nonempty _ _ Hlast)).
    cbn [bind]. rewrite scan_loop_encode. cbn [try_catch].
    unfold loop_outcome. rewrite Hlast.
    apply truthy_str in Hdat. now rewrite Hdat. }
  split; [exact General|].
  intros A B mime dat Hparts Hmime Hdat.
  rewrite (General _ mime dat Hparts); [|cbn [last_image]; now rewrite Hmime | exact Hdat].
  unfold caption, data_uri. cbn [texts concat_all fold_right].
  now rewrite append_nil_r.
Qed.

Lemma image_precedence_witness :
  processResponse None
    (response_of (candidate_of [PText "A"; PInline "image/png" "iVBORw0KGgo="; PText "B"]))
  = Normal (mkOutcome "image"
              [("imageUrl", JStr "data:image/png;base64,iVBORw0KGgo=");
               ("text", JStr "AB")]).
Proof.
  refine (proj2 (image_precedence None _
                   (candidate_of [PText "A"; PInline "image/png" "iVBORw0KGgo="; PText "B"])
                   [] _ _ _ _) "A" "B" "image/png" "iVBORw0KGgo=" _ _ _);
    try reflexivity.
  discriminate.
Defined.

(** C3 as stated fails on an image part whose data is empty: the scan finds
    the image, the test [if (imageData)] fails on the empty string, and the
    outcome is the text ["AB"]. *)
Lemma image_precedence_counterexample :
  is_image (PInline "image/png" "") = true /\
  processResponse None (response_of (candidate_of empty_image_parts))
  = Normal (mkOutcome "text" [("text", JStr "AB")]).
Proof. split; reflexivity. Qed.

(** *** The find-based scan on well-formed parts, and the two compared *)

Lemma find_part_encode (ps : list Part) :
  find_part is_image_part (map encode ps)
  = Normal (match first_image ps with
            | Some (m, d) => encode (PInline m d)
            | None => JUndefined
            end).
Proof.
  induction ps as [|[t|m d] ps IH]; [reflexivity| |].
  - cbn [map find_part]. rewrite is_image_encode. exact IH.
  - cbn [map find_part]. rewrite is_image_encode. cbn [bind is_image first_image].
    destruct (prefix "image/" m); [reflexivity | exact IH].
Qed.

Lemma text_parts_encode (ps : list Part) : text_parts (map encode ps) = Normal (texts ps).
Proof.
  induction ps as [|[t|m d] ps IH]; [reflexivity| |];
    cbn [map text_parts]; rewrite IH; reflexivity.
Qed.

Lemma scan_find_encode (ps : list Part) :
  scan_find (JArr (map encode ps)) = Normal (find_outcome ps).
Proof.
  unfold scan_find, find_outcome. cbn [as_array bind].
  rewrite find_part_encode. cbn [bind].
  destruct (first_image ps) as [[m d]|]; [reflexivity|].
  change (truthy JUndefined) with false. cbv iota.
  rewrite text_parts_encode. cbn [bind].
  unfold text_or_unusable. now destruct (truthy (JStr (join_lines (texts ps)))).
Qed.

Lemma first_last_image (ps : list Part) : first_image ps = None <-> last_image ps = None.
Proof.
  induction ps as [|[t|m d] ps IH]; cbn [first_image last_image]; [tauto| |].
  - destruct (last_image ps); [|tauto]. split; [|discriminate]. intros H.
    apply IH in H. discriminate H.
  - destruct (prefix "image/" m).
    + split; [discriminate|]. now destruct (last_image ps).
    + destruct (last_image ps); [|tauto]. split; [|discriminate]. intros H.
      apply IH in H. discriminate H.
Qed.

(** Joining with newlines is longer than concatenating by one character per
    gap. *)
Lemma join_lines_length (ts : list string) : ts <> [] ->
  (String.length (join_lines ts) + 1 = String.length (concat_all ts) + List.length ts)%nat.
Proof.
  induction ts as [|t ts IH]; [congruence|]. intros _.
  destruct ts as [|t' ts].
  - cbn [join_lines concat_all fold_right List.length]. now rewrite append_nil_r.
  - change (join_lines (t :: t' :: ts)) with (t ++ newline ++ join_lines (t' :: ts)).
    change (concat_all (t :: t' :: ts)) with (t ++ concat_all (t' :: ts)).
    rewrite !length_append. specialize (IH ltac:(discriminate)).
    cbn [List.length] in *. change (String.length newline) with 1%nat. lia.
Qed.

Lemma outcomes_agree_iff (ps : list Part) :
  loop_outcome ps = find_outcome ps <->
  first_image ps = None /\ (List.length (texts ps) <= 1)%nat.
Proof.
  unfold loop_outcome, find_outcome.
  destruct (first_image ps) as [[m d]|] eqn:Hfirst.
  - split; [|intros [H _]; discriminate H]. intros H. exfalso.
    destruct (last_image ps) as [[m' d']|] eqn:Hlast.
    + destruct (truthy (JStr d')); [discriminate H|].
      unfold text_or_unusable in H. destruct (truthy (caption ps)); discriminate H.
    + apply first_last_image in Hlast. congruence.
  - apply first_last_image in Hfirst. rewrite Hfirst. unfold caption.
    destruct (texts ps) as [|t [|t' ts]] eqn:Htexts.
    + split; [intros _; split; [reflexivity | simpl; lia] | reflexivity].
    + cbn [concat_all fold_right join_lines]. rewrite append_nil_r.
      split; [intros _; split; [reflexivity | simpl; lia] | reflexivity].
    + split; [|intros [_ H]; simpl in H; lia]. intros H. exfalso.
      pose proof (join_lines_length (t :: t' :: ts) ltac:(discriminate)) as Hlen.
      unfold text_or_unusable in H.
      destruct (truthy (JStr (join_lines (t :: t' :: ts)))) eqn:Hj.
      * destruct (truthy (JStr (concat_all (t :: t' :: ts)))); [|discriminate H].
        assert (E : concat_all (t :: t' :: ts) = join_lines (t :: t' :: ts))
          by congruence.
        rewrite E in Hlen. cbn [List.length] in Hlen. lia.
      * destruct (truthy (JStr (concat_all (t :: t' :: ts)))); [discriminate H|].
        destruct (String.eqb_spec (join_lines (t :: t' :: ts)) "") as [E|E].
        -- rewrite E in Hlen. cbn [List.length String.length] in Hlen. lia.
        -- apply truthy_str in E. congruence.
Qed.

(** C10 as stated fails: on two text parts the loop-based revision
    concatenates them and the find-based one joins them with a newline. *)
Lemma revisions_equal_counterexample :
  processResponse None (response_of (candidate_of two_texts))
    = Normal (mkOutcome "text" [("text", JStr "AB")]) /\
  processResponse_find None (response_of (candidate_of two_texts))
    = Normal (mkOutcome "text" [("text", JStr ("A" ++ newline ++ "B"))]) /\
  processResponse None (response_of (candidate_of two_texts))
    <> processResponse_find None (response_of (candidate_of two_texts)).
Proof. repeat split; try reflexivity. discriminate. Qed.

(** C10, as the code has it.  The two revisions return the same outcome
    whenever the shared part decides (an outcome is returned, or something
    is thrown, before the parts are scanned); and when it reaches the scan
    on well-formed parts, they return the same outcome exactly when no part
    is an image part and at most one part is a text part. *)
Theorem revisions_agree (env : Env) (apiResponse : JsVal) :
  ((forall parts, prelude apiResponse <> Normal (ScanParts parts)) ->
   processResponse env apiResponse = processResponse_find env apiResponse) /\
  (forall ps,
     prelude apiResponse = Normal (ScanParts (JArr (map encode ps))) ->
     (processResponse env apiResponse = processResponse_find env apiResponse <->
      first_image ps = None /\ (List.length (texts ps) <= 1)%nat)).
Proof.
  unfold processResponse, processResponse_find, classify. split.
  - intros H. destruct (prelude apiResponse) as [[o|parts]|e]; try reflexivity.
    now elim (H parts).
  - intros ps ->. cbn [bind]. rewrite scan_loop_encode, scan_find_encode.
    cbn [try_catch]. rewrite <- outcomes_agree_iff.
    split; [now intros [= ->] | now intros ->].
Qed.

Lemma revisions_agree_witness :
  processResponse None JNull = processResponse_find None JNull /\
  processResponse None (response_of (candidate_of [PText "Here is..."]))
    = processResponse_find None (response_of (candidate_of [PText "Here is..."])).
Proof.
  split.
  - refine (proj1 (revisions_agree None JNull) _). intros parts. discriminate.
  - refine (proj2 (proj2 (revisions_agree None _) [PText "Here is..."] _) _).
    + reflexivity.
    + split; [reflexivity | simpl; lia].
Defined.

End ClassifierSpec.

(** ** Model layer and controller *)

Module ControllerSpec.
Import Js Classifier Model Controller Shapes Samples JsFacts ClassifierSpec.

Section Upstream.

Variable Key : Type.
Variables googleAiApiKey1 googleAiApiKey2 : Key.
Variable sdk : option Key -> list MessagePart -> Completion JsVal.

Local Abbreviation World := (World Key).
Local Abbreviation model := (Model.generateContent googleAiApiKey1 googleAiApiKey2 sdk).
Local Abbreviation controller :=
  (Controller.generateContent googleAiApiKey1 googleAiApiKey2 sdk).
Local Abbreviation preset_controller :=
  (PresetController.generateContent googleAiApiKey1 googleAiApiKey2 sdk).

Lemma invalid_prompt_cases (prompt : JsVal) :
  is_string prompt = false \/ (exists s, prompt = JStr s /\ trim s = "") ->
  invalid_prompt prompt = true.
Proof.
  unfold invalid_prompt. intros [H|[s [-> H]]].
  - destruct prompt; try discriminate H; apply orb_true_r.
  - rewrite H. apply orb_true_r.
Qed.

(** C7. A request whose prompt is missing or not a string, or trims to the
    empty string, is answered with HTTP 400 and the prompt-is-required
    message, by the controller and by its preset revision alike, and the
    process state is untouched: no upstream call is logged and the rotation
    cursor has not moved. *)
Theorem empty_prompt_fail_fast (env : Env) (req : Request) (w : World) :
  is_string (lookup "prompt" (body req)) = false \/
  (exists s, lookup "prompt" (body req) = JStr s /\ trim s = "") ->
  controller env req w = (rejected env, w) /\
  preset_controller env req w = (rejected env, w).
Proof.
  intros H. apply invalid_prompt_cases in H.
  unfold Controller.generateContent, Controller.handle,
    PresetController.generateContent, PresetController.handle.
  rewrite H. unfold rejected, errorMiddleware.
  split; now destruct (env_is env "production").
Qed.

(** C5 fails on the code: the [ApiError] with status 400 is thrown inside
    the [try] block whose [catch] throws every error again as a 502.  For an
    image of type [text/plain] the call fails with status 502; no upstream
    call is made, though the rotation cursor has moved. *)
Theorem invalid_mime_is_rethrown (env : Env) (prompt : string) (buf : Buffer) (w : World) :
  model env prompt (Some buf) (Some "text/plain") w
  = (Throw invalid_mime_rethrown,
     mkWorld ((nextKeyIndex w + 1) mod 2) (upstreamCalls w)).
Proof. reflexivity. Qed.

Lemma controller_presents (env : Env) (req : Request) (w w' : World) (o : Outcome) :
  invalid_prompt (lookup "prompt" (body req)) = false ->
  model env (trim (prompt_text (lookup "prompt" (body req))))
        (option_map buffer (file req)) (option_map mimetype (file req)) w
  = (Normal o, w') ->
  Controller.handle googleAiApiKey1 googleAiApiKey2 sdk env req w
  = (present (annotate env o), w').
Proof.
  intros Hprompt Hmodel. unfold Controller.handle. now rewrite Hprompt, Hmodel.
Qed.

Lemma present_image_or_text (o : Outcome) :
  type o = "image" \/ type o = "text" ->
  present o = Normal (mkResponse 200 (JObj (data o))).
Proof. unfold present. now intros [-> | ->]. Qed.

Lemma annotate_type (env : Env) (o : Outcome) : type (annotate env o) = type o.
Proof. unfold annotate. now destruct (negb _). Qed.

(** The [catch] block of the model layer never returns. *)
Lemma rethrow_throws (error : JsError) (o : Outcome) : rethrow error <> Normal o.
Proof.
  unfold rethrow.
  repeat match goal with
         | |- context [if ?b then _ else _] => destruct b
         end; try discriminate.
  destruct (to_text _); discriminate.
Qed.

(** Whatever the model layer returns was returned by the classifier. *)
Lemma model_outcome (env : Env) (prompt : string) (buf : option Buffer)
      (mime : option string) (w w' : World) (o : Outcome) :
  model env prompt buf mime w = (Normal o, w') ->
  exists response, processResponse env response = Normal o.
Proof.
  unfold Model.generateContent. cbn [Rotator.getNextGenAI].
  destruct (build_parts prompt buf mime) as [parts|e]; intros H.
  - injection H as H _.
    destruct (sdk _ parts) as [result|e]; cbn [bind try_catch] in H.
    + destruct (get result "response") as [response|e]; cbn [bind try_catch] in H.
      * exists response. destruct (processResponse env response); [exact H|].
        cbn [try_catch] in H. now apply rethrow_throws in H.
      * now apply rethrow_throws in H.
    + now apply rethrow_throws in H.
  - injection H as H _. now apply rethrow_throws in H.
Qed.

Lemma present_error (o : Outcome) (msg : string) :
  type o = "error" ->
  lookup "error" (data o) = JStr msg ->
  truthy (JStr msg) = true ->
  present o
  = Normal (mkResponse (if includes "blocked" (toLowerCase msg) then 400%Z else 500%Z)
              (JObj [("error", JStr msg); ("details", lookup "details" (data o))])).
Proof.
  intros Htype Hmsg Htruthy. unfold present. rewrite Htype, Hmsg.
  cbn [String.eqb Ascii.eqb Bool.eqb orb mentions_blocked bind].
  unfold or_else. now rewrite Htruthy.
Qed.

(** The preset revision, once the preset is known and the model layer has
    returned. *)
Lemma preset_controller_presents (env : Env) (req : Request) (w w' : World)
      (o : Outcome) (t : string) :
  invalid_prompt (lookup "prompt" (body req)) = false ->
  PresetController.final_prompt (prompt_text (lookup "prompt" (body req))) = JStr t ->
  model env (trim t) (option_map buffer (file req)) (option_map mimetype (file req)) w
  = (Normal o, w') ->
  PresetController.handle googleAiApiKey1 googleAiApiKey2 sdk env req w
  = (PresetController.present (annotate env o), w').
Proof.
  intros Hprompt Hfinal Hmodel. unfold PresetController.handle.
  rewrite Hprompt, Hfinal. cbn [PresetController.call_trim]. now rewrite Hmodel.
Qed.

(** An error body agrees with the data object it was read from. *)
Lemma error_body_fields (env : Env) (v : JsVal) (msg : string)
      (d : list (string * JsVal)) (k : string) :
  env_is env "development" = false ->
  d = [("error", JStr msg)] \/
  (exists x, d = [("error", JStr msg); ("details", x)]) \/
  d = [("error", JStr msg);
       ("rawResponse", if env_is env "development" then v else JUndefined)] ->
  lookup k [("error", lookup "error" d); ("details", lookup "details" d)] = lookup k d.
Proof.
  intros Hdev [->|[[x ->]| ->]]; try rewrite Hdev; unfold lookup; cbn [find fst snd];
    change ("error" =? "error") with true;
    change ("error" =? "details") with false;
    change ("details" =? "details") with true;
    change ("rawResponse" =? "details") with false; cbv iota; cbn [snd find];
    destruct ("error" =? k); try reflexivity;
    destruct ("details" =? k); try reflexivity;
    now destruct ("rawResponse" =? k).
Qed.

(** C9, as the code has it.  For a request with a usable prompt on which the
    model layer returns outcome [o], in the two revisions of the controller.

    The mutation is the same in both: in production the outcome is left as
    the classifier built it; otherwise the field [_raw_model_response_type],
    which the classifier never writes, is set to the outcome's type in the
    data object, and the type and every other field stay as they were.

    The body, in controllers/generationController.js: for an image or text
    outcome it is the data object as mutated, hence the classifier's data
    object in production; for an empty outcome it holds the text alone,
    under the key [message]; for an error outcome it holds the fields
    [error] and [details], which unless NODE_ENV is 'development' are all
    the fields the classifier's data object has.

    The body, in the preset revision: for a text outcome it is rebuilt and
    equals the classifier's data object in every mode; for an image outcome
    likewise, unless the caption is the empty string, which is sent as
    [null]; for empty and error outcomes it is as above. *)
Theorem outcome_as_presented (env : Env) (req : Request) (w w' : World) (o : Outcome) :
  invalid_prompt (lookup "prompt" (body req)) = false ->
  ((env_is env "production" = true -> annotate env o = o) /\
   (env_is env "production" = false ->
    type (annotate env o) = type o /\
    data (annotate env o)
      = set_field "_raw_model_response_type" (JStr (type o)) (data o) /\
    lookup "_raw_model_response_type" (data (annotate env o)) = JStr (type o) /\
    (forall k, k <> "_raw_model_response_type" ->
       lookup k (data (annotate env o)) = lookup k (data o)))) /\
  (model env (trim (prompt_text (lookup "prompt" (body req))))
         (option_map buffer (file req)) (option_map mimetype (file req)) w
   = (Normal o, w') ->
   lookup "_raw_model_response_type" (data o) = JUndefined /\
   (type o = "image" \/ type o = "text" ->
    controller env req w = (mkResponse 200 (JObj (data (annotate env o))), w') /\
    (env_is env "production" = true ->
     controller env req w = (mkResponse 200 (JObj (data o)), w'))) /\
   (type o = "empty" ->
    controller env req w
    = (mkResponse 200 (JObj [("message", lookup "text" (data o))]), w')) /\
   (type o = "error" ->
    json (fst (controller env req w))
    = JObj [("error", lookup "error" (data o)); ("details", lookup "details" (data o))] /\
    (env_is env "development" = false ->
     forall k, prop (json (fst (controller env req w))) k = lookup k (data o)))) /\
  (forall t,
   PresetController.final_prompt (prompt_text (lookup "prompt" (body req))) = JStr t ->
   model env (trim t) (option_map buffer (file req)) (option_map mimetype (file req)) w
   = (Normal o, w') ->
   (type o = "text" ->
    preset_controller env req w = (mkResponse 200 (JObj (data o)), w')) /\
   (type o = "image" ->
    (lookup "text" (data o) <> JStr "" ->
     preset_controller env req w = (mkResponse 200 (JObj (data o)), w')) /\
    (lookup "text" (data o) = JStr "" ->
     preset_controller env req w
     = (mkResponse 200
          (JObj [("imageUrl", lookup "imageUrl" (data o)); ("text", JNull)]), w'))) /\
   (type o = "empty" ->
    preset_controller env req w
    = (mkResponse 200 (JObj [("message", lookup "text" (data o))]), w')) /\
   (type o = "error" ->
    json (fst (preset_controller env req w))
    = JObj [("error", lookup "error" (data o)); ("details", lookup "details" (data o))] /\
    (env_is env "development" = false ->
     forall k, prop (json (fst (preset_controller env req w))) k = lookup k (data o)))).
Proof.
  intros Hprompt.
  assert (Hother : forall k, k <> "_raw_model_response_type" ->
            lookup k (data (annotate env o)) = lookup k (data o)).
  { intros k Hk. unfold annotate. destruct (negb _); [|reflexivity].
    cbn [data]. now apply lookup_set_field_other. }
  assert (Hshape : forall prompt w0,
            model env prompt (option_map buffer (file req))
                  (option_map mimetype (file req)) w0 = (Normal o, w') ->
            exists response, processResponse env response = Normal o).
  { intros prompt w0 Hmodel. exact (model_outcome _ _ _ _ _ _ _ Hmodel). }
  assert (Hempty : forall response,
            processResponse env response = Normal o -> type o = "empty" ->
            present (annotate env o)
            = Normal (mkResponse 200 (JObj [("message", lookup "text" (data o))]))).
  { intros response Hr Htype.
    destruct (outcome_data _ _ _ Hr)
      as [[Hk _]|[[Hk _]|[[_ [t [Ht Hd]]]|[Hk _]]]]; try congruence.
    assert (Htext : lookup "text" (data o) = JStr t)
      by (destruct Hd as [->|[parts ->]]; reflexivity).
    unfold present. rewrite annotate_type, Htype, Hother, Htext by discriminate.
    cbn [String.eqb Ascii.eqb Bool.eqb orb]. unfold or_else. now rewrite Ht. }
  assert (Herror : forall response,
            processResponse env response = Normal o -> type o = "error" ->
            (exists code,
               present (annotate env o)
               = Normal (mkResponse code
                   (JObj [("error", lookup "error" (data o));
                          ("details", lookup "details" (data o))]))) /\
            (env_is env "development" = false ->
             forall k,
               lookup k [("error", lookup "error" (data o));
                         ("details", lookup "details" (data o))]
               = lookup k (data o))).
  { intros response Hr Htype.
    destruct (outcome_data _ _ _ Hr)
      as [[Hk _]|[[Hk _]|[[Hk _]|[_ [msg [Ht Hd]]]]]]; try congruence.
    assert (Hmsg : lookup "error" (data o) = JStr msg)
      by (destruct Hd as [->|[[d ->]| ->]]; reflexivity).
    split.
    - eexists. rewrite (present_error (annotate env o) msg).
      + rewrite Hother, Hmsg by discriminate. reflexivity.
      + now rewrite annotate_type.
      + now rewrite Hother by discriminate.
      + exact Ht.
    - intros Hdev k. now apply error_body_fields with env response msg. }
  split; [|split].
  - split; intros Hprod.
    + unfold annotate. now rewrite Hprod.
    + assert (Hdata : data (annotate env o)
                = set_field "_raw_model_response_type" (JStr (type o)) (data o))
        by (unfold annotate; now rewrite Hprod).
      split; [apply annotate_type|]. split; [exact Hdata|]. split; [|exact Hother].
      rewrite Hdata. apply lookup_set_field_same.
  - intros Hmodel. destruct (Hshape _ _ Hmodel) as [response Hr].
    pose proof (controller_presents env req w w' o Hprompt Hmodel) as Hhandle.
    split; [|split; [|split]].
    + destruct (outcome_data _ _ _ Hr)
        as [[_ [u [c [-> _]]]]|[[_ [t ->]]|[[_ [t [_ [->|[parts ->]]]]]
           |[_ [msg [_ [->|[[d ->]| ->]]]]]]]]; reflexivity.
    + intros Htype.
      assert (Hbody : controller env req w
                      = (mkResponse 200 (JObj (data (annotate env o))), w')).
      { unfold Controller.generateContent. rewrite Hhandle.
        rewrite present_image_or_text; [reflexivity|]. now rewrite annotate_type. }
      split; [exact Hbody|]. intros Hprod. rewrite Hbody.
      unfold annotate. now rewrite Hprod.
    + intros Htype. unfold Controller.generateContent.
      now rewrite Hhandle, (Hempty response Hr Htype).
    + intros Htype. destruct (Herror response Hr Htype) as [[code Hpresent] Hfields].
      assert (Hjson : json (fst (controller env req w))
                      = JObj [("error", lookup "error" (data o));
                              ("details", lookup "details" (data o))]).
      { unfold Controller.generateContent. now rewrite Hhandle, Hpresent. }
      split; [exact Hjson|]. intros Hdev k. rewrite Hjson. now apply Hfields.
  - intros t Hfinal Hmodel. destruct (Hshape _ _ Hmodel) as [response Hr].
    pose proof (preset_controller_presents env req w w' o t Hprompt Hfinal Hmodel)
      as Hhandle.
    unfold PresetController.generateContent. rewrite Hhandle.
    split; [|split; [|split]].
    + intros Htype.
      destruct (outcome_data _ _ _ Hr)
        as [[Hk _]|[[_ [s Hd]]|[[Hk _]|[Hk _]]]]; try congruence.
      unfold PresetController.present.
      rewrite annotate_type, Htype. cbn [String.eqb Ascii.eqb Bool.eqb].
      rewrite Hother by discriminate. now rewrite Hd.
    + intros Htype.
      destruct (outcome_data _ _ _ Hr)
        as [[_ [u [c [Hd Hc]]]]|[[Hk _]|[[Hk _]|[Hk _]]]]; try congruence.
      unfold PresetController.present.
      rewrite annotate_type, Htype. cbn [String.eqb Ascii.eqb Bool.eqb].
      rewrite !Hother by discriminate. rewrite Hd.
      change (lookup "imageUrl" [("imageUrl", JStr u); ("text", c)]) with (JStr u).
      change (lookup "text" [("imageUrl", JStr u); ("text", c)]) with c.
      split.
      * intros Hcaption.
        destruct Hc as [->|[s ->]]; [reflexivity|].
        destruct s; [now destruct Hcaption | reflexivity].
      * now intros ->.
    + intros Htype.
      assert (Hp : PresetController.present (annotate env o) = present (annotate env o)).
      { unfold PresetController.present. now rewrite annotate_type, Htype. }
      now rewrite Hp, (Hempty response Hr Htype).
    + intros Htype.
      assert (Hp : PresetController.present (annotate env o) = present (annotate env o)).
      { unfold PresetController.present. now rewrite annotate_type, Htype. }
      destruct (Herror response Hr Htype) as [[code Hpresent] Hfields].
      rewrite Hp, Hpresent. cbn [fst json]. split; [reflexivity|].
      intros Hdev k. now apply Hfields.
Qed.

(** C6. When the model layer returns an outcome of type 'error', the
    controller answers with its message and details as the body, and with
    status 400 if the message contains "blocked" up to case, else 500.  When
    the model layer throws an [ApiError] instead, the answer carries that
    error's own status code; and the model layer throws 401 for an upstream
    error that says the API key is not valid, 429 for one that says the
    quota is exceeded, and 502 for any other that does not say the response
    was blocked. *)
Theorem error_presentation (env : Env) (req : Request) (w w' : World) :
  invalid_prompt (lookup "prompt" (body req)) = false ->
  (forall o,
     model env (trim (prompt_text (lookup "prompt" (body req))))
           (option_map buffer (file req)) (option_map mimetype (file req)) w
     = (Normal o, w') ->
     type o = "error" ->
     exists msg,
       lookup "error" (data o) = JStr msg /\
       (includes "blocked" (toLowerCase msg) = true <-> contains_ci "blocked" msg) /\
       controller env req w
       = (mkResponse (if includes "blocked" (toLowerCase msg) then 400%Z else 500%Z)
            (JObj [("error", JStr msg); ("details", lookup "details" (data o))]),
          w')) /\
  (forall code m d,
     model env (trim (prompt_text (lookup "prompt" (body req))))
           (option_map buffer (file req)) (option_map mimetype (file req)) w
     = (Throw (ApiError code m d), w') ->
     status (fst (controller env req w)) = code /\
     prop (json (fst (controller env req w))) "error" = JStr m /\
     snd (controller env req w) = w') /\
  (forall error,
     includes "response was blocked" (message error) = false ->
     (includes "API key not valid" (message error) = true ->
      rethrow error
      = Throw (ApiError 401 "Authentication failed. Check your GOOGLE_AI_API_KEY."
                 (JObj [("sdkError", JStr (message error))]))) /\
     (includes "API key not valid" (message error) = false ->
      is_str (status_of error) "PERMISSION_DENIED" = false ->
      includes "Quota exceeded" (message error) = true ->
      rethrow error
      = Throw (ApiError 429 "API quota exceeded. Please check your usage limits."
                 (JObj [("sdkError", JStr (message error))]))) /\
     (includes "API key not valid" (message error) = false ->
      is_str (status_of error) "PERMISSION_DENIED" = false ->
      includes "Quota exceeded" (message error) = false ->
      rethrow error
      = Throw (ApiError 502 "Error communicating with the Google AI service."
                 (JObj [("sdkError", JStr (message error))])))).
Proof.
  intros Hprompt. split; [|split].
  - intros o Hmodel Htype.
    destruct (model_outcome _ _ _ _ _ _ _ Hmodel) as [response Hresponse].
    destruct (error_outcome_message _ _ _ Hresponse Htype) as [msg [Hmsg Htruthy]].
    exists msg. split; [exact Hmsg|]. split.
    + apply (includes_toLowerCase "blocked" msg).
    + unfold Controller.generateContent.
      rewrite (controller_presents env req w w' o Hprompt Hmodel).
      assert (Hraw : "error" <> "_raw_model_response_type") by discriminate.
      assert (Hraw' : "details" <> "_raw_model_response_type") by discriminate.
      rewrite (present_error (annotate env o) msg).
      * f_equal. f_equal. f_equal. f_equal. f_equal. f_equal.
        unfold annotate. destruct (negb _); [|reflexivity].
        now apply lookup_set_field_other.
      * now rewrite annotate_type.
      * unfold annotate. destruct (negb _); [|exact Hmsg].
        cbn [data]. now rewrite lookup_set_field_other.
      * exact Htruthy.
  - intros code m d Hmodel.
    unfold Controller.generateContent, Controller.handle.
    rewrite Hprompt, Hmodel. cbn [bind fst snd errorMiddleware].
    destruct (truthy d); cbn [status json]; repeat split; reflexivity.
  - intros error Hblocked. unfold rethrow. rewrite Hblocked, andb_false_r.
    split; [|split].
    + intros Hkey. rewrite Hkey. cbn [orb].
      destruct (message error) eqn:E; [discriminate Hkey | reflexivity].
    + intros Hkey Hstatus Hquota. rewrite Hkey, Hstatus, Hquota. cbn [orb].
      rewrite andb_false_r.
      destruct (message error) eqn:E; [discriminate Hquota | reflexivity].
    + intros Hkey Hstatus Hquota. rewrite Hkey, Hstatus, Hquota. cbn [orb].
      now rewrite !andb_false_r.
Qed.

End Upstream.

Lemma error_presentation_witness :
  status (fst (Controller.generateContent "key one" "key two" down_sdk None
                 (request_of (JStr "hi")) fresh)) = 502%Z.
Proof.
  refine (proj1 (proj1 (proj2 (error_presentation string "key one" "key two" down_sdk
                                 None (request_of (JStr "hi")) fresh
                                 (mkWorld 1 [(Some "key one", [TextPart "hi"])]) _))
                   502%Z _ _ _));
    reflexivity.
Defined.

Lemma outcome_as_presented_witness :
  Controller.generateContent "key one" "key two" hello_sdk (Some "production")
    (request_of (JStr "hi")) fresh
  = (mkResponse 200 (JObj [("text", JStr "Hello")]),
     mkWorld 1 [(Some "key one", [TextPart "hi"])]) /\
  fst (PresetController.generateContent "key one" "key two" hello_sdk None
         (request_of (JStr "1")) fresh)
  = mkResponse 200 (JObj [("text", JStr "Hello")]).
Proof.
  split.
  - refine (proj2 (proj1 (proj2 (proj1 (proj2
              (outcome_as_presented string "key one" "key two" hello_sdk
                 (Some "production") (request_of (JStr "hi")) fresh
                 (mkWorld 1 [(Some "key one", [TextPart "hi"])])
                 (mkOutcome "text" [("text", JStr "Hello")]) _)) _)) _) _);
      try reflexivity.
    right. reflexivity.
  - refine (f_equal fst (proj1 (proj2 (proj2
              (outcome_as_presented string "key one" "key two" hello_sdk
                 None (request_of (JStr "1")) fresh
                 (snd (PresetController.generateContent "key one" "key two" hello_sdk None
                         (request_of (JStr "1")) fresh))
                 (mkOutcome "text" [("text", JStr "Hello")]) _))
              (trim (prompt_text (PresetController.final_prompt "1"))) _ _) _));
      reflexivity.
Defined.

(** C9 as stated fails in four ways.  In controllers/generationController.js,
    outside production, the body sent for a text outcome has a field the
    classifier's data object does not have; in production, the body sent
    for an empty outcome has the text under another key; with NODE_ENV
    'development', the body sent for a failed-to-process error lacks the
    field [rawResponse] of the data object.  In the preset revision, in
    production, the caption [""] of an image outcome is sent as [null]. *)
Lemma outcome_immutability_counterexample :
  (Model.generateContent "key one" "key two" hello_sdk None "hi" None None fresh
     = (Normal (mkOutcome "text" [("text", JStr "Hello")]),
        mkWorld 1 [(Some "key one", [TextPart "hi"])]) /\
   json (fst (Controller.generateContent "key one" "key two" hello_sdk None
                (request_of (JStr "hi")) fresh))
     = JObj [("text", JStr "Hello"); ("_raw_model_response_type", JStr "text")] /\
   json (fst (Controller.generateContent "key one" "key two" hello_sdk None
                (request_of (JStr "hi")) fresh))
     <> JObj [("text", JStr "Hello")]) /\
  (fst (Model.generateContent "key one" "key two"
          (MoreSamples.answering MoreSamples.no_candidates_result)
          (Some "production") "hi" None None fresh)
     = Normal (mkOutcome "empty" [("text", JStr "The model did not return any content.")]) /\
   json (fst (Controller.generateContent "key one" "key two"
                (MoreSamples.answering MoreSamples.no_candidates_result)
                (Some "production") (request_of (JStr "hi")) fresh))
     = JObj [("message", JStr "The model did not return any content.")]) /\
  (fst (Model.generateContent "key one" "key two"
          (MoreSamples.answering MoreSamples.null_candidate_result)
          (Some "development") "hi" None None fresh)
     = Normal (mkOutcome "error"
         [("error",
           JStr ("Failed to process the API response: "
                 ++ "Cannot read properties of null (reading 'finishReason')"));
          ("rawResponse", JObj [("candidates", JArr [JNull])])]) /\
   json (fst (Controller.generateContent "key one" "key two"
                (MoreSamples.answering MoreSamples.null_candidate_result)
                (Some "development") (request_of (JStr "hi")) fresh))
     = JObj [("error",
              JStr ("Failed to process the API response: "
                    ++ "Cannot read properties of null (reading 'finishReason')"));
             ("details", JUndefined)]) /\
  (fst (Model.generateContent "key one" "key two"
          (MoreSamples.answering MoreSamples.empty_caption_result)
          (Some "production")
          (trim (prompt_text (PresetController.final_prompt "1"))) None None fresh)
     = Normal (mkOutcome "image"
         [("imageUrl", JStr "data:image/png;base64,iVBORw0KGgo="); ("text", JStr "")]) /\
   json (fst (PresetController.generateContent "key one" "key two"
                (MoreSamples.answering MoreSamples.empty_caption_result)
                (Some "production") (request_of (JStr "1")) fresh))
     = JObj [("imageUrl", JStr "data:image/png;base64,iVBORw0KGgo="); ("text", JNull)]).
Proof. repeat split; try reflexivity. discriminate. Qed.

Lemma empty_prompt_fail_fast_witness :
  Controller.generateContent "key one" "key two" hello_sdk None
    (request_of (JStr "   ")) fresh = (rejected None, fresh) /\
  PresetController.generateContent "key one" "key two" hello_sdk None
    (request_of (JStr "   ")) fresh = (rejected None, fresh).
Proof.
  apply (empty_prompt_fail_fast string "key one" "key two" hello_sdk None
           (request_of (JStr "   ")) fresh).
  right. exists "   ". split; reflexivity.
Defined.

End ControllerSpec.

(** ** More on rotation *)

Module RotatorMore.
Import Rotator RotatorSpec.
Local Open Scope list_scope.
Local Open Scope nat_scope.

Lemma dispatch_cursor_value {Key : Type} (apiKeys : list Key) (M : nat) :
  forall c, c < length apiKeys ->
  snd (dispatch apiKeys M c) = (c + M) mod length apiKeys.
Proof.
  induction M as [|m IH]; intros c Hc.
  - simpl. rewrite Nat.add_0_r. symmetry. now apply Nat.mod_small.
  - rewrite dispatch_step. cbn [snd].
    rewrite IH by (apply advance_lt; lia).
    rewrite Nat.Div0.add_mod_idemp_l. f_equal. lia.
Qed.

(** X1. From a cursor in range, [M] sequential calls leave the cursor at
    [(c + M) mod N]; a full cycle of [N] calls, and any whole number of
    cycles, brings it back to where it was. *)
Theorem cursor_after_calls (Key : Type) (apiKeys : list Key) (M c q : nat) :
  c < length apiKeys ->
  snd (dispatch apiKeys M c) = (c + M) mod length apiKeys /\
  snd (dispatch apiKeys (q * length apiKeys) c) = c.
Proof.
  intros Hc. split; [now apply dispatch_cursor_value|].
  rewrite dispatch_cursor_value by exact Hc.
  rewrite Nat.Div0.mod_add. now apply Nat.mod_small.
Qed.

Lemma cursor_after_calls_witness :
  snd (dispatch ["key one"; "key two"]%string 7 1) = (1 + 7) mod 2 /\
  snd (dispatch ["key one"; "key two"]%string (3 * 2) 1) = 1.
Proof.
  apply (cursor_after_calls string ["key one"; "key two"]%string 7 1 3). simpl. lia.
Defined.

Lemma dispatch_app {Key : Type} (apiKeys : list Key) (M1 M2 : nat) : forall c,
  dispatch apiKeys (M1 + M2) c =
  (fst (dispatch apiKeys M1 c) ++ fst (dispatch apiKeys M2 (snd (dispatch apiKeys M1 c))),
   snd (dispatch apiKeys M2 (snd (dispatch apiKeys M1 c)))).
Proof.
  induction M1 as [|m IH]; intros c.
  - simpl. now destruct (dispatch apiKeys M2 c).
  - change (S m + M2) with (S (m + M2)). rewrite !dispatch_step, IH. reflexivity.
Qed.

(** X2. The rotator keeps no more state than the number of calls made so
    far, modulo the size of the pool: from a cursor [c] in range, [M1 + M2]
    calls return what [M1] calls return, followed by what [M2] calls return
    from the cursor [(c + M1) mod N], and end at [(c + M1 + M2) mod N]; so
    the clients handed out repeat with period [N]. *)
Theorem dispatch_compose (Key : Type) (apiKeys : list Key) (M1 M2 c : nat) :
  c < length apiKeys ->
  dispatch apiKeys (M1 + M2) c =
  (fst (dispatch apiKeys M1 c)
   ++ fst (dispatch apiKeys M2 ((c + M1) mod length apiKeys)),
   (c + M1 + M2) mod length apiKeys) /\
  dispatch apiKeys (length apiKeys + M2) c =
  (fst (dispatch apiKeys (length apiKeys) c) ++ fst (dispatch apiKeys M2 c),
   snd (dispatch apiKeys M2 c)).
Proof.
  intros Hc.
  assert (Hmod : (c + M1) mod length apiKeys < length apiKeys)
    by (apply Nat.mod_upper_bound; lia).
  split.
  - rewrite dispatch_app, !dispatch_cursor_value by assumption.
    rewrite Nat.Div0.add_mod_idemp_l. reflexivity.
  - rewrite dispatch_app, (dispatch_cursor_value apiKeys (length apiKeys) c Hc).
    replace (c + length apiKeys) with (c + 1 * length apiKeys) by lia.
    rewrite Nat.Div0.mod_add, Nat.mod_small by exact Hc. reflexivity.
Qed.

Lemma dispatch_compose_witness :
  dispatch ["key one"; "key two"]%string (1 + 2) 1 =
  ([(1, Some "key two"); (0, Some "key one"); (1, Some "key two")]%string, 0).
Proof.
  exact (proj1 (dispatch_compose string ["key one"; "key two"]%string 1 2 1
                  (Nat.lt_succ_diag_r 1))).
Defined.

(** X3. In any full cycle of [N] consecutive calls, from any cursor in
    range, every index of the pool is used exactly once. *)
Theorem full_cycle_uses_each_once (Key : Type) (apiKeys : list Key) (c i : nat) :
  c < length apiKeys -> i < length apiKeys ->
  uses apiKeys i (length apiKeys) c = 1.
Proof.
  intros Hc Hi.
  assert (HN : 0 < length apiKeys) by lia.
  rewrite (uses_closed Key apiKeys HN i (length apiKeys) c Hc Hi).
  pose proof (dist_lt Key apiKeys HN c i Hc Hi) as Hd.
  replace (length apiKeys + length apiKeys - 1 - dist apiKeys c i)
    with ((length apiKeys - 1 - dist apiKeys c i) + 1 * length apiKeys) by lia.
  rewrite Nat.div_add by lia. rewrite Nat.div_small by lia. reflexivity.
Qed.

Lemma full_cycle_uses_each_once_witness :
  uses ["key one"; "key two"]%string 0 (length ["key one"; "key two"]%string) 1 = 1.
Proof.
  apply (full_cycle_uses_each_once string ["key one"; "key two"]%string 1 0); simpl; lia.
Defined.

End RotatorMore.

(** ** More on classification *)

Module ClassifierMore.
Import Js Classifier Shapes MoreShapes Samples JsFacts ClassifierSpec.
Import History.

Lemma lookup_cons_same (k : string) (v : JsVal) (fs : list (string * JsVal)) :
  lookup k ((k, v) :: fs) = v.
Proof. unfold lookup. cbn [find fst snd]. now rewrite String.eqb_refl. Qed.

Lemma lookup_cons_other (k k' : string) (v : JsVal) (fs : list (string * JsVal)) :
  k' <> k -> lookup k ((k', v) :: fs) = lookup k fs.
Proof.
  intros H. unfold lookup. cbn [find fst snd].
  apply String.eqb_neq in H. now rewrite H.
Qed.

Lemma opt_get_truthy (v : JsVal) (k : string) :
  truthy (opt_get v k) = true -> nullish v = false /\ opt_get v k = prop v k.
Proof.
  unfold opt_get. destruct (nullish v); [discriminate | now split].
Qed.

(** The shared part on a prompt-blocked response. *)
Lemma prelude_blocked (apiResponse : JsVal) :
  truthy apiResponse = true ->
  truthy (opt_get (prop apiResponse "promptFeedback") "blockReason") = true ->
  printable (opt_get (prop apiResponse "promptFeedback") "blockReason") ->
  prelude apiResponse
  = Normal (Return
      (blocked_error (opt_get (prop apiResponse "promptFeedback") "blockReason")
         (opt_get (opt_get0 (prop apiResponse "candidates")) "safetyRatings"))).
Proof.
  intros Hresp Hblock Hprint. destruct (opt_get_truthy _ _ Hblock) as [Hpf Heq].
  unfold prelude. rewrite Hresp. cbn [negb].
  rewrite !get_truthy by exact Hresp. cbn [bind]. rewrite Hblock.
  unfold get at 1. rewrite Hpf. cbn [bind].
  rewrite Heq in Hprint. rewrite Hprint. cbn [bind]. now rewrite Heq.
Qed.

(** X4. A response with a top-level block reason (one that can be printed)
    is classified as the blocked error, carrying the reason and the safety
    ratings of candidate 0 if there is one, whatever its candidates, finish
    reasons and parts are: by the shared part, hence by both revisions of
    the classifier and with any scan. *)
Theorem prompt_block_rule (env : Env) (apiResponse : JsVal) :
  truthy apiResponse = true ->
  truthy (opt_get (prop apiResponse "promptFeedback") "blockReason") = true ->
  printable (opt_get (prop apiResponse "promptFeedback") "blockReason") ->
  (forall scan,
     classify scan apiResponse
     = Normal (blocked_error (opt_get (prop apiResponse "promptFeedback") "blockReason")
                 (opt_get (opt_get0 (prop apiResponse "candidates")) "safetyRatings"))) /\
  processResponse env apiResponse
  = Normal (blocked_error (opt_get (prop apiResponse "promptFeedback") "blockReason")
              (opt_get (opt_get0 (prop apiResponse "candidates")) "safetyRatings")) /\
  processResponse_find env apiResponse
  = Normal (blocked_error (opt_get (prop apiResponse "promptFeedback") "blockReason")
              (opt_get (opt_get0 (prop apiResponse "candidates")) "safetyRatings")).
Proof.
  intros Hresp Hblock Hprint.
  pose proof (prelude_blocked _ Hresp Hblock Hprint) as Hp.
  unfold processResponse, processResponse_find, classify. rewrite Hp.
  repeat split.
Qed.

Lemma prompt_block_rule_witness :
  processResponse None
    (JObj [("promptFeedback", JObj [("blockReason", JStr "SAFETY")]);
           ("candidates", JArr [safety_candidate])])
  = Normal (blocked_error (JStr "SAFETY") (JArr [JStr "HARM_CATEGORY_HARASSMENT"])).
Proof.
  refine (proj1 (proj2 (prompt_block_rule None _ _ _ _))); reflexivity.
Defined.

(** The shared part on a candidate whose finish reason is abnormal. *)
Lemma prelude_abnormal (apiResponse candidate : JsVal) (more : list JsVal) :
  truthy apiResponse = true ->
  truthy (opt_get (prop apiResponse "promptFeedback") "blockReason") = false ->
  prop apiResponse "candidates" = JArr (candidate :: more) ->
  normal_finish (prop candidate "finishReason") = false ->
  printable (prop candidate "finishReason") ->
  prelude apiResponse
  = Normal (Return
      (if is_str (prop candidate "finishReason") "SAFETY"
       then safety_error (prop candidate "safetyRatings")
       else if is_str (prop candidate "finishReason") "RECITATION"
            then recitation_error
            else unexpected_text (prop candidate "finishReason"))).
Proof.
  intros Hresp Hblock Hcands Hfinish Hprint.
  unfold normal_finish in Hfinish. apply negb_false_iff in Hfinish.
  assert (Hc : nullish candidate = false).
  { destruct (nullish candidate) eqn:E; [|reflexivity].
    rewrite prop_nullish in Hfinish by exact E. discriminate Hfinish. }
  unfold prelude. rewrite Hresp. cbn [negb].
  rewrite !get_truthy by exact Hresp. cbn [bind].
  rewrite Hblock, Hcands. cbn [truthy negb].
  rewrite get_truthy by reflexivity. cbn [bind prop].
  change ("length" =? "length") with true. cbv iota.
  rewrite is_zero_num_of_nat. cbn [length Nat.eqb].
  rewrite get0_truthy by reflexivity. cbn [bind item0 hd].
  unfold get. rewrite Hc. cbn [bind]. rewrite Hfinish, Hprint. cbn [bind].
  destruct (is_str (prop candidate "finishReason") "SAFETY"); [reflexivity|].
  now destruct (is_str (prop candidate "finishReason") "RECITATION").
Qed.

(** X5. For a response that is present and not prompt-blocked, whose first
    candidate has a finish reason other than ["STOP"]: the reason
    ["RECITATION"] gives the recitation error, and any reason other than
    ["SAFETY"] and ["RECITATION"] (a length limit, an unknown code; one
    that can be printed) gives a text outcome that names the reason; the
    candidate's parts are not looked at, so both revisions and any scan
    agree. *)
Theorem abnormal_finish_rule (env : Env) (apiResponse candidate : JsVal)
        (more : list JsVal) :
  truthy apiResponse = true ->
  truthy (opt_get (prop apiResponse "promptFeedback") "blockReason") = false ->
  prop apiResponse "candidates" = JArr (candidate :: more) ->
  normal_finish (prop candidate "finishReason") = false ->
  (prop candidate "finishReason" = JStr "RECITATION" ->
   (forall scan, classify scan apiResponse = Normal recitation_error) /\
   processResponse env apiResponse = Normal recitation_error) /\
  (is_str (prop candidate "finishReason") "SAFETY" = false ->
   is_str (prop candidate "finishReason") "RECITATION" = false ->
   printable (prop candidate "finishReason") ->
   (forall scan,
      classify scan apiResponse
      = Normal (unexpected_text (prop candidate "finishReason"))) /\
   processResponse env apiResponse
   = Normal (unexpected_text (prop candidate "finishReason"))).
Proof.
  intros Hresp Hblock Hcands Hfinish.
  pose proof (prelude_abnormal _ _ _ Hresp Hblock Hcands Hfinish) as Hp.
  unfold processResponse, classify. split.
  - intros Hr. rewrite Hr in Hp. rewrite (Hp eq_refl). now split.
  - intros Hs Hr Hprint. rewrite (Hp Hprint), Hs, Hr. now split.
Qed.

Lemma abnormal_finish_rule_witness :
  processResponse None
    (response_of (JObj [("finishReason", JStr "MAX_TOKENS");
                        ("content", JObj [("parts", JArr [encode (PText "cut")])])]))
  = Normal (unexpected_text (JStr "MAX_TOKENS")).
Proof.
  refine (proj2 (proj2 (abnormal_finish_rule None _
            (JObj [("finishReason", JStr "MAX_TOKENS");
                   ("content", JObj [("parts", JArr [encode (PText "cut")])])])
            [] _ _ _ _) _ _ _));
    reflexivity.
Defined.

(** X6. Only the first candidate is looked at: a response with further
    candidates is decided by the shared part exactly as the one with its
    first candidate alone, and unless NODE_ENV is 'development' (where a
    failure echoes the whole response) both revisions return the same
    outcome for the two. *)
Theorem only_first_candidate (env : Env) (fs : list (string * JsVal))
        (candidate : JsVal) (more : list JsVal) :
  prelude (JObj (("candidates", JArr (candidate :: more)) :: fs))
  = prelude (JObj (("candidates", JArr [candidate]) :: fs)) /\
  (env_is env "development" = false ->
   processResponse env (JObj (("candidates", JArr (candidate :: more)) :: fs))
   = processResponse env (JObj (("candidates", JArr [candidate]) :: fs)) /\
   processResponse_find env (JObj (("candidates", JArr (candidate :: more)) :: fs))
   = processResponse_find env (JObj (("candidates", JArr [candidate]) :: fs))).
Proof.
  assert (Hp : prelude (JObj (("candidates", JArr (candidate :: more)) :: fs))
               = prelude (JObj (("candidates", JArr [candidate]) :: fs))).
  { unfold prelude. cbn [truthy negb].
    rewrite !get_truthy by reflexivity. cbn [prop bind].
    rewrite !lookup_cons_same, !lookup_cons_other by discriminate.
    cbn [truthy negb bind opt_get0 nullish item0 hd].
    rewrite !(get_truthy (JArr _)) by reflexivity. cbn [prop bind].
    change ("length" =? "length") with true. cbv iota.
    rewrite !is_zero_num_of_nat. cbn [length Nat.eqb].
    rewrite !(get0_truthy (JArr _)) by reflexivity. cbn [item0 hd bind].
    reflexivity. }
  split; [exact Hp|]. intros Hdev.
  unfold processResponse, processResponse_find, classify, on_failure.
  rewrite Hp, Hdev. now split.
Qed.

Lemma only_first_candidate_witness :
  processResponse None
    (JObj [("candidates", JArr [candidate_of two_texts; safety_candidate])])
  = processResponse None (JObj [("candidates", JArr [candidate_of two_texts])]).
Proof.
  refine (proj1 (proj2 (only_first_candidate None [] (candidate_of two_texts)
                          [safety_candidate]) _)).
  reflexivity.
Defined.

(** X7. A first candidate that finished normally but has no content, no
    parts, or an empty list of parts gives the no-content-parts outcome, in
    both revisions. *)
Theorem no_parts_rule (env : Env) (apiResponse candidate : JsVal) (more : list JsVal) :
  truthy apiResponse = true ->
  truthy (opt_get (prop apiResponse "promptFeedback") "blockReason") = false ->
  prop apiResponse "candidates" = JArr (candidate :: more) ->
  nullish candidate = false ->
  normal_finish (prop candidate "finishReason") = true ->
  truthy (prop candidate "content") = false \/
  truthy (prop (prop candidate "content") "parts") = false \/
  is_zero (prop (prop (prop candidate "content") "parts") "length") = true ->
  processResponse env apiResponse = Normal no_parts /\
  processResponse_find env apiResponse = Normal no_parts.
Proof.
  intros Hresp Hblock Hcands Hc Hfinish Hnone.
  assert (Hp : prelude apiResponse = Normal (Return no_parts)).
  { unfold prelude. rewrite Hresp. cbn [negb].
    rewrite !get_truthy by exact Hresp. cbn [bind].
    rewrite Hblock, Hcands. cbn [truthy negb].
    rewrite get_truthy by reflexivity. cbn [bind prop].
    change ("length" =? "length") with true. cbv iota.
    rewrite is_zero_num_of_nat. cbn [length Nat.eqb].
    rewrite get0_truthy by reflexivity. cbn [bind item0 hd].
    unfold get at 1. rewrite Hc. cbn [bind].
    unfold normal_finish in Hfinish. apply negb_true_iff in Hfinish. rewrite Hfinish.
    unfold get at 1. rewrite Hc. cbn [bind].
    destruct (truthy (prop candidate "content")) eqn:Hcontent; cbn [negb bind];
      [|reflexivity].
    rewrite get_truthy by exact Hcontent. cbn [bind].
    destruct (truthy (prop (prop candidate "content") "parts")) eqn:Hparts;
      cbn [negb bind]; [|reflexivity].
    rewrite get_truthy by exact Hparts. cbn [bind].
    destruct Hnone as [H|[H|H]]; try discriminate H. now rewrite H. }
  unfold processResponse, processResponse_find, classify. rewrite Hp. now split.
Qed.

Lemma no_parts_rule_witness :
  processResponse None
    (response_of (JObj [("content", JObj [("parts", JArr [])])])) = Normal no_parts.
Proof.
  refine (proj1 (no_parts_rule None _ (JObj [("content", JObj [("parts", JArr [])])])
                   [] _ _ _ _ _ _));
    try reflexivity.
  right. right. reflexivity.
Defined.

(** X8. With well-formed parts none of which is an image part, the current
    classifier returns the text outcome holding all text parts concatenated
    in order when that text is non-empty, and otherwise (no text part, or
    only empty ones) the no-usable-data outcome carrying the raw parts;
    inline data of a type that is not an image type is passed over. *)
Theorem text_only_parts (env : Env) (apiResponse candidate : JsVal) (more : list JsVal)
        (ps : list Part) :
  truthy apiResponse = true ->
  truthy (opt_get (prop apiResponse "promptFeedback") "blockReason") = false ->
  prop apiResponse "candidates" = JArr (candidate :: more) ->
  normal_finish (prop candidate "finishReason") = true ->
  prop (prop candidate "content") "parts" = JArr (map encode ps) ->
  ps <> [] ->
  first_image ps = None ->
  (concat_all (texts ps) <> "" ->
   processResponse env apiResponse
   = Normal (mkOutcome "text" [("text", JStr (concat_all (texts ps)))])) /\
  (concat_all (texts ps) = "" ->
   processResponse env apiResponse = Normal (unusable (JArr (map encode ps)))).
Proof.
  intros Hresp Hblock Hcands Hfinish Hparts Hne Himg.
  unfold processResponse, classify.
  rewrite (prelude_scans _ _ _ ps Hresp Hblock Hcands Hfinish Hparts Hne).
  cbn [bind]. rewrite scan_loop_encode. cbn [try_catch].
  unfold loop_outcome. apply first_last_image in Himg. rewrite Himg.
  unfold text_or_unusable, caption. split; intros Htext.
  - destruct (texts ps) as [|t ts] eqn:E; [now elim Htext|].
    apply truthy_str in Htext. now rewrite Htext.
  - destruct (texts ps) as [|t ts] eqn:E; [reflexivity|].
    now rewrite Htext.
Qed.

Lemma text_only_parts_witness :
  processResponse None
    (response_of (candidate_of [PText "Here "; PInline "audio/wav" "UklGRg=="; PText "is..."]))
  = Normal (mkOutcome "text" [("text", JStr "Here is...")]).
Proof.
  refine (proj1 (text_only_parts None _
            (candidate_of [PText "Here "; PInline "audio/wav" "UklGRg=="; PText "is..."])
            [] [PText "Here "; PInline "audio/wav" "UklGRg=="; PText "is..."]
            _ _ _ _ _ _ _) _);
    try reflexivity; discriminate.
Defined.

(** X9. The find-based revision on well-formed parts: the first image part
    wins, whatever its data, and the outcome carries no caption; without an
    image part the text parts are joined with newlines, and an empty result
    gives the no-usable-data outcome. *)
Theorem find_revision_rule (env : Env) (apiResponse candidate : JsVal) (more : list JsVal)
        (ps : list Part) :
  truthy apiResponse = true ->
  truthy (opt_get (prop apiResponse "promptFeedback") "blockReason") = false ->
  prop apiResponse "candidates" = JArr (candidate :: more) ->
  normal_finish (prop candidate "finishReason") = true ->
  prop (prop candidate "content") "parts" = JArr (map encode ps) ->
  ps <> [] ->
  (forall m d, first_image ps = Some (m, d) ->
     processResponse_find env apiResponse
     = Normal (mkOutcome "image" [("imageUrl", JStr (data_uri m d))])) /\
  (first_image ps = None -> join_lines (texts ps) <> "" ->
   processResponse_find env apiResponse
   = Normal (mkOutcome "text" [("text", JStr (join_lines (texts ps)))])) /\
  (first_image ps = None -> join_lines (texts ps) = "" ->
   processResponse_find env apiResponse = Normal (unusable (JArr (map encode ps)))).
Proof.
  intros Hresp Hblock Hcands Hfinish Hparts Hne.
  unfold processResponse_find, classify.
  rewrite (prelude_scans _ _ _ ps Hresp Hblock Hcands Hfinish Hparts Hne).
  cbn [bind]. rewrite scan_find_encode. cbn [try_catch].
  unfold find_outcome, text_or_unusable. split; [|split].
  - intros m d ->. reflexivity.
  - intros -> Htext. apply truthy_str in Htext. now rewrite Htext.
  - intros -> Htext. now rewrite Htext.
Qed.

Lemma find_revision_rule_witness :
  processResponse_find None
    (response_of (candidate_of [PText "A"; PInline "image/png" ""; PInline "image/gif" "R0lG"]))
  = Normal (mkOutcome "image" [("imageUrl", JStr "data:image/png;base64,")]).
Proof.
  refine (proj1 (find_revision_rule None _
            (candidate_of [PText "A"; PInline "image/png" ""; PInline "image/gif" "R0lG"])
            [] [PText "A"; PInline "image/png" ""; PInline "image/gif" "R0lG"]
            _ _ _ _ _ _) "image/png" "" _);
    try reflexivity; discriminate.
Defined.

Lemma scan_find_kinds (parts : JsVal) (o : Outcome) :
  scan_find parts = Normal o -> In (type o) kinds.
Proof.
  unfold scan_find, kinds, unusable. intros H. flow H; simpl; tauto.
Qed.

(** X10. The find-based revision is total as well: on every payload value
    it completes normally with an outcome of one of the four kinds, and a
    throw of its [try] block becomes the failed-to-process error. *)
Theorem find_classifier_total (env : Env) (apiResponse : JsVal) :
  exists o,
    processResponse_find env apiResponse = Normal o /\
    In (type o) kinds /\
    forall error, classify scan_find apiResponse = Throw error ->
      o = mkOutcome "error"
            [("error", JStr ("Failed to process the API response: " ++ message error));
             ("rawResponse",
              if env_is env "development" then apiResponse else JUndefined)].
Proof.
  unfold processResponse_find.
  destruct (classify scan_find apiResponse) as [o|e] eqn:E; cbn [try_catch].
  - exists o. split; [reflexivity|]. split.
    + apply classify_kinds with scan_find apiResponse; [apply scan_find_kinds | exact E].
    + intros error H. discriminate H.
  - unfold on_failure. eexists. split; [reflexivity|]. split.
    + simpl. unfold kinds. simpl. tauto.
    + intros error H. now injection H as <-.
Qed.

(** An empty outcome of the classifier carries a non-empty text. *)
Lemma empty_outcome_text (env : Env) (v : JsVal) (o : Outcome) :
  processResponse env v = Normal o -> type o = "empty" ->
  exists msg, lookup "text" (data o) = JStr msg /\ truthy (JStr msg) = true.
Proof.
  unfold processResponse, classify. intros H Htype.
  destruct (prelude v) as [[o'|parts]|e] eqn:E; cbn [bind try_catch] in H.
  - injection H as ->. unfold prelude in E.
    flow E; try discriminate Htype; eexists; split; reflexivity.
  - destruct (scan_loop parts) as [o'|e] eqn:E'; cbn [try_catch] in H.
    + injection H as ->. unfold scan_loop in E'.
      flow E'; try discriminate Htype; eexists; split; reflexivity.
    + injection H as <-. discriminate Htype.
  - injection H as <-. discriminate Htype.
Qed.

End ClassifierMore.

(** ** More on the model layer, the controller and the middlewares *)

Module ControllerMore.
Import Js Classifier Model Controller Shapes MoreShapes Samples MoreSamples JsFacts
       ClassifierSpec ClassifierMore ControllerSpec.
Import History.
Local Open Scope Z_scope.

(** Every error leaves the [catch] block of the model layer as an [ApiError]
    with one of four status codes, or the block reason could not be
    printed. *)
Lemma rethrow_cases (error : JsError) :
  (exists code m d, rethrow error = Throw (ApiError code m d) /\ In code upstream_codes) \/
  (rethrow error = Throw (TypeError "Cannot convert object to primitive value") /\
   ~ printable (opt_get (opt_get (Model.response_of error) "promptFeedback") "blockReason")).
Proof.
  unfold rethrow, upstream_codes.
  destruct (truthy (JStr (message error)) && includes "response was blocked" (message error)).
  - destruct (to_text (or_else _ (JStr "Safety settings"))) as [reason|e] eqn:E; cbn [bind].
    + left. do 3 eexists. split; [reflexivity | simpl; tauto].
    + right. rewrite (to_text_error _ _ E). split; [reflexivity|].
      intros Hprint. apply (printable_or_else _ "Safety settings") in Hprint.
      unfold printable in Hprint. rewrite Hprint in E. discriminate E.
  - left.
    repeat match goal with
           | |- context [if ?b then _ else _] => destruct b
           end;
      do 3 eexists; (split; [reflexivity | simpl; tauto]).
Qed.

Lemma rethrow_api_error (error : JsError) :
  printable (opt_get (opt_get (Model.response_of error) "promptFeedback") "blockReason") ->
  exists code m d, rethrow error = Throw (ApiError code m d) /\ In code upstream_codes.
Proof.
  intros Hprint. destruct (rethrow_cases error) as [H|[_ H]]; [exact H | now destruct H].
Qed.

Lemma processResponse_normal (env : Env) (v : JsVal) :
  exists o, processResponse env v = Normal o.
Proof.
  unfold processResponse. destruct (classify scan_loop v); cbn [try_catch on_failure];
    eexists; reflexivity.
Qed.

Section Upstream.

Variable Key : Type.
Variables googleAiApiKey1 googleAiApiKey2 : Key.
Variable sdk : option Key -> list MessagePart -> Completion JsVal.

Local Abbreviation World := (World Key).
Local Abbreviation keys := (apiKeys googleAiApiKey1 googleAiApiKey2).
Local Abbreviation model := (Model.generateContent googleAiApiKey1 googleAiApiKey2 sdk).
Local Abbreviation controller :=
  (Controller.generateContent googleAiApiKey1 googleAiApiKey2 sdk).

(** X11. Every call of the model layer, whether it succeeds or fails, takes
    one rotation slot and makes at most one upstream call: nothing is
    retried.  The call it makes uses the credential at the cursor and has
    the prompt as its first part. *)
Theorem model_one_slot_one_call (env : Env) (prompt : string) (buf : option Buffer)
        (mime : option string) (w : World) :
  nextKeyIndex (snd (model env prompt buf mime w)) = ((nextKeyIndex w + 1) mod 2)%nat /\
  (upstreamCalls (snd (model env prompt buf mime w)) = upstreamCalls w \/
   exists rest,
     upstreamCalls (snd (model env prompt buf mime w))
     = (nth_error keys (nextKeyIndex w), TextPart prompt :: rest) :: upstreamCalls w).
Proof.
  unfold Model.generateContent. cbn [Rotator.getNextGenAI].
  unfold build_parts.
  destruct buf as [b|], mime as [m|]; cbn [snd nextKeyIndex upstreamCalls];
    try (split; [reflexivity | right; now eexists]).
  destruct (truthy (JStr m)); [|split; [reflexivity | right; now eexists]].
  destruct (negb (prefix "image/" m)); cbn [snd nextKeyIndex upstreamCalls].
  - split; [reflexivity | now left].
  - split; [reflexivity | right; now eexists].
Qed.

(** What the model layer throws left its [catch] block, for an error of the
    backend or one of its own. *)
Lemma model_failure_rethrown (env : Env) (prompt : string) (buf : option Buffer)
        (mime : option string) (w : World) (error : JsError) :
  fst (model env prompt buf mime w) = Throw error ->
  exists e,
    rethrow e = Throw error /\
    ((exists key parts, sdk key parts = Throw e) \/ Model.response_of e = JUndefined).
Proof.
  unfold Model.generateContent. cbn [Rotator.getNextGenAI].
  destruct (build_parts prompt buf mime) as [parts|e] eqn:Hparts; cbn [fst]; intros H.
  - destruct (sdk _ parts) as [result|e] eqn:Hsdk; cbn [bind try_catch] in H.
    + destruct (get result "response") as [response|e] eqn:Hget; cbn [bind try_catch] in H.
      * destruct (processResponse_normal env response) as [o Ho].
        rewrite Ho in H. discriminate H.
      * exists e. split; [exact H|]. right.
        unfold get in Hget. destruct (nullish result); [|discriminate Hget].
        now injection Hget as <-.
    + exists e. split; [exact H|]. left. eexists _, _. exact Hsdk.
  - exists e. split; [exact H|]. right.
    unfold build_parts in Hparts.
    destruct buf as [b|], mime as [m|]; try discriminate Hparts.
    destruct (truthy (JStr m)); [|discriminate Hparts].
    destruct (negb (prefix "image/" m)); [|discriminate Hparts].
    now injection Hparts as <-.
Qed.

Lemma model_failure_cases (env : Env) (prompt : string) (buf : option Buffer)
        (mime : option string) (w : World) (error : JsError) :
  fst (model env prompt buf mime w) = Throw error ->
  (exists code m d, error = ApiError code m d /\ In code upstream_codes) \/
  error = TypeError "Cannot convert object to primitive value".
Proof.
  intros H. destruct (model_failure_rethrown _ _ _ _ _ _ H) as [e [Hr _]].
  destruct (rethrow_cases e) as [[code [m [d [Hc Hin]]]]|[Hc _]]; rewrite Hc in Hr.
  - left. injection Hr as <-. now exists code, m, d.
  - right. now injection Hr as <-.
Qed.

Lemma model_failure_shape (env : Env) (prompt : string) (buf : option Buffer)
        (mime : option string) (w : World) (error : JsError) :
  (forall key parts e,
     sdk key parts = Throw e ->
     printable (opt_get (opt_get (Model.response_of e) "promptFeedback") "blockReason")) ->
  fst (model env prompt buf mime w) = Throw error ->
  exists code m d, error = ApiError code m d /\ In code upstream_codes.
Proof.
  intros Hsdk H. destruct (model_failure_rethrown _ _ _ _ _ _ H) as [e [Hr He]].
  assert (Hprint : printable (opt_get (opt_get (Model.response_of e) "promptFeedback")
                                "blockReason")).
  { destruct He as [[key [parts He]]|He]; [now apply Hsdk with key parts|].
    now rewrite He. }
  destruct (rethrow_api_error e Hprint) as [code [m [d [Hc Hin]]]].
  rewrite Hc in Hr. injection Hr as <-. now exists code, m, d.
Qed.

(** X12. With a backend whose errors carry a block reason that can be
    printed (or none), what the model layer throws is always an [ApiError],
    as its documentation says, with status 400, 401, 429 or 502. *)
Theorem model_throws_only_api_errors (env : Env) (prompt : string) (buf : option Buffer)
        (mime : option string) (w : World) (error : JsError) :
  (forall key parts e,
     sdk key parts = Throw e ->
     printable (opt_get (opt_get (Model.response_of e) "promptFeedback") "blockReason")) ->
  fst (model env prompt buf mime w) = Throw error ->
  exists code m d, error = ApiError code m d /\ In code upstream_codes.
Proof. apply model_failure_shape. Qed.

Lemma processResponse_kinds (env : Env) (v : JsVal) (o : Outcome) :
  processResponse env v = Normal o -> In (type o) kinds.
Proof.
  unfold processResponse.
  destruct (classify scan_loop v) as [o'|e] eqn:E; cbn [try_catch on_failure]; intros H.
  - injection H as <-.
    apply classify_kinds with scan_loop v; [apply scan_loop_kinds | exact E].
  - injection H as <-. unfold kinds. simpl. tauto.
Qed.

Lemma annotate_lookup (env : Env) (o : Outcome) (k : string) :
  k <> "_raw_model_response_type" ->
  lookup k (data (annotate env o)) = lookup k (data o).
Proof.
  intros Hk. unfold annotate. destruct (negb _); [|reflexivity].
  cbn [data]. now apply lookup_set_field_other.
Qed.

Lemma present_empty (env : Env) (o : Outcome) (msg : string) :
  type o = "empty" -> lookup "text" (data o) = JStr msg -> truthy (JStr msg) = true ->
  present (annotate env o) = Normal (mkResponse 200 (JObj [("message", JStr msg)])).
Proof.
  intros Htype Hmsg Htruthy. unfold present.
  rewrite annotate_type, Htype, annotate_lookup, Hmsg by discriminate.
  cbn [String.eqb Ascii.eqb Bool.eqb orb]. unfold or_else. now rewrite Htruthy.
Qed.

Lemma present_error_annotated (env : Env) (o : Outcome) (msg : string) :
  type o = "error" -> lookup "error" (data o) = JStr msg -> truthy (JStr msg) = true ->
  present (annotate env o)
  = Normal (mkResponse (if includes "blocked" (toLowerCase msg) then 400 else 500)
              (JObj [("error", JStr msg); ("details", lookup "details" (data o))])).
Proof.
  intros Htype Hmsg Htruthy.
  rewrite (present_error (annotate env o) msg).
  - now rewrite annotate_lookup by discriminate.
  - now rewrite annotate_type.
  - now rewrite annotate_lookup by discriminate.
  - exact Htruthy.
Qed.

(** X13. Whatever the request and whatever the backend does, the controller
    answers with one of the status codes 200, 400, 401, 429, 500, 502. *)
Theorem controller_status_codes (env : Env) (req : Request) (w : World) :
  In (status (fst (controller env req w))) status_codes.
Proof.
  unfold Controller.generateContent, Controller.handle, status_codes.
  destruct (invalid_prompt (lookup "prompt" (body req))).
  - cbn. tauto.
  - destruct (model env (trim (prompt_text (lookup "prompt" (body req))))
                (option_map buffer (file req)) (option_map mimetype (file req)) w)
      as [[o|e] w'] eqn:Hm.
    + destruct (model_outcome _ _ _ _ _ _ _ _ _ _ _ Hm) as [response Hr].
      pose proof (processResponse_kinds _ _ _ Hr) as Hk. cbn [bind].
      destruct Hk as [Hk|[Hk|[Hk|[Hk|[]]]]]; symmetry in Hk.
      * rewrite present_image_or_text by (rewrite annotate_type; now left).
        cbn. tauto.
      * rewrite present_image_or_text by (rewrite annotate_type; now right).
        cbn. tauto.
      * destruct (empty_outcome_text _ _ _ Hr Hk) as [msg [Hmsg Ht]].
        rewrite (present_empty env o msg Hk Hmsg Ht). cbn. tauto.
      * destruct (error_outcome_message _ _ _ Hr Hk) as [msg [Hmsg Ht]].
        rewrite (present_error_annotated env o msg Hk Hmsg Ht).
        destruct (includes "blocked" (toLowerCase msg)); cbn; tauto.
    + assert (He : fst (model env (trim (prompt_text (lookup "prompt" (body req))))
                          (option_map buffer (file req)) (option_map mimetype (file req)) w)
                   = Throw e) by now rewrite Hm.
      destruct (model_failure_cases _ _ _ _ _ _ He) as [[code [m [d [-> Hin]]]]| ->].
      * cbn [bind errorMiddleware].
        unfold upstream_codes in Hin. destruct (truthy d); cbn [fst status];
          simpl in Hin; simpl; tauto.
      * cbn. tauto.
Qed.

(** X14. When the model layer returns an outcome of type 'empty', the
    controller answers 200 with the outcome's text as [message] and nothing
    else in the body. *)
Theorem empty_outcome_presented (env : Env) (req : Request) (w w' : World) (o : Outcome) :
  invalid_prompt (lookup "prompt" (body req)) = false ->
  model env (trim (prompt_text (lookup "prompt" (body req))))
        (option_map buffer (file req)) (option_map mimetype (file req)) w
  = (Normal o, w') ->
  type o = "empty" ->
  exists msg,
    lookup "text" (data o) = JStr msg /\
    controller env req w = (mkResponse 200 (JObj [("message", JStr msg)]), w').
Proof.
  intros Hprompt Hmodel Htype.
  destruct (model_outcome _ _ _ _ _ _ _ _ _ _ _ Hmodel) as [response Hr].
  destruct (empty_outcome_text _ _ _ Hr Htype) as [msg [Hmsg Ht]].
  exists msg. split; [exact Hmsg|].
  unfold Controller.generateContent.
  rewrite (controller_presents _ _ _ _ _ _ _ _ _ Hprompt Hmodel).
  now rewrite (present_empty env o msg Htype Hmsg Ht).
Qed.

(** A text-only request with a usable prompt, answered by the backend with
    [result]: the controller presents what the classifier makes of
    [result.response], after one upstream call. *)
Lemma controller_on_result (env : Env) (req : Request) (w : World) (result : JsVal)
      (o : Outcome) :
  invalid_prompt (lookup "prompt" (body req)) = false ->
  file req = None ->
  (forall key parts, sdk key parts = Normal result) ->
  nullish result = false ->
  processResponse env (prop result "response") = Normal o ->
  Controller.handle googleAiApiKey1 googleAiApiKey2 sdk env req w
  = (present (annotate env o),
     mkWorld ((nextKeyIndex w + 1) mod 2)%nat
       ((nth_error keys (nextKeyIndex w),
         [TextPart (trim (prompt_text (lookup "prompt" (body req))))])
        :: upstreamCalls w)).
Proof.
  intros Hprompt Hfile Hsdk Hres Ho.
  unfold Controller.handle. rewrite Hprompt, Hfile.
  unfold Model.generateContent. cbn [Rotator.getNextGenAI option_map build_parts].
  rewrite Hsdk. cbn [bind]. unfold get. rewrite Hres. cbn [bind].
  rewrite Ho. reflexivity.
Qed.

Lemma blocked_message (x : string) :
  includes "blocked" (toLowerCase ("Content generation blocked due to: " ++ x)) = true.
Proof.
  apply (includes_toLowerCase "blocked").
  exists "Content generation ", "blocked", (" due to: " ++ x). now split.
Qed.

(** X15. When the backend's response is prompt-blocked (for a reason that
    can be printed), a text-only request is answered with HTTP 400; the body
    holds the blocked message with the reason, and [details.safetyRatings]
    holds the ratings of candidate 0 if any. *)
Theorem prompt_block_is_400 (env : Env) (req : Request) (w : World) (result : JsVal) :
  invalid_prompt (lookup "prompt" (body req)) = false ->
  file req = None ->
  (forall key parts, sdk key parts = Normal result) ->
  truthy (prop result "response") = true ->
  truthy (opt_get (prop (prop result "response") "promptFeedback") "blockReason") = true ->
  printable (opt_get (prop (prop result "response") "promptFeedback") "blockReason") ->
  fst (controller env req w)
  = mkResponse 400
      (JObj [("error",
              JStr ("Content generation blocked due to: "
                    ++ to_string (opt_get (prop (prop result "response") "promptFeedback")
                                          "blockReason")));
             ("details",
              JObj [("safetyRatings",
                     opt_get (opt_get0 (prop (prop result "response") "candidates"))
                             "safetyRatings")])]).
Proof.
  intros Hprompt Hfile Hsdk Hresp Hblock Hprint.
  assert (Hres : nullish result = false).
  { destruct (nullish result) eqn:E; [|reflexivity].
    rewrite prop_nullish in Hresp by exact E. discriminate Hresp. }
  assert (Ho : processResponse env (prop result "response")
               = Normal (blocked_error
                   (opt_get (prop (prop result "response") "promptFeedback") "blockReason")
                   (opt_get (opt_get0 (prop (prop result "response") "candidates"))
                            "safetyRatings"))).
  { unfold processResponse, classify.
    now rewrite (prelude_blocked _ Hresp Hblock Hprint). }
  unfold Controller.generateContent.
  rewrite (controller_on_result env req w result _ Hprompt Hfile Hsdk Hres Ho).
  rewrite (present_error_annotated env (blocked_error _ _) _ eq_refl eq_refl eq_refl).
  now rewrite blocked_message.
Qed.

(** X16. When the first candidate of the backend's response stopped for
    safety, a text-only request is answered with HTTP 500, not 400: the
    message of that outcome does not contain "blocked". *)
Theorem safety_stop_is_500 (env : Env) (req : Request) (w : World)
        (result candidate : JsVal) (more : list JsVal) :
  invalid_prompt (lookup "prompt" (body req)) = false ->
  file req = None ->
  (forall key parts, sdk key parts = Normal result) ->
  truthy (prop result "response") = true ->
  truthy (opt_get (prop (prop result "response") "promptFeedback") "blockReason") = false ->
  prop (prop result "response") "candidates" = JArr (candidate :: more) ->
  prop candidate "finishReason" = JStr "SAFETY" ->
  fst (controller env req w)
  = mkResponse 500
      (JObj [("error", JStr "Content generation stopped due to safety concerns.");
             ("details", JObj [("safetyRatings", prop candidate "safetyRatings")])]).
Proof.
  intros Hprompt Hfile Hsdk Hresp Hblock Hcands Hfinish.
  assert (Hres : nullish result = false).
  { destruct (nullish result) eqn:E; [|reflexivity].
    rewrite prop_nullish in Hresp by exact E. discriminate Hresp. }
  assert (Ho : processResponse env (prop result "response")
               = Normal (safety_error (prop candidate "safetyRatings"))).
  { unfold processResponse, classify.
    rewrite (prelude_abnormal _ candidate more Hresp Hblock Hcands)
      by (now rewrite Hfinish).
    now rewrite Hfinish. }
  unfold Controller.generateContent.
  rewrite (controller_on_result env req w result _ Hprompt Hfile Hsdk Hres Ho).
  now rewrite (present_error_annotated env (safety_error _) _ eq_refl eq_refl eq_refl).
Qed.

(** X17. A backend result without a [response] is not a failure of the
    call: it is classified, and a text-only request is answered with HTTP
    500 and the no-response-object message. *)
Theorem missing_response_is_500 (env : Env) (req : Request) (w : World) (result : JsVal) :
  invalid_prompt (lookup "prompt" (body req)) = false ->
  file req = None ->
  (forall key parts, sdk key parts = Normal result) ->
  nullish result = false ->
  truthy (prop result "response") = false ->
  fst (controller env req w)
  = mkResponse 500
      (JObj [("error", JStr "Received no response object from API.");
             ("details", JUndefined)]).
Proof.
  intros Hprompt Hfile Hsdk Hres Hresp.
  assert (Ho : processResponse env (prop result "response")
               = Normal (mkOutcome "error"
                           [("error", JStr "Received no response object from API.")])).
  { unfold processResponse, classify, prelude. now rewrite Hresp. }
  unfold Controller.generateContent.
  rewrite (controller_on_result env req w result _ Hprompt Hfile Hsdk Hres Ho).
  now rewrite (present_error_annotated env
                 (mkOutcome "error"
                    [("error", JStr "Received no response object from API.")])
                 _ eq_refl eq_refl eq_refl).
Qed.

(** X18. When the call to the backend fails with an error whose message
    says the response was blocked, a text-only request is answered with HTTP
    400 and the request-blocked message; the reason and the safety ratings
    are taken from the error's response (the reason being one that can be
    printed), and default to 'Safety settings' and 'N/A' when it has
    none. *)
Theorem blocked_upstream_error (env : Env) (req : Request) (w : World) (error : JsError) :
  invalid_prompt (lookup "prompt" (body req)) = false ->
  file req = None ->
  (forall key parts, sdk key parts = Throw error) ->
  includes "response was blocked" (message error) = true ->
  printable (opt_get (opt_get (Model.response_of error) "promptFeedback") "blockReason") ->
  fst (controller env req w)
  = mkResponse 400
      (JObj [("error",
              JStr ("Request blocked due to safety settings: "
                    ++ to_string
                         (or_else (opt_get (opt_get (Model.response_of error) "promptFeedback")
                                           "blockReason")
                                  (JStr "Safety settings"))));
             ("details",
              JObj [("safetyRatings",
                     or_else (opt_get (opt_get0 (opt_get (Model.response_of error) "candidates"))
                                      "safetyRatings")
                             (JStr "N/A"))])]) /\
  (nullish (Model.response_of error) = true ->
   fst (controller env req w)
   = mkResponse 400
       (JObj [("error", JStr "Request blocked due to safety settings: Safety settings");
              ("details", JObj [("safetyRatings", JStr "N/A")])])).
Proof.
  intros Hprompt Hfile Hsdk Hmsg Hprint.
  apply (printable_or_else _ "Safety settings") in Hprint.
  assert (Hm : truthy (JStr (message error)) = true).
  { apply truthy_str. intros E. rewrite E in Hmsg. discriminate Hmsg. }
  assert (Hc : fst (controller env req w)
    = mkResponse 400
      (JObj [("error",
              JStr ("Request blocked due to safety settings: "
                    ++ to_string
                         (or_else (opt_get (opt_get (Model.response_of error) "promptFeedback")
                                           "blockReason")
                                  (JStr "Safety settings"))));
             ("details",
              JObj [("safetyRatings",
                     or_else (opt_get (opt_get0 (opt_get (Model.response_of error) "candidates"))
                                      "safetyRatings")
                             (JStr "N/A"))])])).
  { unfold Controller.generateContent, Controller.handle. rewrite Hprompt, Hfile.
    unfold Model.generateContent. cbn [Rotator.getNextGenAI option_map build_parts].
    rewrite Hsdk. cbn [bind try_catch]. unfold rethrow. rewrite Hm, Hmsg.
    cbn [andb]. rewrite Hprint. reflexivity. }
  split; [exact Hc|]. intros Hnull. rewrite Hc.
  unfold opt_get at 2 4. rewrite Hnull. reflexivity.
Qed.

Local Abbreviation preset_controller :=
  (PresetController.generateContent googleAiApiKey1 googleAiApiKey2 sdk).

Lemma final_prompt_presets (p : string) :
  (In p presets -> exists t, PresetController.final_prompt p = JStr t /\ t <> p) /\
  (~ In p presets -> PresetController.final_prompt p = JUndefined).
Proof.
  unfold presets. split.
  - intros H. simpl in H.
    repeat (destruct H as [<-|H];
            [eexists; split; [reflexivity | discriminate]|]).
    now elim H.
  - intros H. unfold PresetController.final_prompt.
    repeat match goal with
           | |- context [String.eqb p ?k] =>
               destruct (String.eqb_spec p k) as [->|_];
               [elim H; simpl; tauto|]
           end.
    reflexivity.
Qed.

(** X19. The preset revision of the controller, on a prompt that passes
    validation: when the prompt is one of the eight preset numbers, what is
    sent to the model layer is the preset's own text, not the prompt; for
    any other prompt the handler fails before the model layer is called,
    the answer is HTTP 500 'Internal Server Error', and the process state
    is untouched. *)
Theorem preset_controller_rule (env : Env) (req : Request) (w : World) (p : string) :
  lookup "prompt" (body req) = JStr p ->
  invalid_prompt (JStr p) = false ->
  (In p presets ->
   exists t,
     PresetController.final_prompt p = JStr t /\ t <> p /\
     snd (preset_controller env req w)
     = snd (model env (trim t) (option_map buffer (file req))
                  (option_map mimetype (file req)) w)) /\
  (~ In p presets ->
   status (fst (preset_controller env req w)) = 500 /\
   prop (json (fst (preset_controller env req w))) "error" = JStr "Internal Server Error" /\
   snd (preset_controller env req w) = w).
Proof.
  intros Hp Hvalid. split; intros Hin.
  - destruct (proj1 (final_prompt_presets p) Hin) as [t [Ht Hne]].
    exists t. split; [exact Ht|]. split; [exact Hne|].
    unfold PresetController.generateContent, PresetController.handle.
    rewrite Hp, Hvalid. cbn [prompt_text]. rewrite Ht. cbn [PresetController.call_trim].
    destruct (model env (trim t) (option_map buffer (file req))
                (option_map mimetype (file req)) w) as [r w'].
    cbn [snd]. now destruct (bind r _).
  - pose proof (proj2 (final_prompt_presets p) Hin) as Hu.
    unfold PresetController.generateContent, PresetController.handle.
    rewrite Hp, Hvalid. cbn [prompt_text]. rewrite Hu.
    cbn [PresetController.call_trim errorMiddleware cannot_read TypeError fst snd status json].
    repeat split.
Qed.

(** X20. The route: when the upload middleware reports an error, the
    controller is not run and the process state is untouched; the error
    handler answers with an [ApiError], status 400 for every error of multer
    itself, the filter's own error as it is, and status 500 for anything
    else; a file over the size limit is answered with 400 and the
    size-limit message. *)
Theorem upload_failure_skips_controller (env : Env) (err : Upload.UploadError)
        (req : Request) (w : World) :
  exists code m d,
    Upload.handleImageUpload (Some err) = Some (ApiError code m d) /\
    Routes.post_generate googleAiApiKey1 googleAiApiKey2 sdk env (Some err) req w
    = (errorMiddleware env (ApiError code m d), w) /\
    status (fst (Routes.post_generate googleAiApiKey1 googleAiApiKey2 sdk env
                   (Some err) req w)) = code /\
    (forall c f msg, err = Upload.MulterError c f msg -> code = 400) /\
    (forall e, err = Upload.Raised e ->
       match e with
       | ApiError _ _ _ => ApiError code m d = e
       | OtherError _ msg _ _ _ =>
           code = 500 /\ d = JObj [("uploadError", JStr msg)]
       end) /\
    (forall f msg, err = Upload.MulterError "LIMIT_FILE_SIZE" f msg ->
       m = "File size limit exceeded (max 10MB)." /\ d = JNull).
Proof.
  unfold Routes.post_generate.
  destruct err as [c f msg|[c m d|name msg st r t]]; cbn [Upload.handleImageUpload].
  - destruct (String.eqb c "LIMIT_FILE_SIZE") eqn:E1;
      [|destruct (String.eqb c "LIMIT_UNEXPECTED_FILE")];
      do 3 eexists; (split; [reflexivity|]); (split; [reflexivity|]);
      (split; [reflexivity|]); (split; [reflexivity|]);
      (split; [intros e He; discriminate He|]);
      intros f' msg' He; injection He as -> _ _;
      try (now split); discriminate E1.
  - exists c, m, d. split; [reflexivity|]. split; [reflexivity|].
    split; [now destruct (truthy d)|]. split; [intros ? ? ? He; discriminate He|].
    split; [intros e He; now injection He as <- | intros ? ? He; discriminate He].
  - do 3 eexists. split; [reflexivity|]. split; [reflexivity|].
    split; [reflexivity|]. split; [intros ? ? ? He; discriminate He|].
    split; [intros e He; injection He as <-; now split
           | intros ? ? He; discriminate He].
Qed.

Lemma controller_world (env : Env) (req : Request) (w : World) :
  invalid_prompt (lookup "prompt" (body req)) = false ->
  file req = None ->
  snd (controller env req w)
  = mkWorld ((nextKeyIndex w + 1) mod 2)%nat
      ((nth_error keys (nextKeyIndex w),
        [TextPart (trim (prompt_text (lookup "prompt" (body req))))])
       :: upstreamCalls w).
Proof.
  intros Hprompt Hfile. unfold Controller.generateContent, Controller.handle.
  rewrite Hprompt, Hfile.
  unfold Model.generateContent. cbn [Rotator.getNextGenAI option_map build_parts].
  now destruct (bind _ _).
Qed.

(** X21. Serving text-only requests with usable prompts one after the
    other dispatches the credentials exactly as that many sequential calls
    of [getNextGenAI] from the same cursor: each request makes one upstream
    call, the calls use the credentials in rotation order, and the cursor
    ends where the rotator would leave it. *)
Theorem serve_rotates_credentials (env : Env)
        (reqs : list (option Upload.UploadError * Request)) (w : World) :
  (forall r, In r reqs ->
     fst r = None /\ file (snd r) = None /\
     invalid_prompt (lookup "prompt" (body (snd r))) = false) ->
  nextKeyIndex (snd (Routes.serve googleAiApiKey1 googleAiApiKey2 sdk env reqs w))
  = snd (Rotator.dispatch keys (length reqs) (nextKeyIndex w)) /\
  exists new,
    upstreamCalls (snd (Routes.serve googleAiApiKey1 googleAiApiKey2 sdk env reqs w))
    = (new ++ upstreamCalls w)%list /\
    map fst (rev new) = Rotator.clients keys (length reqs) (nextKeyIndex w) /\
    map snd (rev new)
    = map (fun r => [TextPart (trim (prompt_text (lookup "prompt" (body (snd r)))))]) reqs.
Proof.
  revert w. induction reqs as [|[upload req] reqs IH]; intros w Hall.
  - split; [reflexivity|]. now exists [].
  - destruct (Hall (upload, req) (or_introl eq_refl)) as [Hup [Hfile Hprompt]].
    cbn [fst snd] in Hup, Hfile, Hprompt. subst upload.
    cbn [Routes.serve]. unfold Routes.post_generate. cbn [Upload.handleImageUpload].
    pose proof (controller_world env req w Hprompt Hfile) as Hw.
    destruct (controller env req w) as [res w1]. cbn [snd] in Hw. subst w1.
    specialize (IH (mkWorld ((nextKeyIndex w + 1) mod 2)%nat
                      ((nth_error keys (nextKeyIndex w),
                        [TextPart (trim (prompt_text (lookup "prompt" (body req))))])
                       :: upstreamCalls w))
                   (fun r Hr => Hall r (or_intror Hr))).
    destruct (Routes.serve googleAiApiKey1 googleAiApiKey2 sdk env reqs _) as [more w2].
    cbn [snd nextKeyIndex upstreamCalls] in IH |- *.
    destruct IH as [Hcur [new [Hlog [Hkeys Hparts]]]].
    cbn [length]. rewrite RotatorSpec.dispatch_step. cbn [snd].
    split; [exact Hcur|].
    exists (new ++ [(nth_error keys (nextKeyIndex w),
                     [TextPart (trim (prompt_text (lookup "prompt" (body req))))])])%list.
    split; [now rewrite Hlog, <- app_assoc|].
    rewrite rev_app_distr. cbn [rev app map fst snd].
    unfold Rotator.clients in *. rewrite RotatorSpec.dispatch_step.
    cbn [fst map snd]. now rewrite Hkeys, Hparts.
Qed.

(** X22. The upload filter accepts exactly the files whose MIME type starts
    with [image/], and rejects the others with a 400 [ApiError] that names
    the type received.  A request with a usable prompt and an accepted file
    makes one upstream call, with the trimmed prompt and then the file as
    inline data under its own MIME type: the model layer's MIME check never
    fires on a file the filter let through. *)
Theorem accepted_upload_is_forwarded (env : Env) (req : Request) (w : World)
        (f : File) (field : string) :
  (snd (Upload.fileFilter (Upload.mkFileInfo field (mimetype f))) = true <->
   prefix "image/" (mimetype f) = true) /\
  (snd (Upload.fileFilter (Upload.mkFileInfo field (mimetype f))) = false ->
   fst (Upload.fileFilter (Upload.mkFileInfo field (mimetype f)))
   = Some (ApiError 400 "Invalid file type. Only image files are allowed."
                    (JObj [("receivedType", JStr (mimetype f))]))) /\
  (snd (Upload.fileFilter (Upload.mkFileInfo field (mimetype f))) = true ->
   invalid_prompt (lookup "prompt" (body req)) = false ->
   file req = Some f ->
   snd (controller env req w)
   = mkWorld ((nextKeyIndex w + 1) mod 2)%nat
       ((nth_error keys (nextKeyIndex w),
         [TextPart (trim (prompt_text (lookup "prompt" (body req))));
          InlineData (toString_base64 (buffer f)) (mimetype f)])
        :: upstreamCalls w)).
Proof.
  unfold Upload.fileFilter. cbn [Upload.mimetype].
  destruct (prefix "image/" (mimetype f)) eqn:Hmime; cbn [fst snd].
  - split; [tauto|]. split; [discriminate|]. intros _ Hprompt Hfile.
    assert (Ht : truthy (JStr (mimetype f)) = true).
    { apply truthy_str. intros E. rewrite E in Hmime. discriminate Hmime. }
    unfold Controller.generateContent, Controller.handle. rewrite Hprompt, Hfile.
    unfold Model.generateContent. cbn [Rotator.getNextGenAI option_map build_parts].
    rewrite Ht, Hmime. cbn [negb]. now destruct (bind _ _).
  - split; [split; discriminate|]. split; [reflexivity | discriminate].
Qed.

End Upstream.

Lemma model_throws_only_api_errors_witness :
  exists code m d,
    ApiError 502 "Error communicating with the Google AI service."
             (JObj [("sdkError", JStr "fetch failed")])
    = ApiError code m d /\ In code upstream_codes.
Proof.
  apply (model_throws_only_api_errors string "key one" "key two" down_sdk None
           "hi" None None fresh).
  - intros key parts e H. injection H as <-. reflexivity.
  - reflexivity.
Defined.

Lemma empty_outcome_presented_witness :
  exists msg,
    lookup "text" (data no_parts) = JStr msg /\
    Controller.generateContent "key one" "key two" (answering no_parts_result) None
      (request_of (JStr "hi")) fresh
    = (mkResponse 200 (JObj [("message", JStr msg)]),
       mkWorld 1 [(Some "key one", [TextPart "hi"])]).
Proof.
  apply (empty_outcome_presented string "key one" "key two" (answering no_parts_result)
           None (request_of (JStr "hi")) fresh); reflexivity.
Defined.

Lemma prompt_block_is_400_witness :
  fst (Controller.generateContent "key one" "key two" (answering prompt_blocked_result)
         None (request_of (JStr "hi")) fresh)
  = mkResponse 400
      (JObj [("error", JStr "Content generation blocked due to: SAFETY");
             ("details", JObj [("safetyRatings", JUndefined)])]).
Proof.
  refine (prompt_block_is_400 string "key one" "key two"
            (answering prompt_blocked_result) None
            (request_of (JStr "hi")) fresh prompt_blocked_result _ _ _ _ _ _);
    reflexivity.
Defined.

Lemma safety_stop_is_500_witness :
  fst (Controller.generateContent "key one" "key two" (answering safety_result) None
         (request_of (JStr "hi")) fresh)
  = mkResponse 500
      (JObj [("error", JStr "Content generation stopped due to safety concerns.");
             ("details",
              JObj [("safetyRatings", JArr [JStr "HARM_CATEGORY_HARASSMENT"])])]).
Proof.
  refine (safety_stop_is_500 string "key one" "key two" (answering safety_result) None
            (request_of (JStr "hi")) fresh safety_result safety_candidate []
            _ _ _ _ _ _ _);
    reflexivity.
Defined.

Lemma missing_response_is_500_witness :
  fst (Controller.generateContent "key one" "key two" (answering no_response_result)
         None (request_of (JStr "hi")) fresh)
  = mkResponse 500
      (JObj [("error", JStr "Received no response object from API.");
             ("details", JUndefined)]).
Proof.
  refine (missing_response_is_500 string "key one" "key two"
            (answering no_response_result) None
            (request_of (JStr "hi")) fresh no_response_result _ _ _ _ _);
    reflexivity.
Defined.

Lemma blocked_upstream_error_witness :
  fst (Controller.generateContent "key one" "key two" blocked_sdk None
         (request_of (JStr "hi")) fresh)
  = mkResponse 400
      (JObj [("error", JStr "Request blocked due to safety settings: Safety settings");
             ("details", JObj [("safetyRatings", JStr "N/A")])]).
Proof.
  refine (proj2 (blocked_upstream_error string "key one" "key two" blocked_sdk None
                   (request_of (JStr "hi")) fresh
                   (OtherError "GoogleGenerativeAIResponseError"
                      "[GoogleGenerativeAI Error]: Candidate was blocked; response was blocked"
                      JUndefined JUndefined JUndefined) _ _ _ _ _) _);
    reflexivity.
Defined.

Lemma preset_controller_rule_witness :
  status (fst (PresetController.generateContent "key one" "key two" hello_sdk None
                 (request_of (JStr "Add sunglasses")) fresh)) = 500 /\
  snd (PresetController.generateContent "key one" "key two" hello_sdk None
         (request_of (JStr "Add sunglasses")) fresh) = fresh.
Proof.
  destruct (proj2 (preset_controller_rule string "key one" "key two" hello_sdk None
                     (request_of (JStr "Add sunglasses")) fresh "Add sunglasses"
                     eq_refl eq_refl)) as [Hs [_ Hw]].
  - unfold presets. simpl. intros H.
    repeat (destruct H as [H|H]; [discriminate H|]). exact H.
  - now split.
Defined.

Lemma upload_failure_skips_controller_witness :
  snd (Routes.post_generate "key one" "key two" hello_sdk None
         (Some (Upload.MulterError "LIMIT_FILE_SIZE" JUndefined "File too large"))
         (request_of (JStr "hi")) fresh) = fresh.
Proof.
  destruct (upload_failure_skips_controller string "key one" "key two" hello_sdk None
              (Upload.MulterError "LIMIT_FILE_SIZE" JUndefined "File too large")
              (request_of (JStr "hi")) fresh) as [code [m [d [_ [H _]]]]].
  now rewrite H.
Defined.

Lemma serve_rotates_credentials_witness :
  map fst (rev (upstreamCalls
                  (snd (Routes.serve "key one" "key two" hello_sdk None
                          three_requests fresh))))
  = [Some "key one"; Some "key two"; Some "key one"].
Proof.
  destruct (serve_rotates_credentials string "key one" "key two" hello_sdk None
              three_requests fresh) as [_ [new [Hlog [Hkeys _]]]].
  - intros r Hr. simpl in Hr.
    repeat (destruct Hr as [<-|Hr]; [repeat split|]). now elim Hr.
  - rewrite Hlog. cbn [fresh upstreamCalls]. rewrite app_nil_r. exact Hkeys.
Defined.

Lemma accepted_upload_is_forwarded_witness :
  snd (Controller.generateContent "key one" "key two" hello_sdk None
         (mkRequest [("prompt", JStr " add a hat ")] (Some png_file)) fresh)
  = mkWorld 1 [(Some "key one",
                [TextPart "add a hat"; InlineData "iVBORw0KGgo=" "image/png"])].
Proof.
  refine (proj2 (proj2 (accepted_upload_is_forwarded string "key one" "key two"
                          hello_sdk None
                          (mkRequest [("prompt", JStr " add a hat ")] (Some png_file))
                          fresh png_file "image")) _ _ _);
    reflexivity.
Defined.

End ControllerMore.

(** ** The error handler and the test page *)

Module MiddlewareMore.
Import Js Classifier Controller TestForm JsFacts.
Local Open Scope Z_scope.

(** X23. For an [ApiError] the error handler answers with the error's own
    status code and its message as [error]; the body has either [details]
    (when the error carries some) or [message], never both. *)
Theorem api_error_response (env : Env) (code : Z) (m : string) (d : JsVal) :
  errorMiddleware env (ApiError code m d)
  = mkResponse code
      (JObj (if truthy d then [("error", JStr m); ("details", d)]
             else [("error", JStr m);
                   ("message",
                    JStr (if env_is env "production"
                          then "See error field for details." else m))])).
Proof.
  unfold errorMiddleware, or_else. destruct (truthy d); reflexivity.
Qed.

(** X24. In production the message of an error that is not an [ApiError]
    never reaches the client: the answer is one of two fixed responses,
    400 for a request body that is not valid JSON and 500 for anything
    else.  Outside production the 500 answer carries the message. *)
Theorem production_hides_messages (env : Env) (name msg : string)
        (st r t : JsVal) :
  (env_is env "production" = true ->
   errorMiddleware env (OtherError name msg st r t)
   = (if (name =? "SyntaxError")%string && is_str t "entity.parse.failed"
      then mkResponse 400
             (JObj [("error", JStr "Bad Request: Malformed JSON");
                    ("message",
                     JStr "The request body could not be parsed as valid JSON.")])
      else mkResponse 500
             (JObj [("error", JStr "Internal Server Error");
                    ("message", JStr "An unexpected error occurred.")]))) /\
  (env_is env "production" = false ->
   (name =? "SyntaxError")%string && is_str t "entity.parse.failed" = false ->
   errorMiddleware env (OtherError name msg st r t)
   = mkResponse 500
       (JObj [("error", JStr "Internal Server Error"); ("message", JStr msg)])).
Proof.
  unfold errorMiddleware. split.
  - intros ->. now destruct (_ && _).
  - intros -> ->. reflexivity.
Qed.

Lemma production_hides_messages_witness :
  errorMiddleware (Some "production")
    (TypeError "Cannot read properties of undefined (reading 'trim')")
  = mkResponse 500
      (JObj [("error", JStr "Internal Server Error");
             ("message", JStr "An unexpected error occurred.")]).
Proof.
  apply (proj1 (production_hides_messages (Some "production") "TypeError"
                  "Cannot read properties of undefined (reading 'trim')"
                  JUndefined JUndefined JUndefined)).
  reflexivity.
Defined.

Local Open Scope string_scope.

Lemma replace_all_app (c : ascii) (b s t : string) :
  replace_all c b (s ++ t) = replace_all c b s ++ replace_all c b t.
Proof.
  induction s as [|x s IH]; [reflexivity|].
  cbn [append replace_all]. now rewrite IH, append_assoc.
Qed.

Lemma passes_char (x : ascii) :
  replace_all "'" "&#039;"
    (replace_all dquote "&quot;"
      (replace_all ">" "&gt;"
        (replace_all "<" "&lt;"
          (if Ascii.eqb x "&" then "&amp;" else String x EmptyString))))
  = escape_char x.
Proof.
  destruct x as [[] [] [] [] [] [] [] []]; reflexivity.
Qed.

Lemma passes_each (s : string) :
  replace_all "'" "&#039;"
    (replace_all dquote "&quot;"
      (replace_all ">" "&gt;"
        (replace_all "<" "&lt;"
          (replace_all "&" "&amp;" s))))
  = escape_each s.
Proof.
  induction s as [|x s IH]; [reflexivity|].
  cbn [replace_all escape_each]. rewrite !replace_all_app, IH.
  now rewrite passes_char.
Qed.

Lemma occurs_app (x : ascii) (s t : string) :
  occurs x (s ++ t) = occurs x s || occurs x t.
Proof.
  induction s as [|y s IH]; [reflexivity|].
  cbn [append occurs]. now rewrite IH, orb_assoc.
Qed.

Lemma escape_char_clean (y : ascii) :
  occurs "<" (escape_char y) = false /\ occurs ">" (escape_char y) = false /\
  occurs dquote (escape_char y) = false /\ occurs "'" (escape_char y) = false.
Proof.
  destruct y as [[] [] [] [] [] [] [] []]; repeat split; reflexivity.
Qed.

Lemma escape_char_plain (y : ascii) :
  special y = false -> escape_char y = String y EmptyString.
Proof.
  destruct y as [[] [] [] [] [] [] [] []]; intros H; try reflexivity; discriminate H.
Qed.

Lemma escapeHtml_each (s : string) : escapeHtml (JStr s) = Normal (escape_each s).
Proof.
  unfold escapeHtml. destruct (truthy (JStr s)) eqn:E; cbn [negb].
  - now rewrite passes_each.
  - destruct s; [reflexivity | discriminate E].
Qed.

Lemma escape_each_clean (s : string) :
  occurs "<" (escape_each s) = false /\ occurs ">" (escape_each s) = false /\
  occurs dquote (escape_each s) = false /\ occurs "'" (escape_each s) = false.
Proof.
  induction s as [|y s [I1 [I2 [I3 I4]]]]; [repeat split|].
  cbn [escape_each]. rewrite !occurs_app.
  destruct (escape_char_clean y) as [H1 [H2 [H3 H4]]].
  now rewrite H1, H2, H3, H4, I1, I2, I3, I4.
Qed.

(** X25. [escapeHtml] on a string: the five passes never escape each other's
    output, so the result is each character escaped once; no [<], [>],
    double quote or apostrophe is left in it; and a string without any of
    the five special characters comes back unchanged. *)
Theorem escapeHtml_escapes (s : string) :
  escapeHtml (JStr s) = Normal (escape_each s) /\
  occurs "<" (escape_each s) = false /\
  occurs ">" (escape_each s) = false /\
  occurs dquote (escape_each s) = false /\
  occurs "'" (escape_each s) = false /\
  (has_special s = false -> escapeHtml (JStr s) = Normal s).
Proof.
  split; [apply escapeHtml_each|].
  destruct (escape_each_clean s) as [H1 [H2 [H3 H4]]].
  repeat (split; [assumption|]).
  intros Hplain. rewrite escapeHtml_each. f_equal.
  clear H1 H2 H3 H4. induction s as [|y s IH]; [reflexivity|].
  cbn [has_special] in Hplain. apply orb_false_iff in Hplain as [Hy Hs].
  cbn [escape_each]. now rewrite escape_char_plain, IH.
Qed.

Lemma escapeHtml_escapes_witness : escapeHtml (JStr "a cat") = Normal "a cat".
Proof.
  apply (proj2 (proj2 (proj2 (proj2 (proj2 (escapeHtml_escapes "a cat")))))).
  reflexivity.
Defined.

End MiddlewareMore.

(** ** Conversation history *)

Module HistoryMore.
Import Js History TestForm JsFacts.

Lemma formatPart_shape (role part p : JsVal) :
  formatPart role part = Normal p ->
  p = JNull \/ formatted_part (is_str role "user") p.
Proof.
  unfold formatPart, formatted_part. intros H.
  destruct (get part "text") as [text|e]; cbn [bind] in H; [|discriminate H].
  destruct (truthy text) eqn:Ht.
  - injection H as <-. right. left. now exists text.
  - destruct (get part "image") as [image|e]; cbn [bind] in H; [|discriminate H].
    destruct (truthy image && is_str role "user") eqn:Hi;
      [|injection H as <-; now left].
    apply andb_true_iff in Hi as [_ Hrole]. rewrite Hrole.
    destruct (match image with JStr s => includes "base64" s | _ => false end).
    + destruct (1 <? _)%nat; injection H as <-; [|now left].
      right. right. split; [reflexivity|]. do 2 eexists. split; [reflexivity|].
      now destruct (includes "image/png" _).
    + destruct (get image "buffer") as [buffer|e]; cbn [bind] in H; [|discriminate H].
      destruct (get image "mimeType") as [mimeType|e]; cbn [bind] in H;
        [|discriminate H].
      destruct (truthy buffer && truthy mimeType) eqn:Hb;
        [|injection H as <-; now left].
      apply andb_true_iff in Hb as [_ Hm].
      destruct (call_toString_base64 buffer) as [d|e]; cbn [bind] in H;
        [|discriminate H].
      injection H as <-. right. right. split; [reflexivity|]. now exists d, mimeType.
Qed.

Lemma formatted_part_truthy (b : bool) (p : JsVal) : formatted_part b p -> truthy p = true.
Proof. now intros [[t [-> _]]|[_ [d [m [-> _]]]]]. Qed.

Lemma formatParts_shape (role : JsVal) (l mapped : list JsVal) :
  map_m (formatPart role) l = Normal mapped ->
  Forall (formatted_part (is_str role "user")) (filter truthy mapped) /\
  length mapped = length l.
Proof.
  revert mapped. induction l as [|part l IH]; intros mapped H.
  - injection H as <-. now split.
  - cbn [map_m] in H.
    destruct (formatPart role part) as [p|e] eqn:Hp; cbn [bind] in H; [|discriminate H].
    destruct (map_m (formatPart role) l) as [ps|e]; cbn [bind] in H; [|discriminate H].
    injection H as <-. destruct (IH ps eq_refl) as [Hall Hlen].
    split; [|cbn [length]; now rewrite Hlen].
    cbn [filter]. destruct (formatPart_shape _ _ _ Hp) as [->|Hf].
    + exact Hall.
    + rewrite (formatted_part_truthy _ _ Hf). now constructor.
Qed.

Lemma formatItem_shape (item i : JsVal) :
  formatItem item = Normal i -> i = JNull \/ formatted_item i.
Proof.
  unfold formatItem, formatted_item. intros H.
  destruct (get item "role") as [role|e]; cbn [bind] in H; [|discriminate H].
  destruct (truthy role) eqn:Hr; cbn [negb] in H; [|injection H as <-; now left].
  destruct (get item "parts") as [parts|e]; cbn [bind] in H; [|discriminate H].
  destruct parts as [| | | | |l|]; try (injection H as <-; now left).
  destruct (map_m (formatPart role) l) as [mapped|e] eqn:Hm; cbn [bind] in H;
    [|discriminate H].
  injection H as <-. right. exists role, (filter truthy mapped).
  split; [reflexivity|]. split; [exact Hr|].
  now apply (formatParts_shape role l mapped).
Qed.

Lemma formatted_item_truthy (i : JsVal) : formatted_item i -> truthy i = true.
Proof. now intros [role [ps [-> _]]]. Qed.

Lemma formatItems_shape (l mapped : list JsVal) :
  map_m formatItem l = Normal mapped ->
  Forall formatted_item (filter truthy mapped) /\
  (length (filter truthy mapped) <= length l)%nat.
Proof.
  revert mapped. induction l as [|item l IH]; intros mapped H.
  - injection H as <-. split; [constructor | simpl; lia].
  - cbn [map_m] in H.
    destruct (formatItem item) as [i|e] eqn:Hi; cbn [bind] in H; [|discriminate H].
    destruct (map_m formatItem l) as [is_|e]; cbn [bind] in H; [|discriminate H].
    injection H as <-. destruct (IH is_ eq_refl) as [Hall Hlen].
    cbn [filter length]. destruct (formatItem_shape _ _ Hi) as [->|Hf].
    + split; [exact Hall | simpl; lia].
    + rewrite (formatted_item_truthy _ Hf). split; [now constructor | simpl; lia].
Qed.

(** X26. Whatever [formatHistory] returns is well formed and holds no
    [null]: every item is an object [{role, parts}] with a truthy role and
    an array of parts, every part is [{text}] with a truthy text or
    [{inlineData: {data, mimeType}}] with a string for data and a truthy
    MIME type, inline data occurs only in items of role "user", and there
    are at most as many items as the history had. *)
Theorem formatHistory_well_formed (history : JsVal) (items : list JsVal) :
  formatHistory history = Normal items ->
  Forall formatted_item items /\
  forall l, history = JArr l -> (length items <= length l)%nat.
Proof.
  unfold formatHistory. intros H.
  destruct history as [| | | | |[|item l]|]; try (injection H as <-; split;
    [constructor | intros l' _; simpl; lia]).
  destruct (map_m formatItem (item :: l)) as [mapped|e] eqn:Hm; cbn [bind] in H;
    [|discriminate H].
  injection H as <-. destruct (formatItems_shape _ _ Hm) as [Hall Hlen].
  split; [exact Hall|]. intros l' Hl. injection Hl as <-. exact Hlen.
Qed.

Lemma formatHistory_well_formed_witness :
  Forall formatted_item
    [JObj [("role", JStr "user"); ("parts", JArr [JObj [("text", JStr "hi")]])]].
Proof.
  apply (formatHistory_well_formed
           (JArr [JObj [("role", JStr "user");
                        ("parts", JArr [JObj [("text", JStr "hi")]; JObj []])];
                  JObj [("parts", JArr [])]])).
  reflexivity.
Defined.

Lemma formatHistory_array (l : list JsVal) :
  formatHistory (JArr l)
  = let! mapped := map_m formatItem l in Normal (filter truthy mapped).
Proof. now destruct l. Qed.

Lemma map_m_app {A B : Type} (f : A -> Completion B) (l1 l2 : list A) :
  map_m f (l1 ++ l2)
  = let! ys1 := map_m f l1 in let! ys2 := map_m f l2 in Normal (ys1 ++ ys2)%list.
Proof.
  induction l1 as [|x l1 IH]; cbn [app map_m bind].
  - now destruct (map_m f l2).
  - destruct (f x) as [y|e]; cbn [bind]; [|reflexivity]. rewrite IH.
    destruct (map_m f l1) as [ys1|e]; cbn [bind]; [|reflexivity].
    now destruct (map_m f l2).
Qed.

(** X27. What is not a non-empty array formats to the empty history.  An
    item of the history that has no role, or whose parts are not an array,
    is dropped without an error wherever it stands: the call does what it
    does on the history without the item.  An item that is [null] or
    [undefined], wherever it stands, makes the whole call throw: the error
    is the one of reading its role when the items before it format, and
    the error of the first item before it that fails otherwise. *)
Theorem formatHistory_edges (history item : JsVal) (before after : list JsVal) :
  ((forall x l, history <> JArr (x :: l)) -> formatHistory history = Normal []) /\
  (nullish item = false ->
   truthy (prop item "role") = false \/ is_array (prop item "parts") = false ->
   formatItem item = Normal JNull /\
   formatHistory (JArr (before ++ item :: after))
   = formatHistory (JArr (before ++ after))) /\
  (nullish item = true ->
   (exists error, formatHistory (JArr (before ++ item :: after)) = Throw error) /\
   (forall formatted,
      map_m formatItem before = Normal formatted ->
      formatHistory (JArr (before ++ item :: after)) = Throw (cannot_read item "role")) /\
   (forall error,
      map_m formatItem before = Throw error ->
      formatHistory (JArr (before ++ item :: after)) = Throw error)).
Proof.
  split; [|split].
  - intros H. unfold formatHistory.
    destruct history as [| | | | |[|x l]|]; try reflexivity. now elim (H x l).
  - intros Hn Hbad.
    assert (Hi : formatItem item = Normal JNull).
    { unfold formatItem, get. rewrite Hn. cbn [bind].
      destruct (truthy (prop item "role")) eqn:Hr; cbn [negb]; [|reflexivity].
      destruct Hbad as [H|H]; [discriminate H|].
      now destruct (prop item "parts"). }
    split; [exact Hi|]. rewrite !formatHistory_array, !map_m_app.
    cbn [map_m]. rewrite Hi. cbn [bind].
    destruct (map_m formatItem before) as [ys1|e]; cbn [bind]; [|reflexivity].
    destruct (map_m formatItem after) as [ys2|e]; cbn [bind]; [|reflexivity].
    now rewrite !filter_app.
  - intros Hn.
    assert (Hi : formatItem item = Throw (cannot_read item "role")).
    { unfold formatItem, get. now rewrite Hn. }
    assert (Hok : forall formatted,
              map_m formatItem before = Normal formatted ->
              formatHistory (JArr (before ++ item :: after))
              = Throw (cannot_read item "role")).
    { intros formatted Hbefore. rewrite formatHistory_array, map_m_app, Hbefore.
      cbn [map_m bind]. now rewrite Hi. }
    assert (Hfail : forall error,
              map_m formatItem before = Throw error ->
              formatHistory (JArr (before ++ item :: after)) = Throw error).
    { intros error Hbefore. now rewrite formatHistory_array, map_m_app, Hbefore. }
    split; [|split; [exact Hok | exact Hfail]].
    destruct (map_m formatItem before) as [formatted|error] eqn:Hbefore.
    + eexists. now apply Hok with formatted.
    + exists error. now apply Hfail.
Qed.

Lemma formatHistory_edges_witness :
  formatHistory (JArr [user_says_hi; JObj [("role", JStr "user")]; user_says_hi])
  = formatHistory (JArr [user_says_hi; user_says_hi]) /\
  formatHistory (JArr [user_says_hi; JNull]) = Throw (cannot_read JNull "role") /\
  formatHistory (JArr [number_buffer_item; JNull])
  = Throw (OtherError "RangeError" "toString() radix must be between 2 and 36"
                      JUndefined JUndefined JUndefined).
Proof.
  split; [|split].
  - refine (proj2 (proj1 (proj2 (formatHistory_edges JUndefined
                                   (JObj [("role", JStr "user")])
                                   [user_says_hi] [user_says_hi])) _ _));
      [reflexivity | right; reflexivity].
  - refine (proj1 (proj2 (proj2 (proj2 (formatHistory_edges JUndefined JNull
                                          [user_says_hi] [])) _)) _ _);
      reflexivity.
  - refine (proj2 (proj2 (proj2 (proj2 (formatHistory_edges JUndefined JNull
                                          [number_buffer_item] [])) _)) _ _);
      reflexivity.
Defined.

Lemma split_on_plain (c : ascii) (s : string) : occurs c s = false -> split_on c s = [s].
Proof.
  induction s as [|x s IH]; [reflexivity|]. cbn [occurs split_on]. intros H.
  apply orb_false_iff in H as [Hx Hs]. now rewrite Hx, IH.
Qed.

Lemma split_on_first (c : ascii) (pre rest : string) :
  occurs c pre = false ->
  split_on c (pre ++ String c rest) = pre :: split_on c rest.
Proof.
  induction pre as [|x pre IH]; cbn [occurs append split_on]; intros H.
  - now rewrite Ascii.eqb_refl.
  - apply orb_false_iff in H as [Hx Hs]. now rewrite Hx, IH.
Qed.

(** X28. An image given as a data URL in an item of role "user": the part
    becomes inline data whose data is the text after the comma, and whose
    MIME type is [image/png] if the URL contains "image/png" and
    [image/jpeg] in every other case, whatever type the URL names; in an
    item of any other role the image is dropped. *)
Theorem data_url_part (role : JsVal) (pre d : string) :
  occurs "," pre = false ->
  occurs "," d = false ->
  includes "base64" (pre ++ "," ++ d) = true ->
  (is_str role "user" = true ->
   formatPart role (JObj [("image", JStr (pre ++ "," ++ d))])
   = Normal (JObj [("inlineData",
                    JObj [("data", JStr d);
                          ("mimeType",
                           JStr (if includes "image/png" (pre ++ "," ++ d)
                                 then "image/png" else "image/jpeg"))])])) /\
  (is_str role "user" = false ->
   formatPart role (JObj [("image", JStr (pre ++ "," ++ d))]) = Normal JNull).
Proof.
  intros Hpre Hd Hb.
  assert (Ht : truthy (JStr (pre ++ "," ++ d)) = true).
  { apply truthy_str. intros E. rewrite E in Hb. discriminate Hb. }
  split; intros Hrole; unfold formatPart;
    cbn [get nullish prop lookup find fst snd String.eqb Ascii.eqb Bool.eqb bind truthy];
    fold (truthy (JStr (pre ++ "," ++ d))); rewrite Ht, Hrole; cbn [andb];
    [|reflexivity].
  rewrite Hb. cbn [to_string].
  change (pre ++ "," ++ d) with (pre ++ String "," d) at 1 2.
  rewrite (split_on_first "," pre d Hpre), (split_on_plain "," d Hd).
  reflexivity.
Qed.

Lemma data_url_part_witness :
  formatPart (JStr "user") (JObj [("image", JStr ("data:image/gif;base64" ++ "," ++ "R0lGODlh"))])
  = Normal (JObj [("inlineData",
                   JObj [("data", JStr "R0lGODlh"); ("mimeType", JStr "image/jpeg")])]).
Proof.
  refine (proj1 (data_url_part (JStr "user") "data:image/gif;base64" "R0lGODlh" _ _ _) _);
    reflexivity.
Defined.

End HistoryMore.
